(** * docker-dev: the container-swap lifecycle of [main.go]

    A shallow embedding of [src/main.go].  The program talks to the Docker
    daemon, the file system, [git] and [docker attach]; every such call is an
    operation of a small free monad [Prog], so that one program text can be
    run sequentially against an arbitrary environment ([exec]) and scheduled
    together with its goroutines ([step_by]).  Go slices are modelled with
    their backing arrays in an explicit store, because the derivation of the
    development configuration appends to a slice that shares its array with
    the inspected snapshot. *)

From Stdlib Require Import String Ascii ZArith Lia List Bool.
From stdpp Require Import base option list strings gmap.

Local Open Scope string_scope.
Local Open Scope list_scope.
Local Open Scope Z_scope.
Local Open Scope nat_scope.

(* ===================================================================== *)
(** ** Go strings: byte sequences, slicing with bounds checks *)
(* ===================================================================== *)

Module GoString.

(** [len(s)] *)
Definition len (s : string) : nat := String.length s.

(** [s[:n]]; [None] is the run-time panic "slice bounds out of range". *)
Definition slice_to (s : string) (n : nat) : option string :=
  if (n <=? len s)%nat then Some (substring 0 n s) else None.

(** [s[a:b]] for Go [int] indices; [None] is the run-time panic raised
    unless [0 <= a <= b <= len(s)]. *)
Definition slice (s : string) (a b : Z) : option string :=
  if ((0 <=? a) && (a <=? b) && (b <=? Z.of_nat (len s)))%Z
  then Some (substring (Z.to_nat a) (Z.to_nat b - Z.to_nat a) s)
  else None.

(** [strings.LastIndex(s, sep)]: the byte index of the last occurrence of
    [sep] in [s], or [-1].  The scan keeps the latest position at which
    [sep] is a prefix of the remaining text. *)
Fixpoint last_index_aux (s sep : string) (i acc : Z) : Z :=
  let acc' := if String.prefix sep s then i else acc in
  match s with
  | EmptyString => acc'
  | String _ s' => last_index_aux s' sep (i + 1)%Z acc'
  end.

Definition LastIndex (s sep : string) : Z := last_index_aux s sep 0%Z (-1)%Z.

End GoString.

(* ===================================================================== *)
(** ** Go slices of strings over a store of backing arrays *)
(* ===================================================================== *)

Module GoSlice.

(** The store: every backing array of a [[]string] that the program can
    reach, addressed by its position. *)
Abbreviation Heap := (list (list string)).

(** A slice header: backing array, first element, length, capacity. *)
Record Slice := mkSlice { ptr : nat; off : nat; len : nat; cap : nat }.

(** The nil slice, also the value of the literal [[]string{}]: no element
    can be read or written through it. *)
Definition nil_slice : Slice := mkSlice 0 0 0 0.

Definition array (h : Heap) (s : Slice) : list string :=
  default [] (h !! ptr s).

(** The elements visible through a slice: [s[0], ..., s[len(s)-1]]. *)
Definition read (h : Heap) (s : Slice) : list string :=
  take (len s) (drop (off s) (array h s)).

(** A composite literal [[]string{x1, ..., xn}], or any allocation of a
    fresh array holding [l] followed by [slack] zero values. *)
Definition alloc (h : Heap) (l : list string) (slack : nat) : Heap * Slice :=
  (h ++ [l ++ replicate slack ""],
   mkSlice (length h) 0 (length l) (length l + slack)).

Section Append.
(** The capacity the Go runtime picks when [append] has to grow a slice
    of capacity [old] to hold [needed] elements; whatever the policy
    says, the new array holds at least [needed] elements. *)
Variable growcap : nat -> nat -> nat.

Definition newcap (old needed : nat) : nat := Nat.max needed (growcap old needed).

(** [append(s, x)]: with spare capacity the element is written in place,
    into the array [s] shares with every other slice of it; otherwise
    the elements move to a fresh, larger array. *)
Definition append (h : Heap) (s : Slice) (x : string) : Heap * Slice :=
  if (len s <? cap s)%nat then
    (<[ptr s := <[off s + len s := x]> (array h s)]> h,
     mkSlice (ptr s) (off s) (S (len s)) (cap s))
  else
    let c := newcap (cap s) (S (len s)) in
    (h ++ [read h s ++ x :: replicate (c - S (len s)) ""],
     mkSlice (length h) 0 (S (len s)) c).
End Append.

(** A slice lies within its backing array (a slice without capacity, such
    as the nil slice, needs no array at all). *)
Definition wf (h : Heap) (s : Slice) : Prop :=
  len s <= cap s /\ (cap s = 0 \/ off s + cap s <= length (array h s)).

(** The cells of [s] that [append] may write without reallocating: the
    spare capacity [s[len(s):cap(s)]]. *)
Definition spare (s : Slice) (a i : nat) : Prop :=
  a = ptr s /\ off s + len s <= i < off s + cap s.

(** The cells read through [s]. *)
Definition cells (s : Slice) (a i : nat) : Prop :=
  a = ptr s /\ off s <= i < off s + len s.

(** No cell of [t] lies in the spare capacity of [s]. *)
Definition separate (s t : Slice) : Prop :=
  forall a i, spare s a i -> ~ cells t a i.

End GoSlice.

(* ===================================================================== *)
(** ** The Docker API types that [main.go] reads and writes *)
(* ===================================================================== *)

(** A Go [error] value, by its message. *)
Definition error := string.

(** A call returning [(T, error)]. *)
Inductive res (A : Type) : Type :=
| Ok (a : A)
| Err (e : error).
Arguments Ok {A} a.
Arguments Err {A} e.

(** [mount.Mount]; [mount.TypeBind] is the only type the program writes. *)
Inductive MountType := TypeBind | TypeVolume | TypeTmpfs.

Record Mount := mkMount { Type_ : MountType; Source : string; Target : string }.

(** [network.EndpointSettings], one entry per attached network. *)
Record EndpointSettings := mkEndpoint {
  NetworkID : string;
  IPAddress : string;
  Aliases : list string
}.

(** [containerJSON.NetworkSettings.Networks], a Go map keyed by network
    name. *)
Definition Networks := gmap string EndpointSettings.

(** [network.NetworkingConfig] *)
Record NetworkingConfig := mkNetworkingConfig { EndpointsConfig : Networks }.

(** [container.Config].  [S] is the representation of a [[]string] field: a
    slice header [GoSlice.Slice] while the struct lives in the program's
    memory, the list of its elements once the daemon has read it.  The
    fields [main.go] never names ([Hostname], [User], [Labels] here) travel
    with every copy of the struct. *)
Record Config (S : Type) := mkConfig {
  Image : string;
  WorkingDir : string;
  Cmd : S;
  Entrypoint : S;
  Env : S;
  AttachStdin : bool;
  AttachStdout : bool;
  AttachStderr : bool;
  Tty : bool;
  OpenStdin : bool;
  StdinOnce : bool;
  Hostname : string;
  User : string;
  Labels : list (string * string)
}.
Arguments mkConfig {S}.
Arguments Image {S}.
Arguments WorkingDir {S}.
Arguments Cmd {S}.
Arguments Entrypoint {S}.
Arguments Env {S}.
Arguments AttachStdin {S}.
Arguments AttachStdout {S}.
Arguments AttachStderr {S}.
Arguments Tty {S}.
Arguments OpenStdin {S}.
Arguments StdinOnce {S}.
Arguments Hostname {S}.
Arguments User {S}.
Arguments Labels {S}.

(** [container.HostConfig].  No write of the program goes through the
    array of a [Mounts] slice (the field is only ever assigned a fresh
    literal), so the slice is kept as the list of its elements. *)
Record HostConfig := mkHostConfig {
  Mounts : list Mount;
  Binds : list string;
  NetworkMode : string;
  Privileged : bool
}.

(** [types.ContainerJSON], as far as [main.go] dereferences it.  The
    pointers [Config], [HostConfig] and [NetworkSettings] are those of a
    successful inspect and are never nil. *)
Record ContainerJSON (S : Type) := mkContainerJSON {
  Name : string;
  State_Running : bool;
  Config_ : Config S;
  HostConfig_ : HostConfig;
  NetworkSettings_Networks : Networks
}.
Arguments mkContainerJSON {S}.
Arguments Name {S}.
Arguments State_Running {S}.
Arguments Config_ {S}.
Arguments HostConfig_ {S}.
Arguments NetworkSettings_Networks {S}.

(** [types.Container], an entry of the container list. *)
Record ContainerSummary := mkSummary { ID : string; Names : list string }.

(** [container.CreateResponse] *)
Record CreateResponse := mkCreateResponse { resp_ID : string }.

(** What [ContainerWait] delivers on one of its two channels. *)
Inductive WaitResult :=
| WaitBody (StatusCode : Z)
| WaitErr (e : error).

(** The answer of a successful inspect: the decoded document, and for each
    [[]string] field the spare capacity the JSON decoder left behind the
    decoded elements. *)
Record InspectReply := mkInspectReply {
  document : ContainerJSON (list string);
  slack_Cmd : nat;
  slack_Entrypoint : nat;
  slack_Env : nat
}.

(** [os.Signal]; the program registers and sends [os.Interrupt] only. *)
Inductive Signal := Interrupt.

(** The two goroutines of the program, each with the container it
    watches. *)
Inductive Goroutine :=
| AttachWatcher (id : string)
| ExitWatcher (id : string).

(** An argument of a [Printf]-style call. *)
Inductive Arg :=
| AStr (s : string)
| AInt (z : Z)
| AErr (e : error).

(* ===================================================================== *)
(** ** Programs: the calls a goroutine makes, and how it can end *)
(* ===================================================================== *)

(** Where a message is written. *)
Inductive Stream := Stdout | Stderr.

(** The operations of the program on the world outside its own memory,
    indexed by the type of their answer.  The last five are the Go
    statements on the termination channel [sigCh] and on goroutines. *)
Inductive Op : Type -> Type :=
| NewClientWithOpts : Op (option error)
| ContainerList (All : bool) : Op (res (list ContainerSummary))
| ContainerInspect (id : string) : Op (res InspectReply)
| ContainerStop (id : string) (timeout : Z) : Op (option error)
| ContainerWait (id : string) : Op WaitResult
| ContainerRemove (id : string) : Op (option error)
| ContainerCreate (config : Config (list string)) (hostConfig : HostConfig)
    (networkingConfig : NetworkingConfig) (name : string) : Op (res CreateResponse)
| ContainerStart (id : string) : Op (option error)
| Stat (path : string) : Op (option error)
| RemoveAll (path : string) : Op (option error)
| CmdRun (name : string) (args : list string) : Op (option error)
| Print (out : Stream) (format : string) (args : list Arg) : Op unit
| MakeChan (capacity : nat) : Op unit
| SignalNotify (sig : Signal) : Op unit
| GoStmt (g : Goroutine) : Op unit
| ChanSend (sig : Signal) : Op unit
| ChanRecv : Op Signal.

(** A goroutine's program: it returns, performs an operation and goes on
    with the answer, calls [log.Fatalf] (message, then [os.Exit(1)]), or
    panics. *)
Inductive Prog (A : Type) : Type :=
| Ret (a : A)
| Bind {R : Type} (op : Op R) (k : R -> Prog A)
| Fatalf (format : string) (args : list Arg)
| Panic (v : string).
Arguments Ret {A} a.
Arguments Bind {A R} op k.
Arguments Fatalf {A} format args.
Arguments Panic {A} v.

Fixpoint prog_bind {A B : Type} (f : A -> Prog B) (p : Prog A) : Prog B :=
  match p with
  | Ret a => f a
  | Bind op k => Bind op (fun r => prog_bind f (k r))
  | Fatalf format args => Fatalf format args
  | Panic v => Panic v
  end.

#[global] Instance Prog_ret : MRet Prog := fun A a => Ret a.
#[global] Instance Prog_bind : MBind Prog := fun A B f p => prog_bind f p.

(** One operation as a program. *)
Definition call {R : Type} (op : Op R) : Prog R := Bind op Ret.

(** How a goroutine ends. *)
Inductive Outcome (A : Type) : Type :=
| Done (a : A)
| Fatal (format : string) (args : list Arg)
| Panicked (v : string).
Arguments Done {A} a.
Arguments Fatal {A} format args.
Arguments Panicked {A} v.

(** One operation together with the answer it got. *)
Inductive Event : Type :=
| Ev {R : Type} (op : Op R) (r : R).

(** An environment: it answers every operation, knowing what happened
    before. *)
Definition Oracle := forall R : Type, list Event -> Op R -> R.

(** Running one goroutine from start to end against an environment; the
    result is the sequence of its operations and the way it ended. *)
Fixpoint run {A : Type} (o : Oracle) (p : Prog A) (past : list Event)
  : list Event * Outcome A :=
  match p with
  | Ret a => (past, Done a)
  | Bind op k => let r := o _ past op in run o (k r) (past ++ [Ev op r])
  | Fatalf format args => (past, Fatal format args)
  | Panic v => (past, Panicked v)
  end.

Definition exec {A : Type} (o : Oracle) (p : Prog A) : list Event * Outcome A :=
  run o p [].

(** [wp p Q past]: whatever the environment answers, [p] started after
    [past] ends with a trace and an outcome that satisfy [Q]. *)
Fixpoint wp {A : Type} (p : Prog A) (Q : list Event -> Outcome A -> Prop)
  (past : list Event) : Prop :=
  match p with
  | Ret a => Q past (Done a)
  | Bind op k => forall r, wp (k r) Q (past ++ [Ev op r])
  | Fatalf format args => Q past (Fatal format args)
  | Panic v => Q past (Panicked v)
  end.

(* ===================================================================== *)
(** ** Field assignments on struct copies *)
(* ===================================================================== *)

Definition set_Image {S : Type} (v : string) (c : Config S) : Config S :=
  mkConfig v (WorkingDir c) (Cmd c) (Entrypoint c) (Env c) (AttachStdin c)
    (AttachStdout c) (AttachStderr c) (Tty c) (OpenStdin c) (StdinOnce c)
    (Hostname c) (User c) (Labels c).

Definition set_WorkingDir {S : Type} (v : string) (c : Config S) : Config S :=
  mkConfig (Image c) v (Cmd c) (Entrypoint c) (Env c) (AttachStdin c)
    (AttachStdout c) (AttachStderr c) (Tty c) (OpenStdin c) (StdinOnce c)
    (Hostname c) (User c) (Labels c).

Definition set_Cmd {S : Type} (v : S) (c : Config S) : Config S :=
  mkConfig (Image c) (WorkingDir c) v (Entrypoint c) (Env c) (AttachStdin c)
    (AttachStdout c) (AttachStderr c) (Tty c) (OpenStdin c) (StdinOnce c)
    (Hostname c) (User c) (Labels c).

Definition set_Entrypoint {S : Type} (v : S) (c : Config S) : Config S :=
  mkConfig (Image c) (WorkingDir c) (Cmd c) v (Env c) (AttachStdin c)
    (AttachStdout c) (AttachStderr c) (Tty c) (OpenStdin c) (StdinOnce c)
    (Hostname c) (User c) (Labels c).

Definition set_Env {S : Type} (v : S) (c : Config S) : Config S :=
  mkConfig (Image c) (WorkingDir c) (Cmd c) (Entrypoint c) v (AttachStdin c)
    (AttachStdout c) (AttachStderr c) (Tty c) (OpenStdin c) (StdinOnce c)
    (Hostname c) (User c) (Labels c).

(** The six terminal flags, assigned one after the other in the source:
    [AttachStdin], [AttachStdout], [AttachStderr], [Tty], [OpenStdin],
    [StdinOnce]. *)
Definition set_terminal {S : Type} (c : Config S) : Config S :=
  mkConfig (Image c) (WorkingDir c) (Cmd c) (Entrypoint c) (Env c) true
    true true true true true (Hostname c) (User c) (Labels c).

Definition set_Mounts (v : list Mount) (hc : HostConfig) : HostConfig :=
  mkHostConfig v (Binds hc) (NetworkMode hc) (Privileged hc).

(** What the daemon reads when it is handed a pointer to a [Config]: the
    elements of each slice as the store holds them at that moment. *)
Definition observe (h : GoSlice.Heap) (c : Config GoSlice.Slice) : Config (list string) :=
  mkConfig (Image c) (WorkingDir c) (GoSlice.read h (Cmd c))
    (GoSlice.read h (Entrypoint c)) (GoSlice.read h (Env c)) (AttachStdin c)
    (AttachStdout c) (AttachStderr c) (Tty c) (OpenStdin c) (StdinOnce c)
    (Hostname c) (User c) (Labels c).

Definition observeJSON (h : GoSlice.Heap) (cj : ContainerJSON GoSlice.Slice)
  : ContainerJSON (list string) :=
  mkContainerJSON (Name cj) (State_Running cj) (observe h (Config_ cj))
    (HostConfig_ cj) (NetworkSettings_Networks cj).

(** The client library decodes the inspect answer into the program's
    memory: every [[]string] field gets an array of its own, with the spare
    capacity the decoder happened to leave. *)
Definition decode (h : GoSlice.Heap) (reply : InspectReply)
  : GoSlice.Heap * ContainerJSON GoSlice.Slice :=
  let doc := document reply in
  let '(h, cmd) := GoSlice.alloc h (Cmd (Config_ doc)) (slack_Cmd reply) in
  let '(h, entrypoint) := GoSlice.alloc h (Entrypoint (Config_ doc)) (slack_Entrypoint reply) in
  let '(h, env) := GoSlice.alloc h (Env (Config_ doc)) (slack_Env reply) in
  (h, mkContainerJSON (Name doc) (State_Running doc)
        (set_Env env (set_Entrypoint entrypoint (set_Cmd cmd
           (mkConfig (Image (Config_ doc)) (WorkingDir (Config_ doc))
              GoSlice.nil_slice GoSlice.nil_slice GoSlice.nil_slice
              (AttachStdin (Config_ doc)) (AttachStdout (Config_ doc))
              (AttachStderr (Config_ doc)) (Tty (Config_ doc))
              (OpenStdin (Config_ doc)) (StdinOnce (Config_ doc))
              (Hostname (Config_ doc)) (User (Config_ doc))
              (Labels (Config_ doc))))))
        (HostConfig_ doc) (NetworkSettings_Networks doc)).

(** The command-line flags after [flag.Parse]. *)
Record Flags := mkFlags {
  containerName : string;
  sourcePath : string;
  targetPath : string;
  newImage : string;
  remote : string;
  branch : string
}.

(* ===================================================================== *)
(** ** The functions of [main.go] *)
(* ===================================================================== *)

(** The inner loop of [getContainerIDByName]: [name == "/"+containerName]
    for some [name] of the container. *)
Fixpoint names_loop (names : list string) (containerName : string) : bool :=
  match names with
  | [] => false
  | name :: rest =>
      if String.eqb name ("/" +:+ containerName) then true
      else names_loop rest containerName
  end.

(** The outer loop: the ID of the first container one of whose names
    matches. *)
Fixpoint containers_loop (containers : list ContainerSummary) (containerName : string)
  : option string :=
  match containers with
  | [] => None
  | c :: rest =>
      if names_loop (Names c) containerName then Some (ID c)
      else containers_loop rest containerName
  end.

(** The lookup by name: all containers are listed ([All: true], so stopped
    ones too); a list error is passed on, no match is an error. *)
Definition getContainerIDByName (containerName : string) : Prog (res string) :=
  r ← call (ContainerList true);
  match r with
  | Err err => mret (Err err)
  | Ok containers =>
      match containers_loop containers containerName with
      | Some id => mret (Ok id)
      | None => mret (Err ("container with name " +:+ containerName +:+ " not found"))
      end
  end.

(** Messages are given without their final newline. *)
Definition waitForContainerStop (containerID : string) : Prog unit :=
  w ← call (ContainerWait containerID);
  match w with
  | WaitBody StatusCode =>
      if (StatusCode =? 0)%Z then call (Print Stdout "Container stopped" [])
      else call (Print Stdout "Container stopped with status code: %d" [AInt StatusCode])
  | WaitErr err =>
      call (Print Stdout "Error waiting for container to stop: %v" [AErr err])
  end.

(** The original container is created from the pointers the snapshot
    holds, under the snapshot's name, and started. *)
Definition recreateOriginalContainer (h : GoSlice.Heap)
    (containerJSON : ContainerJSON GoSlice.Slice)
    (networkingConfig : NetworkingConfig) : Prog unit :=
  r ← call (ContainerCreate (observe h (Config_ containerJSON))
              (HostConfig_ containerJSON) networkingConfig (Name containerJSON));
  match r with
  | Err err => Fatalf "Error creating container: %v" [AErr err]
  | Ok resp =>
      e ← call (ContainerStart (resp_ID resp));
      match e with
      | Some err => Fatalf "Error starting container: %v" [AErr err]
      | None =>
          call (Print Stdout "Original container %s started successfully"
                  [AStr (Name containerJSON)])
      end
  end.

(** The development container is inspected, stopped if it runs (the result
    of the stop request is dropped), and removed. *)
Definition cleanupDevContainer (resp : CreateResponse) : Prog unit :=
  r ← call (ContainerInspect (resp_ID resp));
  match r with
  | Err err => Panic err
  | Ok c =>
      (if State_Running (document c) then
         call (ContainerStop (resp_ID resp) 0);;
         waitForContainerStop (resp_ID resp)
       else mret tt);;
      e ← call (ContainerRemove (resp_ID resp));
      match e with
      | Some err => Fatalf "Error removing container: %v" [AErr err]
      | None => call (Print Stderr "Container removed successfully" [])
      end
  end.

(** The original container is stopped with a zero timeout, waited for and
    removed. *)
Definition removeOriginalContainer (containerID : string) : Prog unit :=
  call (Print Stderr "Stopping original container" []);;
  e ← call (ContainerStop containerID 0);
  match e with
  | Some err => Fatalf "Error stopping container: %v" [AErr err]
  | None =>
      waitForContainerStop containerID;;
      e ← call (ContainerRemove containerID);
      match e with
      | Some err => Fatalf "Error removing container: %v" [AErr err]
      | None => mret tt
      end
  end.

(** The goroutine bodies: the function literal in [startDevContainer]
    around [docker attach], and the one in [main] around the wait for the
    development container. *)
Definition goroutine (g : Goroutine) : Prog unit :=
  match g with
  | AttachWatcher id =>
      e ← call (CmdRun "docker" ["attach"; id]);
      match e with
      | Some err => Fatalf "Error attaching to container: %v" [AErr err]
      | None => call (ChanSend Interrupt)
      end
  | ExitWatcher id =>
      waitForContainerStop id;;
      call (Print Stderr "Container has exited" []);;
      call (ChanSend Interrupt)
  end.

(** The development container is created, the attach watcher is started
    and only then the container.  The channel [sigCh] the source passes
    along is the one channel of the process. *)
Definition startDevContainer (h : GoSlice.Heap) (config : Config GoSlice.Slice)
    (hostConfig : HostConfig) (networkingConfig : NetworkingConfig)
    (name : string) : Prog CreateResponse :=
  r ← call (ContainerCreate (observe h config) hostConfig networkingConfig name);
  match r with
  | Err err => Fatalf "Error creating container: %v" [AErr err]
  | Ok resp =>
      call (GoStmt (AttachWatcher (resp_ID resp)));;
      call (Print Stderr "Quit the container to restore the original one" []);;
      e ← call (ContainerStart (resp_ID resp));
      match e with
      | Some err => Fatalf "Error starting container: %v" [AErr err]
      | None => mret resp
      end
  end.

(** The clone step: the repository name is the text of the URL between its
    last [/] and its last [.]. *)
Definition cloneRemoteRepo (remote branch : string) : Prog string :=
  let repoURL := remote in
  match GoString.slice repoURL (GoString.LastIndex repoURL "/" + 1)%Z
          (GoString.LastIndex repoURL ".") with
  | None => Panic "slice bounds out of range"
  | Some repoName =>
      let targetDir := "/tmp" +:+ "/" +:+ repoName in
      st ← call (Stat targetDir);
      (match st with
       | None => call (RemoveAll targetDir);; mret tt
       | Some _ => mret tt
       end);;
      let cloneArgs := ["clone"; repoURL; targetDir] in
      let cloneArgs :=
        if negb (String.eqb branch "")
        then cloneArgs ++ ["-b"; branch; "--single-branch"]
        else cloneArgs in
      e ← call (CmdRun "git" cloneArgs);
      match e with
      | Some err => Fatalf "Failed to clone repository: %v" [AErr err]
      | None => mret targetDir
      end
  end.

(** The loop over [config.Env] that looks for the entry to extend:
    [env[:4]] panics on an entry shorter than four bytes. *)
Fixpoint path_loop (envs : list string) : Prog string :=
  match envs with
  | [] => mret ""
  | env :: rest =>
      match GoString.slice_to env 4 with
      | None => Panic "slice bounds out of range"
      | Some head => if String.eqb head "PATH" then mret env else path_loop rest
      end
  end.

Section Program.

(** The growth policy of [append] in the Go runtime. *)
Variable growcap : nat -> nat -> nat.

(** [os.Getenv("HOME")]; the program never changes its environment, so
    the three reads in [devContainerConfiguration] agree. *)
Variable HOME : string.

(** The derivation.  [config] and [hostConfig] are copies of the structs
    the snapshot points to; the slices inside still share their arrays
    with it. *)
Definition devContainerConfiguration (h : GoSlice.Heap)
    (containerJSON : ContainerJSON GoSlice.Slice)
    (newImage sourcePath targetPath : string)
  : Prog (GoSlice.Heap * (Config GoSlice.Slice * HostConfig * NetworkingConfig)) :=
  let config := Config_ containerJSON in
  let config := set_Image newImage config in
  let config := set_WorkingDir targetPath config in
  let config := set_Cmd GoSlice.nil_slice config in
  let '(h, entrypoint) := GoSlice.alloc h ["/bin/sh"] 0 in
  let config := set_Entrypoint entrypoint config in
  path ← path_loop (GoSlice.read h (Env config));
  let path := path +:+ ":/go/bin:/usr/local/go/bin" in
  let '(h, env) := GoSlice.append growcap h (Env config) path in
  let config := set_Env env config in
  let '(h, env) := GoSlice.append growcap h (Env config) "DEV_CONTAINER=true" in
  let config := set_Env env config in
  let config := set_terminal config in
  let hostConfig := HostConfig_ containerJSON in
  let hostConfig := set_Mounts
    [ mkMount TypeBind sourcePath targetPath;
      mkMount TypeBind (HOME +:+ "/.ssh") "/root/.ssh";
      mkMount TypeBind (HOME +:+ "/.gitconfig") "/root/.gitconfig";
      mkMount TypeBind (HOME +:+ "/go/pkg") "/go/pkg" ] hostConfig in
  let networkingConfig := mkNetworkingConfig (NetworkSettings_Networks containerJSON) in
  mret (h, (config, hostConfig, networkingConfig)).

(** [main], from the parsed flags on. *)
Definition main (f : Flags) : Prog unit :=
  sourcePath ← (if negb (String.eqb (remote f) "")
                 then cloneRemoteRepo (remote f) (branch f)
                 else mret (sourcePath f));
  if String.eqb (containerName f) "" then Fatalf "Argument for -name is required" []
  else
  e ← call NewClientWithOpts;
  match e with
  | Some err => Fatalf "Error creating Docker client: %v" [AErr err]
  | None =>
  r ← getContainerIDByName (containerName f);
  match r with
  | Err err => Fatalf "Error getting Docker container's id by name: %v" [AErr err]
  | Ok containerID =>
  r ← call (ContainerInspect containerID);
  match r with
  | Err err => Fatalf "Error inspecting container: %v" [AErr err]
  | Ok reply =>
  let '(h, containerJSON) := decode [] reply in
  removeOriginalContainer containerID;;
  let name := Name containerJSON +:+ "-dev" in
  '(h, (config, hostConfig, networkingConfig)) ←
     devContainerConfiguration h containerJSON (newImage f) sourcePath (targetPath f);
  call (MakeChan 1);;
  call (SignalNotify Interrupt);;
  resp ← startDevContainer h config hostConfig networkingConfig name;
  call (GoStmt (ExitWatcher (resp_ID resp)));;
  call ChanRecv;;
  call (Print Stdout "Interrupt signal received, stopping container..." []);;
  cleanupDevContainer resp;;
  recreateOriginalContainer h containerJSON networkingConfig
  end end end.

End Program.

(* ===================================================================== *)
(** ** The process: goroutines, the termination channel, signals *)
(* ===================================================================== *)

(** How the process ended: [os.Exit(code)] (0 when [main] returns, 1 after
    [log.Fatalf], 2 after a panic), or death by an unhandled signal. *)
Inductive ExitStatus :=
| Exited (code : Z)
| Signaled (sig : Signal).

(** The exit status that goes with the end of a goroutine's program. *)
Definition exit_status {A : Type} (out : Outcome A) : Z :=
  match out with
  | Done _ => 0%Z
  | Fatal _ _ => 1%Z
  | Panicked _ => 2%Z
  end.

(** The state of the running program: its goroutines ([main] first), the
    channel [sigCh] with its capacity and buffered values, whether
    [signal.Notify] has registered the channel, the exit status once the
    process has ended, and what each goroutine has done so far. *)
Record Process := mkProcess {
  threads : list (Prog unit);
  chan_cap : nat;
  chan_buf : list Signal;
  notified : bool;
  exited : option ExitStatus;
  log : list (nat * Event)
}.

(** The Go statements among the operations, each with the way its
    continuation takes the answer; everything else is a call out of the
    process. *)
Inductive Kind (R : Type) : Type :=
| KExternal
| KMakeChan (capacity : nat) (cast : unit -> R)
| KNotify (sig : Signal) (cast : unit -> R)
| KGo (g : Goroutine) (cast : unit -> R)
| KSend (sig : Signal) (cast : unit -> R)
| KRecv (cast : Signal -> R).
Arguments KExternal {R}.
Arguments KMakeChan {R} capacity cast.
Arguments KNotify {R} sig cast.
Arguments KGo {R} g cast.
Arguments KSend {R} sig cast.
Arguments KRecv {R} cast.

Definition kind {R : Type} (op : Op R) : Kind R :=
  match op in Op R return Kind R with
  | MakeChan n => KMakeChan n (fun u => u)
  | SignalNotify sig => KNotify sig (fun u => u)
  | GoStmt g => KGo g (fun u => u)
  | ChanSend sig => KSend sig (fun u => u)
  | ChanRecv => KRecv (fun v => v)
  | _ => KExternal
  end.

(** What the scheduler and the outside world decide at each step: which
    goroutine runs (and what its call, if it makes one, is answered), or
    that the operating system delivers a signal to the process. *)
Inductive Choice :=
| Run (i : nat) (answer : forall R : Type, Op R -> R)
| Deliver (sig : Signal).

Definition advance (s : Process) (i : nat) (p : Prog unit) (e : Event) : Process :=
  mkProcess (<[i := p]> (threads s)) (chan_cap s) (chan_buf s) (notified s)
    (exited s) (log s ++ [(i, e)]).

Definition with_chan (s : Process) (capacity : nat) (buf : list Signal) : Process :=
  mkProcess (threads s) capacity buf (notified s) (exited s) (log s).

Definition with_notified (s : Process) : Process :=
  mkProcess (threads s) (chan_cap s) (chan_buf s) true (exited s) (log s).

Definition with_thread (s : Process) (p : Prog unit) : Process :=
  mkProcess (threads s ++ [p]) (chan_cap s) (chan_buf s) (notified s)
    (exited s) (log s).

Definition with_exit (s : Process) (st : ExitStatus) : Process :=
  mkProcess (threads s) (chan_cap s) (chan_buf s) (notified s) (Some st) (log s).

(** One step of goroutine [i], which is at program [p].  A send on a full
    channel and a receive on an empty one are not enabled ([None]): the
    goroutine blocks.  [log.Fatalf] and a panic in any goroutine end the
    whole process, as does the return of [main]; a goroutine that has
    returned has no step. *)
Definition step_thread (i : nat) (answer : forall R : Type, Op R -> R)
    (s : Process) (p : Prog unit) : option Process :=
  match p with
  | Ret _ => if (i =? 0)%nat then Some (with_exit s (Exited 0)) else None
  | Fatalf _ _ => Some (with_exit s (Exited 1))
  | Panic _ => Some (with_exit s (Exited 2))
  | Bind op k =>
      match kind op with
      | KExternal =>
          let r := answer _ op in Some (advance s i (k r) (Ev op r))
      | KMakeChan n cast =>
          Some (with_chan (advance s i (k (cast tt)) (Ev (MakeChan n) tt)) n [])
      | KNotify sig cast =>
          Some (with_notified (advance s i (k (cast tt)) (Ev (SignalNotify sig) tt)))
      | KGo g cast =>
          Some (with_thread (advance s i (k (cast tt)) (Ev (GoStmt g) tt)) (goroutine g))
      | KSend sig cast =>
          if (length (chan_buf s) <? chan_cap s)%nat then
            Some (with_chan (advance s i (k (cast tt)) (Ev (ChanSend sig) tt))
                    (chan_cap s) (chan_buf s ++ [sig]))
          else None
      | KRecv cast =>
          match chan_buf s with
          | v :: rest =>
              Some (with_chan (advance s i (k (cast v)) (Ev ChanRecv v))
                      (chan_cap s) rest)
          | [] => None
          end
      end
  end.

(** One step of the process.  Nothing happens after the exit.  A signal
    that arrives before [signal.Notify] kills the process; afterwards the
    runtime offers it to the channel without blocking, and drops it when
    the buffer is full. *)
Definition step_by (c : Choice) (s : Process) : option Process :=
  match exited s with
  | Some _ => None
  | None =>
      match c with
      | Run i answer =>
          match threads s !! i with
          | Some p => step_thread i answer s p
          | None => None
          end
      | Deliver sig =>
          if notified s then
            if (length (chan_buf s) <? chan_cap s)%nat
            then Some (with_chan s (chan_cap s) (chan_buf s ++ [sig]))
            else Some s
          else Some (with_exit s (Signaled sig))
      end
  end.

(** A schedule, step after step; [None] when one of its steps is not
    enabled. *)
Fixpoint run_choices (cs : list Choice) (s : Process) : option Process :=
  match cs with
  | [] => Some s
  | c :: rest =>
      match step_by c s with
      | Some s' => run_choices rest s'
      | None => None
      end
  end.

(** The process at its start: [main] alone, no channel yet. *)
Definition start (p : Prog unit) : Process :=
  mkProcess [p] 0 [] false None [].

(* ===================================================================== *)
(** ** Reading traces *)
(* ===================================================================== *)

(** A receive on the termination channel. *)
Definition is_recv (e : Event) : bool :=
  match e with
  | Ev op _ => match kind op with KRecv _ => true | _ => false end
  end.

(** A call that stops or removes a container. *)
Definition destroys (e : Event) : bool :=
  match e with
  | Ev (ContainerStop _ _) _ => true
  | Ev (ContainerRemove _) _ => true
  | _ => false
  end.

(** A call that creates a container, with what it was given. *)
Definition created (e : Event)
  : option (Config (list string) * HostConfig * NetworkingConfig * string) :=
  match e with
  | Ev (ContainerCreate c hc nc n) _ => Some (c, hc, nc, n)
  | _ => None
  end.

(** A call that stops, removes or creates a container. *)
Definition touches (e : Event) : bool :=
  destroys e || bool_decide (is_Some (created e)).

(** Any call to the Docker daemon or its client library. *)
Definition docker_call (e : Event) : bool :=
  match e with
  | Ev NewClientWithOpts _ => true
  | Ev (ContainerList _) _ => true
  | Ev (ContainerInspect _) _ => true
  | Ev (ContainerStop _ _) _ => true
  | Ev (ContainerWait _) _ => true
  | Ev (ContainerRemove _) _ => true
  | Ev (ContainerCreate _ _ _ _) _ => true
  | Ev (ContainerStart _) _ => true
  | _ => false
  end.

(** The answer of an inspect call. *)
Definition inspected (e : Event) : option (string * res InspectReply) :=
  match e with
  | Ev op r =>
      match op in Op R return R -> option (string * res InspectReply) with
      | ContainerInspect id => fun r => Some (id, r)
      | _ => fun _ => None
      end r
  end.

(** The answer of a list call. *)
Definition listed (e : Event) : option (res (list ContainerSummary)) :=
  match e with
  | Ev op r =>
      match op in Op R return R -> option (res (list ContainerSummary)) with
      | ContainerList _ => fun r => Some r
      | _ => fun _ => None
      end r
  end.

(** The answer of a remove call. *)
Definition removed (e : Event) : option (string * option error) :=
  match e with
  | Ev op r =>
      match op in Op R return R -> option (string * option error) with
      | ContainerRemove id => fun r => Some (id, r)
      | _ => fun _ => None
      end r
  end.

(** The answer of a run of an external command. *)
Definition ran (e : Event) : option (string * list string * option error) :=
  match e with
  | Ev op r =>
      match op in Op R return R -> option (string * list string * option error) with
      | CmdRun name args => fun r => Some (name, args, r)
      | _ => fun _ => None
      end r
  end.

(** An inspect call that succeeded. *)
Definition inspect_ok (e : Event) : bool :=
  match inspected e with
  | Some (_, Ok _) => true
  | _ => false
  end.

(** A [git] run that succeeded. *)
Definition clone_ok (e : Event) : bool :=
  match ran e with
  | Some ("git", _, None) => true
  | _ => false
  end.

(** The events after the first receive on the termination channel, when
    there is one: what the controller does once RUN is over. *)
Fixpoint after_recv (t : list Event) : option (list Event) :=
  match t with
  | [] => None
  | e :: t' => if is_recv e then Some t' else after_recv t'
  end.

(** [guarded p q seen t]: scanning [t], no [q] event comes before the
    first [p] event ([seen] says a [p] event has already passed). *)
Fixpoint guarded (p q : Event -> bool) (seen : bool) (t : list Event) : bool :=
  match t with
  | [] => true
  | e :: t' => (seen || negb (q e)) && guarded p q (seen || p e) t'
  end.

(** Every [q] event of [t] has a [p] event somewhere before it. *)
Definition precedes (p q : Event -> bool) (t : list Event) : Prop :=
  forall i e, t !! i = Some e -> q e = true ->
    exists j e', j < i /\ t !! j = Some e' /\ p e' = true.


(* ===================================================================== *)
(** ** Two pieces of the claims, in the words of the specification *)
(* ===================================================================== *)

(** The name of the variable an environment entry sets: the text before
    the first [=]. *)
Fixpoint env_name (entry : string) : string :=
  match entry with
  | EmptyString => EmptyString
  | String c rest => if Ascii.eqb c "="%char then EmptyString else String c (env_name rest)
  end.

(** Whether the byte [c] occurs in [s]. *)
Fixpoint occurs (c : ascii) (s : string) : bool :=
  match s with
  | EmptyString => false
  | String a rest => Ascii.eqb a c || occurs c rest
  end.

(** The text after the last occurrence of the byte [c] (all of it when
    [c] does not occur). *)
Fixpoint after_last (c : ascii) (s : string) : string :=
  match s with
  | EmptyString => EmptyString
  | String a rest =>
      if occurs c rest then after_last c rest
      else if Ascii.eqb a c then rest else s
  end.

(** Dropping a suffix, when it is there. *)
Definition strip_suffix (suffix s : string) : string :=
  let n := String.length s - String.length suffix in
  if String.eqb (substring n (String.length suffix) s) suffix
  then substring 0 n s else s.

(** The repository name as the specification words it: the URL stripped
    up to the last [/], and of its [.git] suffix. *)
Definition spec_repoName (remoteURL : string) : string :=
  strip_suffix ".git" (after_last "/"%char remoteURL).

Definition spec_targetDir (remoteURL : string) : string :=
  "/tmp/" +:+ spec_repoName remoteURL.

(** The position of the last occurrence of the byte [c] in [s]. *)
Fixpoint last_pos (c : ascii) (s : string) : option nat :=
  match s with
  | EmptyString => None
  | String a rest =>
      match last_pos c rest with
      | Some k => Some (S k)
      | None => if ascii_dec c a then Some 0 else None
      end
  end.

(* ===================================================================== *)
(** ** Sample worlds *)
(* ===================================================================== *)

Module Sample.

(** A running container [api] with a [PATH] entry; the decoder left room
    for two more environment entries behind the two it decoded. *)
Definition api : ContainerJSON (list string) :=
  mkContainerJSON "/api" true
    (mkConfig "api:1.0" "/srv" ["serve"] ["/entry"] ["PATH=/usr/bin"; "MODE=prod"]
       false false false false false false "apihost" "root" [("tier", "prod")])
    (mkHostConfig [mkMount TypeVolume "data" "/data"] ["/etc/api:/etc/api"] "bridge" false)
    {["backend" := mkEndpoint "n0" "10.0.0.2" ["api"]]}.

Definition reply : InspectReply := mkInspectReply api 0 0 2.

(** What can go wrong in a sample world. *)
Record Faults := mkFaults {
  inspect_fails : bool;
  attach_fails : bool;
  dev_inspect_fails : bool;
  dev_stop_fails : bool;
  dev_remove_fails : bool
}.

Definition no_faults : Faults := mkFaults false false false false false.

Definition dev_id : string := "d3v".

Definition fault (b : bool) (msg : error) : option error :=
  if b then Some msg else None.

(** The answers of a daemon that lists a container [db] and the container
    [api], with the given faults; the answers do not depend on the past. *)
Definition answers (w : Faults) (R : Type) (op : Op R) : R :=
  match op in Op R return R with
  | NewClientWithOpts => None
  | ContainerList _ => Ok [mkSummary "db01" ["/db"]; mkSummary "c0ffee" ["/api"]]
  | ContainerInspect id =>
      if String.eqb id dev_id then
        if dev_inspect_fails w then Err "no such container" else Ok reply
      else if inspect_fails w then Err "connection refused" else Ok reply
  | ContainerStop id _ =>
      if String.eqb id dev_id then fault (dev_stop_fails w) "cannot stop" else None
  | ContainerWait _ => WaitBody 0
  | ContainerRemove id =>
      if String.eqb id dev_id then fault (dev_remove_fails w) "removal in progress" else None
  | ContainerCreate _ _ _ name =>
      Ok (mkCreateResponse (if String.eqb name "/api-dev" then dev_id else "0r1g"))
  | ContainerStart _ => None
  | Stat _ => None
  | RemoveAll _ => None
  | CmdRun name _ =>
      if String.eqb name "docker" then fault (attach_fails w) "exit status 1" else None
  | Print _ _ _ => tt
  | MakeChan _ => tt
  | SignalNotify _ => tt
  | GoStmt _ => tt
  | ChanSend _ => tt
  | ChanRecv => Interrupt
  end.

Definition oracle (w : Faults) : Oracle := fun R _ op => answers w R op.

Definition flags : Flags :=
  mkFlags "api" "/src" "/app" "docker-dev-golang:latest" "" "master".

Definition remote_flags (name url : string) : Flags :=
  mkFlags name "" "/app" "docker-dev-golang:latest" url "dev".

(** A growth policy: double. *)
Definition double (old needed : nat) : nat := 2 * old.

Definition home : string := "/home/dev".

(** The same container with another environment. *)
Definition with_env (env : list string) : InspectReply :=
  mkInspectReply
    (mkContainerJSON "/api" true (set_Env env (Config_ api)) (HostConfig_ api)
       (NetworkSettings_Networks api)) 0 0 0.

End Sample.

(* ===================================================================== *)
(** ** Predicates used in the statements *)
(* ===================================================================== *)

(** The four bind mounts of the development container, in the order of
    the source. *)
Definition dev_mounts (HOME sourcePath targetPath : string) : list Mount :=
  [ mkMount TypeBind sourcePath targetPath;
    mkMount TypeBind (HOME +:+ "/.ssh") "/root/.ssh";
    mkMount TypeBind (HOME +:+ "/.gitconfig") "/root/.gitconfig";
    mkMount TypeBind (HOME +:+ "/go/pkg") "/go/pkg" ].

(** The fixed toolchain suffix and the marker variable. *)
Definition toolchain_suffix : string := ":/go/bin:/usr/local/go/bin".

Definition dev_marker : string := "DEV_CONTAINER=true".

(** A snapshot in the store: its three slices lie within their arrays, and
    the spare capacity of [Env] holds no element of [Cmd] or of
    [Entrypoint]. *)
Definition snapshot_wf (h : GoSlice.Heap) (cj : ContainerJSON GoSlice.Slice) : Prop :=
  GoSlice.wf h (Cmd (Config_ cj)) /\ GoSlice.wf h (Entrypoint (Config_ cj)) /\
  GoSlice.wf h (Env (Config_ cj)) /\
  GoSlice.separate (Env (Config_ cj)) (Cmd (Config_ cj)) /\
  GoSlice.separate (Env (Config_ cj)) (Entrypoint (Config_ cj)).

(** The container carries the separator-prefixed form of [name]. *)
Definition matches (name : string) (c : ContainerSummary) : Prop :=
  ("/" +:+ name) ∈ Names c.

(** [c] is the first container of the list that matches. *)
Definition first_match (containers : list ContainerSummary) (name : string)
    (c : ContainerSummary) : Prop :=
  exists before after,
    containers = before ++ c :: after /\ matches name c /\
    Forall (fun c' => ~ matches name c') before.

(** The postcondition of [p ≫= f] seen from [p]. *)
Definition lift {A B : Type} (f : A -> Prog B) (Q : list Event -> Outcome B -> Prop)
  (t : list Event) (out : Outcome A) : Prop :=
  match out with
  | Done a => wp (f a) Q t
  | Fatal format args => Q t (Fatal format args)
  | Panicked v => Q t (Panicked v)
  end.





(** The schedule of a sample run: [main] up to its receive, three
    interrupts from the outside, the receive, the attach watcher from its
    start to its send, and [main] to its end. *)
Definition sample_schedule (w : Sample.Faults) : list Choice :=
  replicate 15 (Run 0 (Sample.answers w)) ++
  replicate 3 (Deliver Interrupt) ++
  [Run 0 (Sample.answers w)] ++
  replicate 2 (Run 1 (Sample.answers w)) ++
  replicate 11 (Run 0 (Sample.answers w)).


(** The arguments of [git]: [-b branch --single-branch] is added for a
    branch that is not the empty string. *)
Definition clone_args (remote branch targetDir : string) : list string :=
  ["clone"; remote; targetDir] ++
  (if String.eqb branch "" then [] else ["-b"; branch; "--single-branch"]).

(** The events of the clone step: the test for the directory, its removal
    when the test found it, the run of [git]. *)
Definition clone_events (remote branch targetDir : string)
    (st rm cl : option error) : list Event :=
  [Ev (Stat targetDir) st] ++
  match st with None => [Ev (RemoveAll targetDir) rm] | Some _ => [] end ++
  [Ev (CmdRun "git" (clone_args remote branch targetDir)) cl].

(** More sample data: the store and the snapshot decoded from a reply, and
    the trace of a sample run with what follows its receive. *)
Definition heap_of (reply : InspectReply) : GoSlice.Heap := (decode [] reply).1.

Definition snapshot_of (reply : InspectReply) : ContainerJSON GoSlice.Slice :=
  (decode [] reply).2.

Definition sample_trace (w : Sample.Faults) (f : Flags) : list Event :=
  (exec (Sample.oracle w) (main Sample.double Sample.home f)).1.

Definition sample_outcome (w : Sample.Faults) (f : Flags) : Outcome unit :=
  (exec (Sample.oracle w) (main Sample.double Sample.home f)).2.

Definition sample_post (w : Sample.Faults) : list Event :=
  default [] (after_recv (sample_trace w Sample.flags)).

(* ===================================================================== *)
(** ** More readings of traces and of the environment *)
(* ===================================================================== *)

(** The answer of a stop request. *)
Definition stopped (e : Event) : option (string * option error) :=
  match e with
  | Ev op r =>
      match op in Op R return R -> option (string * option error) with
      | ContainerStop id _ => fun r => Some (id, r)
      | _ => fun _ => None
      end r
  end.

(** The answer of a start request. *)
Definition started (e : Event) : option (string * option error) :=
  match e with
  | Ev op r =>
      match op in Op R return R -> option (string * option error) with
      | ContainerStart id => fun r => Some (id, r)
      | _ => fun _ => None
      end r
  end.

(** The name given to a create call, and its answer. *)
Definition create_result (e : Event) : option (string * res CreateResponse) :=
  match e with
  | Ev op r =>
      match op in Op R return R -> option (string * res CreateResponse) with
      | ContainerCreate _ _ _ name => fun r => Some (name, r)
      | _ => fun _ => None
      end r
  end.

(** The answer of the client constructor. *)
Definition client (e : Event) : option (option error) :=
  match e with
  | Ev op r =>
      match op in Op R return R -> option (option error) with
      | NewClientWithOpts => fun r => Some r
      | _ => fun _ => None
      end r
  end.

Definition remove_ok (e : Event) : bool :=
  match removed e with Some (_, None) => true | _ => false end.

Definition create_ok (e : Event) : bool :=
  match create_result e with Some (_, Ok _) => true | _ => false end.

Definition start_ok (e : Event) : bool :=
  match started e with Some (_, None) => true | _ => false end.

Definition is_create (e : Event) : bool :=
  match created e with Some _ => true | None => false end.

Definition is_start (e : Event) : bool :=
  match started e with Some _ => true | None => false end.

(** The statements [make(chan os.Signal, 1)], [signal.Notify] and [go]. *)
Definition is_make (e : Event) : bool :=
  match e with
  | Ev op _ => match kind op with KMakeChan _ _ => true | _ => false end
  end.

Definition is_notify (e : Event) : bool :=
  match e with
  | Ev op _ => match kind op with KNotify _ _ => true | _ => false end
  end.

Definition is_go (e : Event) : bool :=
  match e with
  | Ev op _ => match kind op with KGo _ _ => true | _ => false end
  end.

(** The start of the attach watcher. *)
Definition is_go_attach (e : Event) : bool :=
  match e with
  | Ev (GoStmt (AttachWatcher _)) _ => true
  | _ => false
  end.

(** A call on the file system or a run of an external command. *)
Definition fs_call (e : Event) : bool :=
  match e with
  | Ev (Stat _) _ => true
  | Ev (RemoveAll _) _ => true
  | Ev (CmdRun _ _) _ => true
  | _ => false
  end.

(** An environment entry the loop of the derivation passes over: long
    enough to be sliced, and not beginning with the four bytes [PATH]. *)
Definition passed_over (entry : string) : Prop :=
  4 <= String.length entry /\ substring 0 4 entry <> "PATH".

(** The first byte of the repository name in a URL: the one after the
    last [/], or the first of the URL. *)
Definition name_start (remoteURL : string) : nat :=
  match last_pos "/" remoteURL with
  | Some k => S k
  | None => 0
  end.

(** [unarmed p post]: until [p] reaches [signal.Notify] it makes no
    create call and starts no goroutine, and a path that returns [a]
    before it satisfies [post a]. *)
Fixpoint unarmed {A : Type} (p : Prog A) (post : A -> Prop) : Prop :=
  match p with
  | Ret a => post a
  | Bind op k =>
      match kind op with
      | KExternal =>
          (forall r, created (Ev op r) = None) /\ forall r, unarmed (k r) post
      | KNotify _ _ => True
      | KGo _ _ => False
      | KMakeChan _ cast | KSend _ cast => unarmed (k (cast tt)) post
      | KRecv cast => forall v, unarmed (k (cast v)) post
      end
  | _ => True
  end.

(** The process before and after [signal.Notify]: the channel is
    registered exactly when the statement is in the log, and until then
    [main] is the only goroutine and no create call has been made. *)
Definition Registration (s : Process) : Prop :=
  (notified s = true <-> Exists (fun x => is_notify x.2 = true) (log s)) /\
  (notified s = false ->
   (exists p, threads s = [p] /\ unarmed p (fun _ => True)) /\
   Forall (fun x => created x.2 = None) (log s)).

(** The container a wait call is about. *)
Definition waited (e : Event) : option string :=
  match e with
  | Ev (ContainerWait id) _ => Some id
  | _ => None
  end.

(* ===================================================================== *)
(** ** More sample worlds *)
(* ===================================================================== *)

(** A name for each call out of the process, with the container, the
    container name or the command it is about. *)
Definition op_label {R : Type} (op : Op R) : string :=
  match op with
  | NewClientWithOpts => "client"
  | ContainerList _ => "list"
  | ContainerInspect id => "inspect " +:+ id
  | ContainerStop id _ => "stop " +:+ id
  | ContainerWait id => "wait " +:+ id
  | ContainerRemove id => "remove " +:+ id
  | ContainerCreate _ _ _ name => "create " +:+ name
  | ContainerStart id => "start " +:+ id
  | Stat _ => "stat"
  | RemoveAll _ => "rm"
  | CmdRun name _ => name
  | _ => ""
  end.

(** The answer with which a call fails; the Go statements do not fail. *)
Definition failure {R : Type} (op : Op R) (err : error) (otherwise : R) : R :=
  match op in Op R0 return R0 -> R0 with
  | NewClientWithOpts => fun _ => Some err
  | ContainerList _ => fun _ => Err err
  | ContainerInspect _ => fun _ => Err err
  | ContainerStop _ _ => fun _ => Some err
  | ContainerWait _ => fun _ => WaitErr err
  | ContainerRemove _ => fun _ => Some err
  | ContainerCreate _ _ _ _ => fun _ => Err err
  | ContainerStart _ => fun _ => Some err
  | Stat _ => fun _ => Some err
  | RemoveAll _ => fun _ => Some err
  | CmdRun _ _ => fun _ => Some err
  | _ => fun r => r
  end otherwise.

(** The daemon of [Sample.no_faults], except that the call named [what]
    fails with [err]. *)
Definition refusing (what : string) (err : error) (R : Type) (op : Op R) : R :=
  if String.eqb (op_label op) what
  then failure op err (Sample.answers Sample.no_faults R op)
  else Sample.answers Sample.no_faults R op.

Definition refusal (what : string) (err : error) : Oracle :=
  fun R _ op => refusing what err R op.

(** A process in which the exit watcher is about to run while [main]
    waits on the channel. *)
Definition watching : Process :=
  mkProcess [call ChanRecv;; mret tt; goroutine (ExitWatcher Sample.dev_id)]
    1 [] true None [].

(** The run of [main] in such a world. *)
Definition refused_trace (what : string) (err : error) (f : Flags) : list Event :=
  (exec (refusal what err) (main Sample.double Sample.home f)).1.

Definition refused_outcome (what : string) (err : error) (f : Flags) : Outcome unit :=
  (exec (refusal what err) (main Sample.double Sample.home f)).2.

(* ===================================================================== *)
(** ** The controller inside the process *)
(* ===================================================================== *)

(** What [main] itself has done: the events of goroutine 0 in the log of
    the process, in their order. *)
Definition main_log (s : Process) : list Event :=
  omap (fun x => if (x.1 =? 0)%nat then Some x.2 else None) (log s).

(** A run of the [docker] command that returned an error: the only
    [docker] command of the program is [docker attach]. *)
Definition failed_attach (e : Event) : bool :=
  match ran e with
  | Some (name, _, Some _) => String.eqb name "docker"
  | _ => false
  end.

(** The way a program that has nothing left to do has ended. *)
Definition ended_as {A : Type} (p : Prog A) : option (Outcome A) :=
  match p with
  | Ret a => Some (Done a)
  | Bind _ _ => None
  | Fatalf format args => Some (Fatal format args)
  | Panic v => Some (Panicked v)
  end.

(** A program that never reaches [log.Fatalf] or a panic, unless a run of
    [docker] has failed on the way. *)
Fixpoint attach_only {A : Type} (p : Prog A) : Prop :=
  match p with
  | Ret _ => True
  | Bind op k => forall r, failed_attach (Ev op r) = true \/ attach_only (k r)
  | Fatalf _ _ => False
  | Panic _ => False
  end.

(** The events before the first receive on the termination channel. *)
Fixpoint before_recv (t : list Event) : list Event :=
  match t with
  | [] => []
  | e :: t' => if is_recv e then [] else e :: before_recv t'
  end.

(** [Led Q s]: in the process [s], goroutine 0 has done [main_log s] and
    what is left of its program ends, whatever is answered, with a trace
    and an outcome that satisfy [Q]; every other goroutine ends the
    process only after a failed [docker attach]; and when the process has
    ended, it was ended by a goroutine after a failed [docker attach], by
    a signal that arrived before [signal.Notify], or by goroutine 0
    reaching its own end. *)
Definition Led (Q : list Event -> Outcome unit -> Prop) (s : Process) : Prop :=
  exists p0 rest,
    threads s = p0 :: rest /\
    wp p0 Q (main_log s) /\
    Forall (fun q => attach_only q \/
                     Exists (fun x => failed_attach x.2 = true) (log s)) rest /\
    forall st, exited s = Some st ->
      Exists (fun x => failed_attach x.2 = true) (log s) \/
      (notified s = false /\ exists sig, st = Signaled sig) \/
      exists out, ended_as p0 = Some out /\ st = Exited (exit_status out).

(** What a complete run of [main] looks like once it has received from the
    termination channel.  Before the receive the snapshot was taken with
    success and the development container created with success; after it
    come the message, the inspect of the development container, and then:
    a panic when that inspect fails; otherwise one stop request and one
    wait when the container is reported running and none when it is not,
    then the removal, which is fatal when it fails and is otherwise
    followed by the creation of a container from the snapshot and
    whatever [recreateOriginalContainer] does next. *)
Definition controller_run (t : list Event) (out : Outcome unit) : Prop :=
  forall post, after_recv t = Some post ->
    exists id reply name dev r rest,
      head (omap inspected (before_recv t)) = Some (id, Ok reply) /\
      head (omap create_result (before_recv t)) = Some (name, Ok dev) /\
      post = Ev (Print Stdout "Interrupt signal received, stopping container..." []) tt
             :: Ev (ContainerInspect (resp_ID dev)) r :: rest /\
      match r with
      | Err err => rest = [] /\ out = Panicked err
      | Ok c =>
          fst <$> omap stopped rest =
            (if State_Running (document c) then [resp_ID dev] else []) /\
          omap waited rest =
            (if State_Running (document c) then [resp_ID dev] else []) /\
          exists e, omap removed rest = [(resp_ID dev, e)] /\
            match e with
            | Some err =>
                omap created rest = [] /\
                out = Fatal "Error removing container: %v" [AErr err]
            | None =>
                omap created rest =
                  [(Config_ (document reply), HostConfig_ (document reply),
                    mkNetworkingConfig (NetworkSettings_Networks (document reply)),
                    Name (document reply))]
            end
      end.


(** The schedule on which [docker attach] fails while [main] is in
    TEARDOWN_DEV: an interrupt arrives, [main] receives it, prints,
    inspects the development container, stops it, waits, prints twice and
    removes it; then the attach watcher runs. *)
Definition attach_fails_in_teardown : list Choice :=
  replicate 15 (Run 0 (Sample.answers (Sample.mkFaults false true false false false))) ++
  [Deliver Interrupt] ++
  replicate 8 (Run 0 (Sample.answers (Sample.mkFaults false true false false false))) ++
  replicate 2 (Run 1 (Sample.answers (Sample.mkFaults false true false false false))).

(** The schedule on which an interrupt from outside ends RUN: [main] up to
    its receive, the interrupt, then [n] steps of [main]. *)
Definition interrupted_schedule (w : Sample.Faults) (n : nat) : list Choice :=
  replicate 15 (Run 0 (Sample.answers w)) ++
  [Deliver Interrupt] ++
  replicate n (Run 0 (Sample.answers w)).

(* ===================================================================== *)
(** ** Facts about strings *)
(* ===================================================================== *)

Module StringFacts.

Lemma prefix_empty s : String.prefix "" s = true.
Proof. by destruct s. Qed.

Lemma last_index_aux_char c s i acc :
  GoString.last_index_aux s (String c "") i acc =
  match last_pos c s with
  | Some k => (i + Z.of_nat k)%Z
  | None => acc
  end.
Proof.
  revert i acc. induction s as [|a rest IH]; intros i acc; [done|].
  cbn [GoString.last_index_aux last_pos]. rewrite IH.
  destruct (last_pos c rest) as [k|]; [lia|].
  cbn [String.prefix]. destruct (ascii_dec c a); [|done].
  rewrite prefix_empty. lia.
Qed.

Lemma LastIndex_char c s :
  GoString.LastIndex s (String c "") =
  match last_pos c s with
  | Some k => Z.of_nat k
  | None => (-1)%Z
  end.
Proof.
  unfold GoString.LastIndex. rewrite last_index_aux_char.
  by destruct (last_pos c s).
Qed.

Lemma append_nil t : "" +:+ t = t.
Proof. reflexivity. Qed.

Lemma append_cons a s t : String a s +:+ t = String a (s +:+ t).
Proof. reflexivity. Qed.

Ltac str_norm := rewrite ?append_cons, ?append_nil; simpl.

Lemma length_append s t : String.length (s +:+ t) = String.length s + String.length t.
Proof. induction s as [|a s IH]; str_norm; [done|by rewrite IH]. Qed.

Lemma last_pos_app c s t :
  last_pos c (s +:+ t) =
  match last_pos c t with
  | Some k => Some (String.length s + k)
  | None => last_pos c s
  end.
Proof.
  induction s as [|a s IH]; str_norm.
  - by destruct (last_pos c t).
  - rewrite IH. by destruct (last_pos c t).
Qed.

Lemma last_pos_lt c s k : last_pos c s = Some k -> k < String.length s.
Proof.
  revert k. induction s as [|a s IH]; intros k; simpl; [done|].
  destruct (last_pos c s) as [j|].
  - intros [= <-]. specialize (IH j eq_refl). lia.
  - destruct (ascii_dec c a); [|done]. intros [= <-]. lia.
Qed.

Lemma occurs_last_pos c s :
  occurs c s = match last_pos c s with Some _ => true | None => false end.
Proof.
  induction s as [|a s IH]; simpl; [done|].
  rewrite IH. destruct (last_pos c s) as [k|] eqn:Hk.
  - apply orb_true_r.
  - rewrite orb_false_r. destruct (ascii_dec c a) as [->|Hne].
    + apply Ascii.eqb_refl.
    + apply Ascii.eqb_neq. congruence.
Qed.

Lemma substring_full s : substring 0 (String.length s) s = s.
Proof. induction s as [|a s IH]; simpl; [done|by rewrite IH]. Qed.

Lemma substring_app_left s t : substring 0 (String.length s) (s +:+ t) = s.
Proof.
  induction s as [|a s IH]; str_norm.
  - by destruct t.
  - by rewrite IH.
Qed.

Lemma substring_app_right s t m :
  substring (String.length s) m (s +:+ t) = substring 0 m t.
Proof. induction s as [|a s IH]; str_norm; done. Qed.

Lemma substring_app_within s t n m :
  n + m <= String.length s -> substring n m (s +:+ t) = substring n m s.
Proof.
  revert n m. induction s as [|a s IH]; intros n m Hle; str_norm; simpl in Hle.
  - assert (n = 0) as -> by lia. assert (m = 0) as -> by lia. by destruct t.
  - destruct n as [|n].
    + destruct m as [|m]; [done|]. rewrite IH by lia. done.
    + apply IH. lia.
Qed.

Lemma after_last_pos c s :
  after_last c s =
  match last_pos c s with
  | Some k => substring (S k) (String.length s - S k) s
  | None => s
  end.
Proof.
  induction s as [|a s IH]; [done|].
  cbn [after_last last_pos]. rewrite occurs_last_pos, IH.
  destruct (last_pos c s) as [k|] eqn:Hk; [done|].
  destruct (ascii_dec c a) as [->|Hne].
  - rewrite Ascii.eqb_refl. simpl. rewrite Nat.sub_0_r. by rewrite substring_full.
  - destruct (Ascii.eqb a c) eqn:He; [|done].
    apply Ascii.eqb_eq in He. congruence.
Qed.

Lemma strip_suffix_app x sfx : strip_suffix sfx (x +:+ sfx) = x.
Proof.
  unfold strip_suffix. rewrite length_append.
  replace (String.length x + String.length sfx - String.length sfx)
    with (String.length x) by lia.
  rewrite substring_app_right, substring_full, String.eqb_refl.
  apply substring_app_left.
Qed.

(** The name [cloneRemoteRepo] computes for a URL that ends in [.git] is
    the one the specification describes. *)
Lemma substring_app_span s t n :
  n <= String.length s ->
  substring n (String.length s - n + String.length t) (s +:+ t) =
  substring n (String.length s - n) s +:+ t.
Proof.
  revert n. induction s as [|a s IH]; intros n Hn; str_norm; simpl in Hn.
  - assert (n = 0) as -> by lia. simpl. apply substring_full.
  - destruct n as [|n].
    + specialize (IH 0 ltac:(lia)). rewrite Nat.sub_0_r in IH.
      simpl. rewrite IH. by rewrite append_cons.
    + simpl. apply IH. lia.
Qed.

Lemma repoName_git p :
  GoString.slice (p +:+ ".git")
    (GoString.LastIndex (p +:+ ".git") "/" + 1)%Z
    (GoString.LastIndex (p +:+ ".git") ".") =
  Some (spec_repoName (p +:+ ".git")).
Proof.
  assert (last_pos "/" ".git" = None) as Hslash by (vm_compute; reflexivity).
  assert (last_pos "." ".git" = Some 0) as Hdot by (vm_compute; reflexivity).
  unfold spec_repoName.
  rewrite (after_last_pos "/"%char), !LastIndex_char, !last_pos_app, Hslash, Hdot.
  unfold GoString.slice, GoString.len. rewrite length_append.
  set (n := String.length p).
  destruct (last_pos "/" p) as [k|] eqn:Hk.
  - pose proof (last_pos_lt _ _ _ Hk) as Hlt. fold n in Hlt.
    replace ((0 <=? Z.of_nat k + 1)%Z && (Z.of_nat k + 1 <=? Z.of_nat (n + 0))%Z
             && (Z.of_nat (n + 0) <=? Z.of_nat (n + String.length ".git"))%Z)
      with true by (symmetry; rewrite !andb_true_iff, !Z.leb_le; simpl; lia).
    f_equal.
    replace (Z.to_nat (Z.of_nat k + 1)) with (S k) by lia.
    replace (Z.to_nat (Z.of_nat (n + 0))) with n by lia.
    rewrite substring_app_within by (fold n; lia).
    replace (n + String.length ".git" - S k) with ((n - S k) + String.length ".git")
      by lia.
    unfold n. rewrite substring_app_span by (fold n; lia).
    by rewrite strip_suffix_app.
  - replace ((0 <=? -1 + 1)%Z && (-1 + 1 <=? Z.of_nat (n + 0))%Z
             && (Z.of_nat (n + 0) <=? Z.of_nat (n + String.length ".git"))%Z)
      with true by (symmetry; rewrite !andb_true_iff, !Z.leb_le; simpl; lia).
    f_equal.
    replace (Z.to_nat (Z.of_nat (n + 0)) - Z.to_nat (-1 + 1)) with n by lia.
    replace (Z.to_nat (-1 + 1)) with 0 by lia.
    unfold n. by rewrite substring_app_left, strip_suffix_app.
Qed.

End StringFacts.

(* ===================================================================== *)
(** ** Facts about slices and the store *)
(* ===================================================================== *)

Module SliceFacts.
Import GoSlice.

Lemma lookup_read (h : Heap) (s : Slice) (i : nat) :
  read h s !! i = if decide (i < len s) then array h s !! (off s + i) else None.
Proof. unfold read. rewrite lookup_take. case_decide; [|done]. apply lookup_drop. Qed.

Lemma length_read (h : Heap) (s : Slice) : wf h s -> length (read h s) = len s.
Proof.
  intros [Hlen Hcap]. unfold read. rewrite length_take, length_drop.
  destruct Hcap; lia.
Qed.

Lemma wf_ptr (h : Heap) (s : Slice) : wf h s -> 0 < cap s -> ptr s < length h.
Proof.
  intros [_ [Hc|Hc]] Hpos; [lia|]. unfold array in Hc.
  destruct (decide (ptr s < length h)); [done|].
  rewrite lookup_ge_None_2 in Hc by lia. simpl in Hc. lia.
Qed.

Lemma array_app_old (h : Heap) (a : list string) (s : Slice) :
  wf h s -> array (h ++ [a]) s = array h s \/ cap s = 0.
Proof.
  intros Hwf. destruct (decide (0 < cap s)) as [Hpos|]; [left|right; lia].
  unfold array. by rewrite lookup_app_l by eauto using wf_ptr.
Qed.

Lemma read_empty (h : Heap) (s : Slice) : len s = 0 -> read h s = [].
Proof. intros H. unfold read. by rewrite H. Qed.

Lemma read_app_old (h : Heap) (a : list string) (s : Slice) :
  wf h s -> read (h ++ [a]) s = read h s.
Proof.
  intros Hwf. destruct (array_app_old h a s Hwf) as [Heq|Hc].
  - unfold read. by rewrite Heq.
  - destruct Hwf as [? _]. rewrite !read_empty; [done|lia|lia].
Qed.

Lemma wf_app_old (h : Heap) (a : list string) (s : Slice) :
  wf h s -> wf (h ++ [a]) s.
Proof.
  intros Hwf. destruct (array_app_old h a s Hwf) as [Heq|Hc].
  - unfold wf. rewrite Heq. exact Hwf.
  - destruct Hwf as [? _]. split; [done|by left].
Qed.

Lemma read_alloc_new (h : Heap) (l : list string) (slack : nat) :
  read (alloc h l slack).1 (alloc h l slack).2 = l.
Proof.
  unfold read, alloc, array. simpl.
  rewrite lookup_app_r by lia. rewrite Nat.sub_diag. simpl.
  rewrite drop_0. by rewrite take_app_length.
Qed.

Lemma wf_alloc_new (h : Heap) (l : list string) (slack : nat) :
  wf (alloc h l slack).1 (alloc h l slack).2.
Proof.
  unfold wf, alloc, array. simpl. split; [lia|right].
  rewrite lookup_app_r by lia. rewrite Nat.sub_diag. simpl.
  rewrite length_app, length_replicate. lia.
Qed.

Lemma array_write (h : Heap) (p j : nat) (x : string) (t : Slice) :
  array (<[p := <[j := x]> (default [] (h !! p))]> h) t =
  if decide (ptr t = p) then <[j := x]> (array h t) else array h t.
Proof.
  unfold array. case_decide as Hp.
  - subst p. destruct (decide (ptr t < length h)) as [Hlt|Hge].
    + by rewrite list_lookup_insert_eq.
    + rewrite list_insert_ge by lia. by rewrite !lookup_ge_None_2 by lia.
  - by rewrite list_lookup_insert_ne.
Qed.

Section AppendFacts.
Variable growcap : nat -> nat -> nat.

Lemma read_append (h : Heap) (s : Slice) (x : string) :
  wf h s ->
  read (append growcap h s x).1 (append growcap h s x).2 = read h s ++ [x].
Proof.
  intros Hwf. pose proof (length_read h s Hwf) as Hlr.
  destruct Hwf as [Hlen Hcap]. unfold append.
  apply list_eq. intros i.
  destruct (len s <? cap s) eqn:Hroom; simpl.
  - apply Nat.ltb_lt in Hroom. destruct Hcap as [Hcap|Hcap]; [lia|].
    rewrite lookup_read. simpl. unfold array at 2. rewrite array_write. simpl.
    destruct (decide (ptr s = ptr s)) as [_|]; [|done].
    change (array h _) with (array h s).
    rewrite lookup_app, lookup_read, Hlr.
    rewrite list_lookup_insert.
    repeat case_decide; try lia.
    + assert (i = len s) as -> by lia. by rewrite Nat.sub_diag.
    + destruct (array h s !! (off s + i)) eqn:Ha; [done|].
      apply lookup_ge_None_1 in Ha. lia.
    + symmetry. apply lookup_ge_None_2. simpl. lia.
  - apply Nat.ltb_ge in Hroom.
    rewrite lookup_read. unfold array at 1. simpl.
    rewrite lookup_app_r by lia. rewrite Nat.sub_diag. simpl.
    case_decide as Hi.
    + rewrite !lookup_app. destruct (read h s !! i) eqn:Hr; [done|].
      apply lookup_ge_None_1 in Hr. rewrite Hlr in *.
      assert (i = len s) as -> by lia. by rewrite Nat.sub_diag.
    + rewrite lookup_ge_None_2; [done|]. rewrite length_app. simpl. lia.
Qed.

Lemma wf_append (h : Heap) (s : Slice) (x : string) :
  wf h s -> wf (append growcap h s x).1 (append growcap h s x).2.
Proof.
  intros Hwf. pose proof (length_read h s Hwf) as Hlr.
  destruct Hwf as [Hlen Hcap]. unfold append, wf, newcap.
  destruct (len s <? cap s) eqn:Hroom; simpl.
  - apply Nat.ltb_lt in Hroom. split; [lia|]. destruct Hcap as [Hcap|Hcap]; [lia|right].
    unfold array at 2. rewrite array_write. simpl.
    destruct (decide (ptr s = ptr s)) as [_|]; [|done].
    change (array h _) with (array h s). by rewrite length_insert.
  - split; [lia|right]. unfold array. simpl.
    rewrite lookup_app_r by lia. rewrite Nat.sub_diag. simpl.
    rewrite length_app. simpl. rewrite length_replicate. lia.
Qed.

Lemma append_frame (h : Heap) (s t : Slice) (x : string) :
  wf h s -> wf h t -> separate s t ->
  read (append growcap h s x).1 t = read h t /\
  wf (append growcap h s x).1 t /\
  separate (append growcap h s x).2 t.
Proof.
  intros Hs Ht Hsep. unfold append.
  destruct (len s <? cap s) eqn:Hroom; simpl.
  - apply Nat.ltb_lt in Hroom. split; [|split].
    + apply list_eq. intros i. rewrite !lookup_read.
      case_decide as Hi; [|done].
      unfold array at 2. rewrite array_write. case_decide as Hp; [|done].
      rewrite list_lookup_insert_ne; [done|].
      intros Heq. apply (Hsep (ptr s) (off s + len s)).
      * split; [done|lia].
      * split; [done|lia].
    + destruct Ht as [Hl Hc]. split; [done|].
      destruct Hc as [Hc|Hc]; [by left|right].
      unfold array at 2. rewrite array_write. case_decide; [|done].
      by rewrite length_insert.
    + intros a i [Ha Hi]. simpl in *. apply Hsep. split; [done|lia].
  - split; [|split].
    + by apply read_app_old.
    + by apply wf_app_old.
    + intros a i [Ha Hi] [Ha' Hi']. simpl in *.
      pose proof (wf_ptr h t Ht) as Hp. destruct Ht as [Hl _]. lia.
Qed.

End AppendFacts.

Lemma separate_self (s : Slice) : separate s s.
Proof. intros a i [_ H1] [_ H2]. lia. Qed.

Lemma separate_ptr (s t : Slice) : ptr s <> ptr t -> separate s t.
Proof. intros Hne a i [H1 _] [H2 _]. congruence. Qed.

End SliceFacts.

(* ===================================================================== *)
(** ** Facts about the derivation *)
(* ===================================================================== *)

Lemma path_loop_cases envs :
  (exists s, path_loop envs = Ret s) \/ (exists v, path_loop envs = Panic v).
Proof.
  induction envs as [|env rest IH]; simpl.
  - left. eexists. reflexivity.
  - destruct (GoString.slice_to env 4); [|right; eauto].
    destruct (String.eqb s "PATH"); [left; eauto|exact IH].
Qed.

Lemma path_loop_long envs :
  Forall (fun e => 4 <= String.length e) envs ->
  exists e, path_loop envs = Ret e /\ (e = "" \/ e ∈ envs).
Proof.
  induction 1 as [|env rest Hlen _ IH]; simpl.
  - exists "". auto.
  - unfold GoString.slice_to, GoString.len.
    destruct (4 <=? String.length env) eqn:Hle; [|apply Nat.leb_gt in Hle; lia].
    destruct (String.eqb _ "PATH").
    + exists env. split; [done|right; left].
    + destruct IH as (e & -> & He). exists e. split; [done|].
      destruct He; [by left|right; by right].
Qed.

Section DeriveFacts.
Variable growcap : nat -> nat -> nat.
Variable HOME : string.

Lemma derive_shape h cj img src tgt :
  (exists h' cfg, devContainerConfiguration growcap HOME h cj img src tgt =
     Ret (h', (cfg, set_Mounts (dev_mounts HOME src tgt) (HostConfig_ cj),
               mkNetworkingConfig (NetworkSettings_Networks cj))))
  \/ (exists v, devContainerConfiguration growcap HOME h cj img src tgt = Panic v).
Proof.
  unfold devContainerConfiguration.
  cbn [GoSlice.alloc set_Entrypoint Env set_Cmd set_WorkingDir set_Image].
  match goal with |- context [path_loop ?l] => destruct (path_loop_cases l) as [[s Hs]|[v Hv]] end.
  - left. rewrite Hs. cbn [mbind Prog_bind prog_bind].
    destruct (GoSlice.append _ _ _ _) as [h1 e1].
    cbn [set_Env Env].
    destruct (GoSlice.append _ _ _ _) as [h2 e2].
    eexists _, _. reflexivity.
  - right. rewrite Hv. eexists. reflexivity.
Qed.

Lemma derive_Ret h cj img src tgt path :
  snapshot_wf h cj ->
  path_loop (GoSlice.read h (Env (Config_ cj))) = Ret path ->
  exists h' cfg,
    devContainerConfiguration growcap HOME h cj img src tgt =
      Ret (h', (cfg, set_Mounts (dev_mounts HOME src tgt) (HostConfig_ cj),
                mkNetworkingConfig (NetworkSettings_Networks cj))) /\
    observe h' cfg =
      set_terminal
        (mkConfig img tgt [] ["/bin/sh"]
           (GoSlice.read h (Env (Config_ cj)) ++
              [path +:+ toolchain_suffix; dev_marker])
           false false false false false false
           (Hostname (Config_ cj)) (User (Config_ cj)) (Labels (Config_ cj))) /\
    observeJSON h' cj = observeJSON h cj.
Proof.
  intros (Hcmd & Hep & Henv & Hsc & Hse) Hpath.
  unfold devContainerConfiguration.
  cbn [GoSlice.alloc set_Entrypoint Env set_Cmd set_WorkingDir set_Image].
  set (h1 := h ++ [["/bin/sh"] ++ replicate 0 ""]).
  set (ep := GoSlice.mkSlice (length h) 0 (length ["/bin/sh"]) (length ["/bin/sh"] + 0)).
  assert (GoSlice.read h1 ep = ["/bin/sh"]) as Hrep
    by apply (SliceFacts.read_alloc_new h ["/bin/sh"] 0).
  assert (GoSlice.wf h1 ep) as Hwep
    by apply (SliceFacts.wf_alloc_new h ["/bin/sh"] 0).
  assert (GoSlice.separate (Env (Config_ cj)) ep) as Hsn.
  { intros a i [Ha Hi] [Ha' _]. simpl in Ha'.
    pose proof (SliceFacts.wf_ptr h _ Henv). lia. }
  pose proof (SliceFacts.read_app_old h (["/bin/sh"] ++ replicate 0 "") _ Hcmd) as Rc.
  pose proof (SliceFacts.read_app_old h (["/bin/sh"] ++ replicate 0 "") _ Hep) as Re.
  pose proof (SliceFacts.read_app_old h (["/bin/sh"] ++ replicate 0 "") _ Henv) as Rv.
  apply (SliceFacts.wf_app_old h (["/bin/sh"] ++ replicate 0 "")) in Hcmd, Hep, Henv.
  fold h1 in Hcmd, Hep, Henv, Rc, Re, Rv.
  rewrite Rv, Hpath.
  cbn [mbind Prog_bind prog_bind].
  set (x1 := path +:+ ":/go/bin:/usr/local/go/bin").
  pose proof (SliceFacts.read_append growcap h1 _ x1 Henv) as Hr1.
  pose proof (SliceFacts.wf_append growcap h1 _ x1 Henv) as Hw1.
  destruct (SliceFacts.append_frame growcap h1 _ _ x1 Henv Hcmd Hsc) as (Fc & Wc & Sc).
  destruct (SliceFacts.append_frame growcap h1 _ _ x1 Henv Hep Hse) as (Fe & We & Se).
  destruct (SliceFacts.append_frame growcap h1 _ _ x1 Henv Hwep Hsn) as (Fn & Wn & Sn).
  destruct (SliceFacts.append_frame growcap h1 _ _ x1 Henv Henv
              (SliceFacts.separate_self _)) as (Fv & Wv & Sv).
  destruct (GoSlice.append growcap h1 (Env (Config_ cj)) x1) as [h2 env1].
  cbn [fst snd set_Env Env] in *.
  set (x2 := "DEV_CONTAINER=true").
  pose proof (SliceFacts.read_append growcap h2 _ x2 Hw1) as Hr2.
  destruct (SliceFacts.append_frame growcap h2 _ _ x2 Hw1 Wc Sc) as (Fc2 & _ & _).
  destruct (SliceFacts.append_frame growcap h2 _ _ x2 Hw1 We Se) as (Fe2 & _ & _).
  destruct (SliceFacts.append_frame growcap h2 _ _ x2 Hw1 Wn Sn) as (Fn2 & _ & _).
  destruct (SliceFacts.append_frame growcap h2 _ _ x2 Hw1 Wv Sv) as (Fv2 & _ & _).
  destruct (GoSlice.append growcap h2 env1 x2) as [h3 env2].
  cbn [fst snd] in *.
  eexists _, _. split; [reflexivity|]. split.
  - unfold observe, set_terminal. cbn -[GoSlice.read].
    rewrite (SliceFacts.read_empty h3 GoSlice.nil_slice) by done.
    rewrite Hr2, Hr1, Fn2, Fn, Hrep, Rv.
    rewrite <- app_assoc. reflexivity.
  - unfold observeJSON, observe.
    by rewrite Fc2, Fc, Fe2, Fe, Fv2, Fv, Rc, Re, Rv.
Qed.
Lemma derive_Panic h cj img src tgt v :
  snapshot_wf h cj ->
  path_loop (GoSlice.read h (Env (Config_ cj))) = Panic v ->
  devContainerConfiguration growcap HOME h cj img src tgt = Panic v.
Proof.
  intros (_ & _ & Henv & _) Hpath.
  unfold devContainerConfiguration.
  cbn [GoSlice.alloc set_Entrypoint Env set_Cmd set_WorkingDir set_Image].
  rewrite (SliceFacts.read_app_old h _ _ Henv), Hpath. reflexivity.
Qed.

Lemma derive_frame h cj img src tgt :
  (exists h' cfg,
     devContainerConfiguration growcap HOME h cj img src tgt =
       Ret (h', (cfg, set_Mounts (dev_mounts HOME src tgt) (HostConfig_ cj),
                 mkNetworkingConfig (NetworkSettings_Networks cj))) /\
     (snapshot_wf h cj -> observeJSON h' cj = observeJSON h cj))
  \/ (exists v, devContainerConfiguration growcap HOME h cj img src tgt = Panic v).
Proof.
  destruct (derive_shape h cj img src tgt) as [(h' & cfg & Heq)|Hp]; [left|by right].
  exists h', cfg. split; [done|]. intros Hwf.
  destruct (path_loop_cases (GoSlice.read h (Env (Config_ cj)))) as [[p Hp]|[v Hv]].
  - destruct (derive_Ret h cj img src tgt p Hwf Hp) as (h2 & cfg2 & Heq2 & _ & Hobs).
    rewrite Heq in Heq2. by injection Heq2 as -> ->.
  - rewrite (derive_Panic h cj img src tgt v Hwf Hv) in Heq. discriminate.
Qed.

End DeriveFacts.

Lemma decode_spec (h0 : GoSlice.Heap) (reply : InspectReply) :
  snapshot_wf (decode h0 reply).1 (decode h0 reply).2 /\
  observeJSON (decode h0 reply).1 (decode h0 reply).2 = document reply.
Proof.
  destruct reply as [[name running cfg hc nets] k1 k2 k3].
  destruct cfg as [img wd cmd ep env f1 f2 f3 f4 f5 f6 hn us lb].
  unfold decode. cbn [document slack_Cmd slack_Entrypoint slack_Env Config_ Cmd
    Entrypoint Env Name State_Running HostConfig_ NetworkSettings_Networks].
  pose (a1 := GoSlice.alloc h0 cmd k1).
  pose (a2 := GoSlice.alloc a1.1 ep k2).
  pose (a3 := GoSlice.alloc a2.1 env k3).
  change (GoSlice.alloc h0 cmd k1) with (a1.1, a1.2). cbv beta iota.
  change (GoSlice.alloc a1.1 ep k2) with (a2.1, a2.2). cbv beta iota.
  change (GoSlice.alloc a2.1 env k3) with (a3.1, a3.2). cbv beta iota.
  pose proof (SliceFacts.wf_alloc_new h0 cmd k1) as W1.
  pose proof (SliceFacts.read_alloc_new h0 cmd k1) as R1.
  pose proof (SliceFacts.wf_alloc_new a1.1 ep k2) as W2.
  pose proof (SliceFacts.read_alloc_new a1.1 ep k2) as R2.
  pose proof (SliceFacts.wf_alloc_new a2.1 env k3) as W3.
  pose proof (SliceFacts.read_alloc_new a2.1 env k3) as R3.
  fold a1 in W1, R1. fold a2 in W2, R2. fold a3 in W3, R3.
  assert (a2.1 = a1.1 ++ [ep ++ replicate k2 ""]) as E2 by reflexivity.
  assert (a3.1 = a2.1 ++ [env ++ replicate k3 ""]) as E3 by reflexivity.
  assert (GoSlice.wf a3.1 a1.2 /\ GoSlice.read a3.1 a1.2 = cmd) as [W1' R1'].
  { rewrite E3. split.
    - apply SliceFacts.wf_app_old. rewrite E2. by apply SliceFacts.wf_app_old.
    - rewrite SliceFacts.read_app_old
        by (rewrite E2; by apply SliceFacts.wf_app_old).
      rewrite E2. by rewrite SliceFacts.read_app_old. }
  assert (GoSlice.wf a3.1 a2.2 /\ GoSlice.read a3.1 a2.2 = ep) as [W2' R2'].
  { rewrite E3. split.
    - by apply SliceFacts.wf_app_old.
    - by rewrite SliceFacts.read_app_old. }
  assert (GoSlice.ptr a1.2 = length h0) as P1 by reflexivity.
  assert (GoSlice.ptr a2.2 = S (length h0)) as P2.
  { unfold a2, a1, GoSlice.alloc. simpl. rewrite length_app. simpl. lia. }
  assert (GoSlice.ptr a3.2 = S (S (length h0))) as P3.
  { unfold a3, a2, a1, GoSlice.alloc. simpl. rewrite !length_app. simpl. lia. }
  destruct a1 as [h1 s1], a2 as [h2 s2], a3 as [h3 s3]. cbn [fst snd] in *.
  split.
  - unfold snapshot_wf.
    cbn [fst snd Config_ Cmd Entrypoint Env set_Env set_Entrypoint set_Cmd].
    refine (conj W1' (conj W2' (conj W3 (conj _ _))));
      apply SliceFacts.separate_ptr; lia.
  - unfold observeJSON, observe. cbn -[GoSlice.read]. by rewrite R1', R2', R3.
Qed.

(* ===================================================================== *)
(** ** Facts about programs and traces *)
(* ===================================================================== *)

Lemma wp_run {A : Type} (o : Oracle) (p : Prog A) Q past :
  wp p Q past -> Q (run o p past).1 (run o p past).2.
Proof.
  revert past.
  induction p as [a|R op k IH|m args|v]; intros past Hwp; simpl in *; auto.
Qed.

Lemma wp_exec {A : Type} (o : Oracle) (p : Prog A) Q :
  wp p Q [] -> Q (exec o p).1 (exec o p).2.
Proof. apply wp_run. Qed.

Lemma wp_bind {A B : Type} (f : A -> Prog B) (p : Prog A) Q past :
  wp p (lift f Q) past -> wp (p ≫= f) Q past.
Proof.
  revert past.
  induction p as [a|R op k IH|m args|v]; intros past Hwp; simpl in *; auto.
Qed.

Lemma guarded_precedes p q t : guarded p q false t = true -> precedes p q t.
Proof.
  induction t as [|e t IH]; intros Hg i x Hi Hq.
  - rewrite lookup_nil in Hi. discriminate.
  - simpl in Hg. apply andb_true_iff in Hg as [Hq0 Hrest].
    destruct i as [|i]; simpl in Hi.
    + injection Hi as ->. rewrite Hq in Hq0. discriminate.
    + destruct (p e) eqn:Hp.
      * exists 0, e. split; [lia|]. split; auto.
      * destruct (IH Hrest i x Hi Hq) as (j & e' & Hj & He' & Hp').
        exists (S j), e'. split; [lia|]. split; auto.
Qed.

(* ===================================================================== *)
(** ** Facts about the process *)
(* ===================================================================== *)















(** One step through a [wp] goal: answers are introduced, and every test
    of the program is split into its cases. *)
Ltac wp_step :=
  match goal with
  | |- wp (Ret _) _ _ => cbn [wp]
  | |- wp (Fatalf _ _) _ _ => cbn [wp]
  | |- wp (Panic _) _ _ => cbn [wp]
  | |- wp (Bind _ _) _ _ => cbn [wp]; intros ?
  | |- wp (call _) _ _ => unfold call at 1
  | |- wp (mret _) _ _ => unfold mret, Prog_ret
  | |- wp (match ?x with _ => _ end) _ _ => destruct x eqn:?
  | |- wp (_ ≫= _) _ _ => apply wp_bind
  | |- lift _ _ _ _ => cbn [lift]
  | |- wp (devContainerConfiguration ?g ?H ?h ?cj ?i ?s ?t) _ _ =>
      destruct (derive_frame g H h cj i s t) as [(?h & ?cfg & -> & ?Hframe)|(?v & ->)]
  | |- wp (getContainerIDByName _) _ _ => unfold getContainerIDByName
  | |- wp (removeOriginalContainer _) _ _ => unfold removeOriginalContainer
  | |- wp (waitForContainerStop _) _ _ => unfold waitForContainerStop
  | |- wp (cleanupDevContainer _) _ _ => unfold cleanupDevContainer
  | |- wp (recreateOriginalContainer _ _ _) _ _ => unfold recreateOriginalContainer
  | |- wp (startDevContainer _ _ _ _ _) _ _ => unfold startDevContainer
  | |- wp (cloneRemoteRepo _ _) _ _ => unfold cloneRemoteRepo
  | |- wp (main _ _ _) _ _ => unfold main
  | |- wp (let _ := _ in _) _ _ => cbv zeta
  end.


(* ===================================================================== *)
(** ** Facts about the lookup and the clone step *)
(* ===================================================================== *)

Lemma names_loop_elem names name :
  names_loop names name = true <-> ("/" +:+ name) ∈ names.
Proof.
  induction names as [|n rest IH]; simpl.
  - split; [discriminate|]. intros H. by apply elem_of_nil in H.
  - destruct (String.eqb n ("/" +:+ name)) eqn:Hn.
    + apply String.eqb_eq in Hn as ->. split; [|done]. intros _. left.
    + apply String.eqb_neq in Hn. rewrite IH, elem_of_cons. split; [tauto|].
      intros [Heq|H]; [congruence|done].
Qed.

Lemma containers_loop_first containers name c :
  first_match containers name c -> containers_loop containers name = Some (ID c).
Proof.
  intros (before & after & -> & Hc & Hbefore).
  induction Hbefore as [|c' before Hc' _ IH]; simpl.
  - apply names_loop_elem in Hc. by rewrite Hc.
  - destruct (names_loop (Names c') name) eqn:Hn; [|done].
    apply names_loop_elem in Hn. contradiction.
Qed.

Lemma containers_loop_none containers name :
  Forall (fun c => ~ matches name c) containers ->
  containers_loop containers name = None.
Proof.
  induction 1 as [|c rest Hc _ IH]; simpl; [done|].
  destruct (names_loop (Names c) name) eqn:Hn; [|done].
  apply names_loop_elem in Hn. contradiction.
Qed.

Lemma clone_args_eq remote branch targetDir :
  (if negb (String.eqb branch "")
   then ["clone"; remote; targetDir] ++ ["-b"; branch; "--single-branch"]
   else ["clone"; remote; targetDir]) = clone_args remote branch targetDir.
Proof. unfold clone_args. by destruct (String.eqb branch ""). Qed.

Lemma git_url_nonempty p : String.eqb (p +:+ ".git") "" = false.
Proof. by destruct p. Qed.

Lemma derive_total growcap HOME h cj img src tgt path :
  GoSlice.wf h (Env (Config_ cj)) ->
  path_loop (GoSlice.read h (Env (Config_ cj))) = Ret path ->
  exists h' cfg,
    devContainerConfiguration growcap HOME h cj img src tgt =
      Ret (h', (cfg, set_Mounts (dev_mounts HOME src tgt) (HostConfig_ cj),
                mkNetworkingConfig (NetworkSettings_Networks cj))).
Proof.
  intros Henv Hpath.
  destruct (derive_shape growcap HOME h cj img src tgt) as [H|[v Hv]]; [done|].
  exfalso. revert Hv. unfold devContainerConfiguration.
  cbn [GoSlice.alloc set_Entrypoint Env set_Cmd set_WorkingDir set_Image].
  rewrite (SliceFacts.read_app_old h _ _ Henv), Hpath.
  cbn [mbind Prog_bind prog_bind].
  destruct (GoSlice.append _ _ _ _) as [h1 e1]. cbn [set_Env Env].
  destruct (GoSlice.append _ _ _ _) as [h2 e2]. discriminate.
Qed.

Ltac untouched := repeat constructor.

Ltac clone_witnesses :=
  match goal with
  | |- exists st rm cl, [Ev _ ?s; Ev _ ?c] = _ /\ _ => exists s, None, c
  | |- exists st rm cl, [Ev _ ?s; Ev _ ?r; Ev _ ?c] = _ /\ _ => exists s, r, c
  end; split; reflexivity.

Ltac all_units := repeat match goal with u : unit |- _ => destruct u end.

(* ===================================================================== *)
(** ** Facts about the process: registration and the controller *)
(* ===================================================================== *)

Lemma unarmed_bind {A B : Type} (f : A -> Prog B) (p : Prog A) post :
  unarmed p (fun a => unarmed (f a) post) -> unarmed (p ≫= f) post.
Proof.
  induction p as [a|R op k IH|m args|v]; intros H; simpl in *; auto.
  destruct (kind op); auto. destruct H as [Hop H]. split; auto.
Qed.

Ltac unarmed_step :=
  match goal with
  | |- True => exact I
  | |- unarmed (Ret _) _ => cbn [unarmed]
  | |- unarmed (Fatalf _ _) _ => exact I
  | |- unarmed (Panic _) _ => exact I
  | |- unarmed (Bind _ _) _ => cbn [unarmed kind]
  | |- _ /\ _ => split
  | |- forall _, _ => intros ?
  | |- unarmed (call _) _ => unfold call at 1
  | |- unarmed (mret _) _ => unfold mret, Prog_ret
  | |- unarmed (match ?x with _ => _ end) _ => destruct x eqn:?
  | |- unarmed (_ ≫= _) _ => apply unarmed_bind
  | |- unarmed (devContainerConfiguration ?g ?H ?h ?cj ?i ?s ?t) _ =>
      destruct (derive_frame g H h cj i s t) as [(?h & ?cfg & -> & ?Hframe)|(?v & ->)]
  | |- unarmed (getContainerIDByName _) _ => unfold getContainerIDByName
  | |- unarmed (removeOriginalContainer _) _ => unfold removeOriginalContainer
  | |- unarmed (waitForContainerStop _) _ => unfold waitForContainerStop
  | |- unarmed (cloneRemoteRepo _ _) _ => unfold cloneRemoteRepo
  | |- unarmed (let _ := _ in _) _ => cbv zeta
  | |- _ = _ => reflexivity
  end.

Lemma main_unarmed growcap HOME f : unarmed (main growcap HOME f) (fun _ => True).
Proof. unfold main. repeat unarmed_step. Qed.

Lemma Registration_start p : unarmed p (fun _ => True) -> Registration (start p).
Proof.
  intros Hp. split; simpl.
  - split; [discriminate|]. intros H. by apply Exists_nil in H.
  - intros _. split; [eauto|constructor].
Qed.

Lemma is_notify_kind {R : Type} (op : Op R) (r : R) :
  is_notify (Ev op r) = match kind op with KNotify _ _ => true | _ => false end.
Proof. reflexivity. Qed.

Lemma Exists_snoc_false {A : Type} (P : A -> Prop) (l : list A) (x : A) :
  ~ P x -> (Exists P (l ++ [x]) <-> Exists P l).
Proof.
  intros Hx. rewrite Exists_app, Exists_cons, Exists_nil. tauto.
Qed.

Lemma step_thread_Registration i answer s p s' :
  Registration s -> exited s = None -> threads s !! i = Some p ->
  step_thread i answer s p = Some s' -> Registration s'.
Proof.
  intros [Hlog Hpre] Hex Hi Hstep.
  assert (notified s = false -> i = 0 /\ threads s = [p] /\
          unarmed p (fun _ => True) /\
          Forall (fun x => created x.2 = None) (log s)) as Hpre'.
  { intros Hn. destruct (Hpre Hn) as [(p0 & Hth & Hp0) Hc].
    rewrite Hth in Hi. destruct i as [|j]; [|done].
    injection Hi as <-. auto. }
  clear Hpre. unfold step_thread in Hstep.
  destruct p as [[]|R op k|m args|v]; simpl in Hstep.
  - destruct (i =? 0); [|discriminate]. injection Hstep as <-.
    split; [exact Hlog|]. simpl. intros Hn.
    destruct (Hpre' Hn) as (_ & Hth & Hp & Hc). eauto.
  - destruct (kind op) as [|n cast|sg cast|g cast|sg cast|cast] eqn:Hk.
    + injection Hstep as <-. split; simpl.
      * rewrite Exists_snoc_false; [exact Hlog|].
        cbn [snd]. rewrite is_notify_kind, Hk. discriminate.
      * intros Hn. destruct (Hpre' Hn) as (-> & Hth & Hp & Hc).
        simpl in Hp. rewrite Hk in Hp. destruct Hp as [Hop Hp].
        rewrite Hth. split; [eexists; split; [reflexivity|apply Hp]|].
        apply Forall_app. split; [exact Hc|]. constructor; [exact (Hop (answer R op))|constructor].
    + injection Hstep as <-. split; simpl.
      * rewrite Exists_snoc_false; [exact Hlog|]. simpl. discriminate.
      * intros Hn. destruct (Hpre' Hn) as (-> & Hth & Hp & Hc).
        simpl in Hp. rewrite Hk in Hp.
        rewrite Hth. split; [eexists; split; [reflexivity|apply Hp]|].
        apply Forall_app. split; [exact Hc|]. by repeat constructor.
    + injection Hstep as <-. split; simpl; [|discriminate].
      split; [intros _|done]. apply Exists_app. right. by constructor.
    + injection Hstep as <-. split; simpl.
      * rewrite Exists_snoc_false; [exact Hlog|]. simpl. discriminate.
      * intros Hn. destruct (Hpre' Hn) as (-> & Hth & Hp & Hc).
        simpl in Hp. by rewrite Hk in Hp.
    + destruct (length (chan_buf s) <? chan_cap s); [|discriminate].
      injection Hstep as <-. split; simpl.
      * rewrite Exists_snoc_false; [exact Hlog|]. simpl. discriminate.
      * intros Hn. destruct (Hpre' Hn) as (-> & Hth & Hp & Hc).
        simpl in Hp. rewrite Hk in Hp.
        rewrite Hth. split; [eexists; split; [reflexivity|apply Hp]|].
        apply Forall_app. split; [exact Hc|]. by repeat constructor.
    + destruct (chan_buf s) as [|v buf]; [discriminate|].
      injection Hstep as <-. split; simpl.
      * rewrite Exists_snoc_false; [exact Hlog|]. simpl. discriminate.
      * intros Hn. destruct (Hpre' Hn) as (-> & Hth & Hp & Hc).
        simpl in Hp. rewrite Hk in Hp.
        rewrite Hth. split; [eexists; split; [reflexivity|apply Hp]|].
        apply Forall_app. split; [exact Hc|]. by repeat constructor.
  - injection Hstep as <-. split; [exact Hlog|]. simpl. intros Hn.
    destruct (Hpre' Hn) as (_ & Hth & Hp & Hc). eauto.
  - injection Hstep as <-. split; [exact Hlog|]. simpl. intros Hn.
    destruct (Hpre' Hn) as (_ & Hth & Hp & Hc). eauto.
Qed.

Lemma step_Registration c s s' :
  Registration s -> step_by c s = Some s' -> Registration s'.
Proof.
  intros HR Hstep. unfold step_by in Hstep.
  destruct (exited s) eqn:Hex; [discriminate|].
  destruct c as [i answer|sig].
  - destruct (threads s !! i) as [p|] eqn:Hi; [|discriminate].
    eauto using step_thread_Registration.
  - destruct HR as [Hlog Hpre]. destruct (notified s) eqn:Hn.
    + destruct (length (chan_buf s) <? chan_cap s); injection Hstep as <-;
        (split; simpl; [by rewrite Hn|by rewrite Hn]).
    + injection Hstep as <-. split; simpl; [by rewrite Hn|by rewrite Hn].
Qed.

Lemma run_Registration cs s s' :
  Registration s -> run_choices cs s = Some s' -> Registration s'.
Proof.
  revert s. induction cs as [|c cs IH]; intros s HI Hrun; simpl in Hrun.
  - by injection Hrun as <-.
  - destruct (step_by c s) as [s1|] eqn:Hs; [|discriminate].
    eauto using step_Registration.
Qed.

(** Reading a fact off a state a schedule has reached. *)
Lemma reached_fact {A : Type} (g : Process -> A) (o : option Process)
    (s : Process) (a : A) :
  o = Some s -> option_map g o = Some a -> g s = a.
Proof. intros -> [= <-]. reflexivity. Qed.

Lemma forallb_none {A : Type} (g : A -> bool) (l : list A) :
  forallb (fun x => negb (g x)) l = true -> Forall (fun x => g x = false) l.
Proof.
  induction l as [|x l IH]; simpl; [constructor|].
  intros [Hx Hl]%andb_true_iff. constructor; [by apply negb_true_iff|auto].
Qed.

Lemma existsb_some {A : Type} (g : A -> bool) (l : list A) :
  existsb g l = true -> Exists (fun x => g x = true) l.
Proof.
  induction l as [|x l IH]; simpl; [discriminate|].
  intros [Hx|Hl]%orb_true_iff; [by left|right; auto].
Qed.

(** Reading facts off the state a schedule reaches. *)
Lemma reached_some (o : option Process) :
  match o with Some _ => true | None => false end = true -> exists s, o = Some s.
Proof. destruct o as [s|]; [eauto|discriminate]. Qed.

Lemma app_singleton_Forall {A : Type} (l k : list A) (x : A) :
  l ++ k = [x] -> Forall (fun y => y = x) l.
Proof.
  destruct l as [|y l]; [constructor|]. intros [= -> H].
  apply app_eq_nil in H as [-> _]. by repeat constructor.
Qed.

Lemma main_log_advance_main s p e : main_log (advance s 0 p e) = main_log s ++ [e].
Proof. unfold main_log. cbn [advance log]. by rewrite omap_app. Qed.

Lemma main_log_advance_other s j p e :
  main_log (advance s (S j) p e) = main_log s.
Proof.
  unfold main_log. cbn [advance log]. rewrite omap_app. simpl. apply app_nil_r.
Qed.

Lemma failed_attach_external {R : Type} (op : Op R) (r : R) :
  failed_attach (Ev op r) = true -> kind op = KExternal.
Proof. by destruct op. Qed.

Lemma attach_only_goroutine g : attach_only (goroutine g).
Proof.
  destruct g as [id|id]; simpl.
  - intros [e|]; [by left|right]. simpl. auto.
  - intros [code|e]; right; simpl.
    + destruct (code =? 0)%Z; simpl; auto.
    + auto.
Qed.

Lemma failed_snoc (l : list (nat * Event)) (x : nat * Event) :
  Exists (fun x => failed_attach x.2 = true) l ->
  Exists (fun x => failed_attach x.2 = true) (l ++ [x]).
Proof. intros H. apply Exists_app. by left. Qed.

Lemma harmless_snoc (l : list (nat * Event)) (x : nat * Event) rest :
  Forall (fun q : Prog unit =>
            attach_only q \/ Exists (fun x => failed_attach x.2 = true) l) rest ->
  Forall (fun q : Prog unit =>
            attach_only q \/ Exists (fun x => failed_attach x.2 = true) (l ++ [x])) rest.
Proof.
  intros H. eapply Forall_impl; [exact H|].
  intros q [Hq|Hq]; [by left|right; by apply failed_snoc].
Qed.

Lemma wp_ended {A : Type} (p : Prog A) Q past out :
  wp p Q past -> ended_as p = Some out -> Q past out.
Proof. destruct p; simpl; intros H [= <-]; done. Qed.

Lemma Led_start p Q : wp p Q [] -> Led Q (start p).
Proof.
  intros Hp. exists p, []. simpl. repeat split; auto. discriminate.
Qed.

Lemma Led_intro Q s p0 rest :
  threads s = p0 :: rest ->
  wp p0 Q (main_log s) ->
  Forall (fun q => attach_only q \/
                   Exists (fun x => failed_attach x.2 = true) (log s)) rest ->
  exited s = None ->
  Led Q s.
Proof.
  intros Hth Hwp Hrest Hex. exists p0, rest. repeat split; auto.
  rewrite Hex. discriminate.
Qed.

Lemma Led_ended Q s p0 rest out :
  threads s = p0 :: rest ->
  wp p0 Q (main_log s) ->
  Forall (fun q => attach_only q \/
                   Exists (fun x => failed_attach x.2 = true) (log s)) rest ->
  ended_as p0 = Some out ->
  exited s = Some (Exited (exit_status out)) ->
  Led Q s.
Proof.
  intros Hth Hwp Hrest Hout Hex. exists p0, rest. repeat split; auto.
  rewrite Hex. intros st [= <-]. right; right. eauto.
Qed.

Ltac led_log :=
  unfold main_log;
  cbn [log advance with_chan with_notified with_thread with_exit];
  rewrite ?omap_app; cbn [omap list_omap fst snd Nat.eqb app];
  rewrite ?app_nil_r; fold main_log.

Ltac led_threads Hth :=
  cbn [threads advance with_chan with_notified with_thread with_exit];
  rewrite Hth; simpl; reflexivity.

Ltac led_rest Hrest :=
  cbn [log advance with_chan with_notified with_thread with_exit];
  first
    [ exact Hrest
    | by apply harmless_snoc
    | apply Forall_app; split;
        [by apply harmless_snoc
        |constructor; [left; apply attach_only_goroutine|constructor]] ].

Lemma Led_step Q c s s' : Led Q s -> step_by c s = Some s' -> Led Q s'.
Proof.
  intros (p0 & rest & Hth & Hwp & Hrest & Hend) Hstep. clear Hend.
  unfold step_by in Hstep. destruct (exited s) eqn:Hex; [discriminate|].
  destruct c as [i answer|sig].
  - destruct (threads s !! i) as [p|] eqn:Hi; [|discriminate].
    rewrite Hth in Hi. destruct i as [|j]; simpl in Hi.
    + injection Hi as <-.
      destruct p0 as [[]|R op k|m args|v]; simpl in Hstep, Hwp.
      * injection Hstep as <-.
        apply (Led_ended _ _ (Ret tt) rest (Done tt)); auto.
      * destruct op; cbn [kind] in Hstep;
          repeat match type of Hstep with
                 | (if ?b then _ else _) = _ => destruct b eqn:?; [|discriminate]
                 | match ?l with [] => _ | _ :: _ => _ end = _ =>
                     destruct l eqn:?; [discriminate|]
                 end;
          injection Hstep as <-.
        all: eapply Led_intro;
          [ led_threads Hth | led_log; apply Hwp | led_rest Hrest | exact Hex ].
      * injection Hstep as <-.
        apply (Led_ended _ _ (Fatalf m args) rest (Fatal m args)); auto.
      * injection Hstep as <-.
        apply (Led_ended _ _ (Panic v) rest (Panicked v)); auto.
    + pose proof (Forall_lookup_1 _ _ _ _ Hrest Hi) as Hp.
      destruct p as [[]|R op k|m args|v]; simpl in Hstep.
      * discriminate.
      * assert (forall r : R,
                  Forall (fun q => attach_only q \/
                            Exists (fun x => failed_attach x.2 = true)
                              (log s ++ [(S j, Ev op r)]))
                    (<[j := k r]> rest)) as Hnew.
        { intros r. apply Forall_insert; [by apply harmless_snoc|].
          destruct Hp as [Hp|Hp]; [|right; by apply failed_snoc].
          destruct (Hp r) as [Hf|Hk]; [right|by left].
          apply Exists_app. right. by constructor. }
        destruct op; cbn [kind] in Hstep;
          repeat match type of Hstep with
                 | (if ?b then _ else _) = _ => destruct b eqn:?; [|discriminate]
                 | match ?l with [] => _ | _ :: _ => _ end = _ =>
                     destruct l eqn:?; [discriminate|]
                 end;
          injection Hstep as <-.
        all: eapply (Led_intro _ _ p0);
          [ led_threads Hth
          | led_log; exact Hwp
          | cbn [log advance with_chan with_notified with_thread with_exit];
            first [ apply Hnew
                  | apply Forall_app; split;
                      [apply Hnew
                      |constructor; [left; apply attach_only_goroutine|constructor]] ]
          | exact Hex ].
      * injection Hstep as <-. exists p0, rest.
        cbn [threads exited log notified with_exit]. unfold main_log in *.
        cbn [log with_exit]. repeat split; auto.
        intros st _. left. by destruct Hp.
      * injection Hstep as <-. exists p0, rest.
        cbn [threads exited log notified with_exit]. unfold main_log in *.
        cbn [log with_exit]. repeat split; auto.
        intros st _. left. by destruct Hp.
  - destruct (notified s) eqn:Hn.
    + destruct (length (chan_buf s) <? chan_cap s); injection Hstep as <-;
        apply (Led_intro _ _ p0 rest); auto.
    + injection Hstep as <-. exists p0, rest.
      cbn [threads exited log notified with_exit]. unfold main_log in *.
      cbn [log with_exit]. repeat split; auto.
      intros st [= <-]. right; left. eauto.
Qed.

Lemma Led_run Q cs s s' : Led Q s -> run_choices cs s = Some s' -> Led Q s'.
Proof.
  revert s. induction cs as [|c cs IH]; intros s HI Hrun; simpl in Hrun.
  - by injection Hrun as <-.
  - destruct (step_by c s) as [s1|] eqn:Hs; [|discriminate].
    eauto using Led_step.
Qed.

Lemma run_extends {A : Type} (o : Oracle) (p : Prog A) past :
  past `prefix_of` (run o p past).1.
Proof.
  revert past. induction p as [a|R op k IH|m args|v]; intros past; simpl; try done.
  etrans; [|apply IH]. by apply prefix_app_r.
Qed.

(** Whatever the process has done, what goroutine 0 has done so far is the
    beginning of a complete run of its program. *)
Lemma Led_prefix Q s : Led Q s -> exists t out, main_log s `prefix_of` t /\ Q t out.
Proof.
  intros (p0 & rest & _ & Hwp & _).
  exists (run (Sample.oracle Sample.no_faults) p0 (main_log s)).1,
         (run (Sample.oracle Sample.no_faults) p0 (main_log s)).2.
  split; [apply run_extends|by apply wp_run].
Qed.

(** A process that has ended without a failed [docker attach] was killed
    by a signal before [signal.Notify], or ended by goroutine 0, whose
    events are then a complete run of its program. *)
Lemma Led_exit Q s st :
  Led Q s -> exited s = Some st ->
  Forall (fun x => failed_attach x.2 = false) (log s) ->
  (notified s = false /\ exists sig, st = Signaled sig) \/
  exists out, Q (main_log s) out /\ st = Exited (exit_status out).
Proof.
  intros (p0 & rest & _ & Hwp & _ & Hend) Hex Hno.
  destruct (Hend st Hex) as [Hf|[Hs|(out & Hout & ->)]]; [|by left|right].
  - exfalso. apply Exists_exists in Hf as (x & Hx & Hfx).
    rewrite Forall_forall in Hno. specialize (Hno x Hx). congruence.
  - exists out. split; [|done]. by apply (wp_ended p0).
Qed.

Lemma after_recv_app l k post :
  after_recv l = Some post -> after_recv (l ++ k) = Some (post ++ k).
Proof.
  induction l as [|e l IH]; simpl; [discriminate|].
  destruct (is_recv e); [by intros [= <-]|auto].
Qed.

Lemma before_recv_app l k post :
  after_recv l = Some post -> before_recv (l ++ k) = before_recv l.
Proof.
  induction l as [|e l IH]; simpl; [discriminate|].
  destruct (is_recv e); [done|]. intros H. by rewrite IH.
Qed.

Lemma before_recv_prefix l : before_recv l `prefix_of` l.
Proof.
  induction l as [|e l IH]; simpl; [done|].
  destruct (is_recv e); [apply prefix_nil|by apply prefix_cons].
Qed.

Lemma head_omap_prefix {A B : Type} (g : A -> option B) (l1 l2 : list A) x :
  l1 `prefix_of` l2 -> head (omap g l1) = Some x -> head (omap g l2) = Some x.
Proof.
  intros [k ->]. rewrite omap_app. destruct (omap g l1); simpl; [discriminate|done].
Qed.

Lemma main_log_elem s e : e ∈ main_log s -> (0, e) ∈ log s.
Proof.
  unfold main_log. rewrite list_elem_of_omap. intros ([i e'] & Hin & Hx).
  simpl in Hx. destruct i; simpl in Hx; [|discriminate]. by injection Hx as ->.
Qed.

Lemma head_omap_elem {A B : Type} (g : A -> option B) (l : list A) x :
  head (omap g l) = Some x -> exists a, a ∈ l /\ g a = Some x.
Proof.
  intros H. apply list_elem_of_omap. destruct (omap g l); [discriminate|].
  injection H as ->. left.
Qed.

Lemma create_result_created e x : create_result e = Some x -> created e <> None.
Proof. destruct e as [R op r]. by destruct op. Qed.

(** Every complete run of [main] is a [controller_run]. *)
Lemma main_controller_run growcap HOME f :
  wp (main growcap HOME f) controller_run [].
Proof.
  repeat wp_step.
  all: intros post H; simpl in H; try discriminate.
  all: injection H as <-.
  all: all_units.
  all: eexists _, _, _, _, _, _.
  all: split; [simpl; reflexivity|].
  all: split; [simpl; reflexivity|].
  all: split; [reflexivity|].
  all: cbv beta iota.
  all: try (split; reflexivity).
  all: repeat match goal with
              | Hr : State_Running _ = _ |- _ => rewrite Hr; clear Hr
              end.
  all: split; [simpl; reflexivity|].
  all: split; [simpl; reflexivity|].
  all: eexists; split; [simpl; reflexivity|].
  all: cbv beta iota.
  all: try (split; reflexivity).
  all: match goal with
       | Hd : decode [] ?a = (?h, ?c), Hf : snapshot_wf ?h ?c -> _ |- _ =>
           pose proof (decode_spec [] a) as [Hwf Hdoc];
           rewrite Hd in Hwf, Hdoc; cbn [fst snd] in Hwf, Hdoc;
           specialize (Hf Hwf); rewrite Hdoc in Hf; rewrite <- Hf
       end.
  all: simpl; reflexivity.
Qed.

Lemma main_Led growcap HOME f cs s :
  run_choices cs (start (main growcap HOME f)) = Some s -> Led controller_run s.
Proof.
  apply Led_run, Led_start, main_controller_run.
Qed.

(** [main] receives only after [signal.Notify]. *)
Lemma received_registered growcap HOME f cs s post :
  run_choices cs (start (main growcap HOME f)) = Some s ->
  after_recv (main_log s) = Some post -> notified s = true.
Proof.
  intros Hrun Hpost. destruct (notified s) eqn:Hn; [done|]. exfalso.
  pose proof (run_Registration cs _ s
                (Registration_start _ (main_unarmed growcap HOME f)) Hrun)
    as [_ Hpre].
  destruct (Hpre Hn) as [_ Hnone].
  destruct (Led_prefix _ _ (main_Led _ _ _ _ _ Hrun)) as (t & out & [k ->] & Hq).
  destruct (Hq _ (after_recv_app _ k _ Hpost))
    as (id & reply & name & dev & r & rest & _ & Hc & _).
  rewrite (before_recv_app _ k _ Hpost) in Hc.
  apply (head_omap_prefix _ _ _ _ (before_recv_prefix _)) in Hc.
  apply head_omap_elem in Hc as (e & He & Hce).
  apply main_log_elem in He.
  rewrite Forall_forall in Hnone. specialize (Hnone _ He).
  by apply create_result_created in Hce.
Qed.

(** A process of [main] that has ended after the receive, without a
    failed [docker attach], was ended by [main] itself: its events are a
    complete run of the controller. *)
Lemma ended_controller_run growcap HOME f cs s st post :
  run_choices cs (start (main growcap HOME f)) = Some s ->
  exited s = Some st ->
  Forall (fun x => failed_attach x.2 = false) (log s) ->
  after_recv (main_log s) = Some post ->
  exists out, controller_run (main_log s) out /\ st = Exited (exit_status out).
Proof.
  intros Hrun Hex Hno Hpost.
  destruct (Led_exit _ _ _ (main_Led _ _ _ _ _ Hrun) Hex Hno) as [[Hn _]|H]; [|done].
  rewrite (received_registered _ _ _ _ _ _ Hrun Hpost) in Hn. discriminate.
Qed.

(** TEARDOWN_DEV in a state the process has reached, read through any
    completion [k] of what [main] has done so far. *)
Lemma controller_teardown l k out post id reply :
  controller_run (l ++ k) out ->
  after_recv l = Some post ->
  head (omap inspected post) = Some (id, Ok reply) ->
  exists name dev rest,
    head (omap create_result l) = Some (name, Ok dev) /\ id = resp_ID dev /\
    post = Ev (Print Stdout "Interrupt signal received, stopping container..." []) tt
           :: Ev (ContainerInspect id) (Ok reply) :: rest /\
    fst <$> omap stopped (rest ++ k) =
      (if State_Running (document reply) then [id] else []) /\
    omap waited (rest ++ k) =
      (if State_Running (document reply) then [id] else []) /\
    exists e, omap removed (rest ++ k) = [(id, e)].
Proof.
  intros Hq Hpost Hi.
  destruct (Hq _ (after_recv_app _ k _ Hpost))
    as (id0 & reply0 & name & dev & r & rest & _ & Hc & Heq & Hr).
  rewrite (before_recv_app _ k _ Hpost) in Hc.
  apply (head_omap_prefix _ _ _ _ (before_recv_prefix _)) in Hc.
  destruct post as [|e1 [|e2 rest']]; simpl in Heq, Hi.
  - discriminate.
  - injection Heq as -> _. discriminate.
  - injection Heq as -> -> <-. simpl in Hi. injection Hi as <- ->.
    destruct Hr as (Hs & Hw & e & He & _).
    exists name, dev, rest'. repeat split; eauto.
Qed.

(* ===================================================================== *)
(** ** The claims *)
(* ===================================================================== *)


(** C2, as amended.  During TEARDOWN_DEV a failure of the stop request is
    ignored and a failure of the wait is only printed; a failure of the
    inspect panics and a failure of the removal is fatal.  So in every run
    of the process, under every schedule, that has ended after the
    controller's receive without a failed [docker attach]: when the
    inspect of the development container had failed the process ended
    with status 2, and when its removal had failed with status 1, in both
    cases without a create call after the receive; in every other case,
    whatever the stop request and the wait answered, the create call of
    RECREATE_ORIGINAL was issued, with the configuration, host
    configuration, networks and name of the original container as
    inspected at SNAPSHOT. *)
Theorem teardown_failures (growcap : nat -> nat -> nat) (HOME : string)
    (f : Flags) (cs : list Choice) (s : Process) (st : ExitStatus)
    (post : list Event) :
  run_choices cs (start (main growcap HOME f)) = Some s ->
  exited s = Some st ->
  Forall (fun x => failed_attach x.2 = false) (log s) ->
  after_recv (main_log s) = Some post ->
  match head (omap inspected post) with
  | Some (_, Err err) => st = Exited 2 /\ omap created post = []
  | Some (_, Ok _) =>
      match head (omap removed post) with
      | Some (_, Some err) => st = Exited 1 /\ omap created post = []
      | Some (_, None) =>
          exists id reply,
            head (omap inspected (main_log s)) = Some (id, Ok reply) /\
            omap created post =
              [(Config_ (document reply), HostConfig_ (document reply),
                mkNetworkingConfig (NetworkSettings_Networks (document reply)),
                Name (document reply))]
      | None => False
      end
  | None => False
  end.
Proof.
  intros Hrun Hex Hno Hpost.
  destruct (ended_controller_run _ _ _ _ _ _ _ Hrun Hex Hno Hpost) as (out & Hq & ->).
  destruct (Hq _ Hpost) as (id & reply & name & dev & r & rest & Hi & _ & -> & Hr).
  apply (head_omap_prefix _ _ _ _ (before_recv_prefix _)) in Hi.
  change (head (omap inspected
            (Ev (Print Stdout "Interrupt signal received, stopping container..." []) tt
             :: Ev (ContainerInspect (resp_ID dev)) r :: rest)))
    with (Some (resp_ID dev, r)).
  change (omap removed
            (Ev (Print Stdout "Interrupt signal received, stopping container..." []) tt
             :: Ev (ContainerInspect (resp_ID dev)) r :: rest))
    with (omap removed rest).
  change (omap created
            (Ev (Print Stdout "Interrupt signal received, stopping container..." []) tt
             :: Ev (ContainerInspect (resp_ID dev)) r :: rest))
    with (omap created rest).
  destruct r as [c|err]; cbv beta iota.
  - destruct Hr as (_ & _ & e & -> & Hout). cbn [head].
    destruct e as [err|]; [destruct Hout as [-> ->]; done|eauto].
  - by destruct Hr as [-> ->].
Qed.

(** C3.  Deriving the development configuration leaves the snapshot as it
    was.  Every snapshot the program decodes from an inspect answer is
    well formed in the store and reads as the answer; read through a
    well-formed snapshot after [devContainerConfiguration], image, command,
    entrypoint, environment, mounts and name are what they were before,
    although the appended environment entries may sit in the array the
    snapshot's [Env] slice points to.  [recreateOriginalContainer] begins
    with the create call, made from the snapshot's configuration read
    through the store, the snapshot's host configuration and name, and the
    networks it is given.  In every run of the process, under every
    schedule, every create call [main] makes after its receive carries
    the values the inspect of the original answered, its name and its
    networks; and when the process has ended without a failed
    [docker attach] and the removal of the development container had
    succeeded, exactly that one create call was made. *)
Theorem snapshot_untouched_by_derivation (growcap : nat -> nat -> nat) (HOME : string) :
  (forall reply,
     snapshot_wf (decode [] reply).1 (decode [] reply).2 /\
     observeJSON (decode [] reply).1 (decode [] reply).2 = document reply) /\
  (forall h cj img src tgt h' cfg hc nc,
     snapshot_wf h cj ->
     devContainerConfiguration growcap HOME h cj img src tgt = Ret (h', (cfg, hc, nc)) ->
     observeJSON h' cj = observeJSON h cj) /\
  (forall (o : Oracle) h cj nc,
     exists r rest,
       (exec o (recreateOriginalContainer h cj nc)).1 =
         Ev (ContainerCreate (observe h (Config_ cj)) (HostConfig_ cj) nc (Name cj)) r
         :: rest) /\
  (forall f cs s id reply post,
     run_choices cs (start (main growcap HOME f)) = Some s ->
     head (omap inspected (main_log s)) = Some (id, Ok reply) ->
     after_recv (main_log s) = Some post ->
     Forall (fun x => x = (Config_ (document reply), HostConfig_ (document reply),
                           mkNetworkingConfig (NetworkSettings_Networks (document reply)),
                           Name (document reply)))
       (omap created post) /\
     (forall st id',
        exited s = Some st ->
        Forall (fun x => failed_attach x.2 = false) (log s) ->
        head (omap removed post) = Some (id', None) ->
        omap created post =
          [(Config_ (document reply), HostConfig_ (document reply),
            mkNetworkingConfig (NetworkSettings_Networks (document reply)),
            Name (document reply))])).
Proof.
  split; [exact (decode_spec [])|]. split; [|split].
  - intros h cj img src tgt h' cfg hc nc Hwf Heq.
    destruct (derive_frame growcap HOME h cj img src tgt)
      as [(h2 & cfg2 & Heq2 & Hobs)|(v & Hv)]; [|congruence].
    rewrite Heq in Heq2. injection Heq2 as -> _ _ _. auto.
  - intros o h cj nc.
    apply (wp_exec o (recreateOriginalContainer h cj nc) (fun t _ =>
      exists r rest,
        t = Ev (ContainerCreate (observe h (Config_ cj)) (HostConfig_ cj) nc (Name cj)) r
            :: rest)).
    unfold recreateOriginalContainer. repeat wp_step.
    all: eexists _, _; reflexivity.
  - intros f cs s id reply post Hrun Hi Hpost. split.
    + destruct (Led_prefix _ _ (main_Led _ _ _ _ _ Hrun)) as (t & out & [k ->] & Hq).
      destruct (Hq _ (after_recv_app _ k _ Hpost))
        as (id0 & reply0 & name & dev & r & rest & Hi0 & _ & Heq & Hr).
      rewrite (before_recv_app _ k _ Hpost) in Hi0.
      apply (head_omap_prefix _ _ _ _ (before_recv_prefix _)) in Hi0.
      rewrite Hi in Hi0. injection Hi0 as <- <-.
      assert (omap created post ++ omap created k = omap created rest) as Hc
        by (rewrite <- omap_app, Heq; reflexivity).
      destruct r as [c|err].
      * destruct Hr as (_ & _ & e & _ & Hout). destruct e as [err|].
        -- destruct Hout as [Hout _]. rewrite Hout in Hc.
           apply app_eq_nil in Hc as [-> _]. constructor.
        -- rewrite Hout in Hc. by apply app_singleton_Forall in Hc.
      * destruct Hr as [-> _]. apply app_eq_nil in Hc as [-> _]. constructor.
    + intros st id' Hex Hno Hrm.
      destruct (ended_controller_run _ _ _ _ _ _ _ Hrun Hex Hno Hpost) as (out & Hq & ->).
      destruct (Hq _ Hpost) as (id0 & reply0 & name & dev & r & rest & Hi0 & _ & -> & Hr).
      apply (head_omap_prefix _ _ _ _ (before_recv_prefix _)) in Hi0.
      rewrite Hi in Hi0. injection Hi0 as <- <-.
      change (omap removed
                (Ev (Print Stdout "Interrupt signal received, stopping container..." []) tt
                 :: Ev (ContainerInspect (resp_ID dev)) r :: rest))
        with (omap removed rest) in Hrm.
      change (omap created
                (Ev (Print Stdout "Interrupt signal received, stopping container..." []) tt
                 :: Ev (ContainerInspect (resp_ID dev)) r :: rest))
        with (omap created rest).
      destruct r as [c|err].
      * destruct Hr as (_ & _ & e & He & Hout). rewrite He in Hrm.
        injection Hrm as _ ->. exact Hout.
      * destruct Hr as [-> _]. discriminate.
Qed.


(** C5, as amended.  For a well-formed snapshot whose environment has no
    entry named [PATH] and whose entries are all at least four bytes long,
    the derivation does not panic and returns a configuration whose
    environment is the original one followed by exactly two entries: one
    that ends in the fixed toolchain suffix (the suffix alone, or an
    original entry followed by it), then [DEV_CONTAINER=true]. *)
Theorem derive_without_PATH (growcap : nat -> nat -> nat) (HOME : string)
    (h : GoSlice.Heap) (cj : ContainerJSON GoSlice.Slice)
    (newImage sourcePath targetPath : string) :
  let env := GoSlice.read h (Env (Config_ cj)) in
  snapshot_wf h cj ->
  Forall (fun entry => env_name entry <> "PATH") env ->
  Forall (fun entry => 4 <= String.length entry) env ->
  exists h' config hostConfig networkingConfig entry,
    devContainerConfiguration growcap HOME h cj newImage sourcePath targetPath =
      Ret (h', (config, hostConfig, networkingConfig)) /\
    GoSlice.read h' (Env config) = env ++ [entry +:+ toolchain_suffix; dev_marker] /\
    length (GoSlice.read h' (Env config)) = length env + 2 /\
    (entry = "" \/ entry ∈ env).
Proof.
  intros env Hwf _ Hlong.
  destruct (path_loop_long _ Hlong) as (e & He & Hin).
  destruct (derive_Ret growcap HOME h cj newImage sourcePath targetPath e Hwf He)
    as (h' & cfg & Heq & Hobs & _).
  eexists h', cfg, _, _, e. split; [exact Heq|].
  assert (GoSlice.read h' (Env cfg) = env ++ [e +:+ toolchain_suffix; dev_marker]) as Hr.
  { change (GoSlice.read h' (Env cfg)) with (Env (observe h' cfg)). by rewrite Hobs. }
  split; [exact Hr|]. split; [|exact Hin].
  rewrite Hr, length_app. simpl. lia.
Qed.

(** C6.  Whatever the original configuration, home directory, source path
    and target path, the host configuration that the derivation returns has
    as its mount list exactly the four bind mounts, in this order: source
    path to target path, [$HOME/.ssh] to [/root/.ssh], [$HOME/.gitconfig]
    to [/root/.gitconfig], [$HOME/go/pkg] to [/go/pkg]; the original mounts
    are not kept.  The derivation does return when no environment entry is
    shorter than four bytes. *)
Theorem dev_mounts_replaced (growcap : nat -> nat -> nat) (HOME : string)
    (h : GoSlice.Heap) (cj : ContainerJSON GoSlice.Slice)
    (newImage sourcePath targetPath : string) :
  (forall h' config hostConfig networkingConfig,
     devContainerConfiguration growcap HOME h cj newImage sourcePath targetPath =
       Ret (h', (config, hostConfig, networkingConfig)) ->
     Mounts hostConfig =
       [ mkMount TypeBind sourcePath targetPath;
         mkMount TypeBind (HOME +:+ "/.ssh") "/root/.ssh";
         mkMount TypeBind (HOME +:+ "/.gitconfig") "/root/.gitconfig";
         mkMount TypeBind (HOME +:+ "/go/pkg") "/go/pkg" ]) /\
  (GoSlice.wf h (Env (Config_ cj)) ->
   Forall (fun entry => 4 <= String.length entry) (GoSlice.read h (Env (Config_ cj))) ->
   exists h' config hostConfig networkingConfig,
     devContainerConfiguration growcap HOME h cj newImage sourcePath targetPath =
       Ret (h', (config, hostConfig, networkingConfig))).
Proof.
  split.
  - intros h' config hostConfig networkingConfig Heq.
    destruct (derive_shape growcap HOME h cj newImage sourcePath targetPath)
      as [(h2 & cfg2 & Heq2)|(v & Hv)]; [|congruence].
    rewrite Heq in Heq2. by injection Heq2 as -> -> -> ->.
  - intros Hwf Hlong.
    destruct (path_loop_long _ Hlong) as (e & He & _).
    destruct (derive_total growcap HOME h cj newImage sourcePath targetPath e Hwf He)
      as (h' & cfg & Heq).
    eauto.
Qed.

(** C7.  The lookup lists all containers, stopped ones included, and
    answers the ID of the first listed container one of whose names is
    ["/"] followed by the supplied name.  When no listed container
    matches, the lookup answers an error, and [main] then ends with
    [log.Fatalf] (exit status 1) without having stopped, removed or created
    any container. *)
Theorem locate_first_match_or_abort (growcap : nat -> nat -> nat) (HOME : string)
    (o : Oracle) (f : Flags) :
  let t := (exec o (main growcap HOME f)).1 in
  let out := (exec o (main growcap HOME f)).2 in
  (forall name containers c,
     o _ [] (ContainerList true) = Ok containers ->
     first_match containers name c ->
     exec o (getContainerIDByName name) =
       ([Ev (ContainerList true) (Ok containers)], Done (Ok (ID c)))) /\
  (forall name containers,
     o _ [] (ContainerList true) = Ok containers ->
     Forall (fun c => ~ matches name c) containers ->
     exists err, (exec o (getContainerIDByName name)).2 = Done (Err err)) /\
  (forall containers,
     head (omap listed t) = Some (Ok containers) ->
     Forall (fun c => ~ matches (containerName f) c) containers ->
     exists err,
       out = Fatal "Error getting Docker container's id by name: %v" [AErr err] /\
       exit_status out <> 0%Z /\
       Forall (fun e => touches e = false) t).
Proof.
  cbv zeta. split; [|split].
  - intros name containers c Ho Hc.
    unfold exec, getContainerIDByName. simpl. rewrite Ho.
    by rewrite (containers_loop_first _ _ _ Hc).
  - intros name containers Ho Hnone.
    unfold exec, getContainerIDByName. simpl. rewrite Ho.
    rewrite (containers_loop_none _ _ Hnone). simpl. eauto.
  - apply (wp_exec o (main growcap HOME f) (fun t out =>
      forall containers,
        head (omap listed t) = Some (Ok containers) ->
        Forall (fun c => ~ matches (containerName f) c) containers ->
        exists err,
          out = Fatal "Error getting Docker container's id by name: %v" [AErr err] /\
          exit_status out <> 0%Z /\
          Forall (fun e => touches e = false) t)).
    repeat wp_step.
    all: intros containers H Hnone; simpl in H; try discriminate.
    all: injection H as <-.
    all: try (rewrite (containers_loop_none _ _ Hnone) in *; discriminate).
    all: eexists; split; [reflexivity|]; split; [discriminate|untouched].
Qed.

(** C8.  In every run of [main], each call that stops or removes a
    container comes after an inspect call that succeeded; and when the
    first inspect fails, [main] ends with [log.Fatalf] without any call
    that stops, removes or creates a container. *)
Theorem snapshot_before_teardown (growcap : nat -> nat -> nat) (HOME : string)
    (o : Oracle) (f : Flags) :
  let t := (exec o (main growcap HOME f)).1 in
  let out := (exec o (main growcap HOME f)).2 in
  precedes inspect_ok destroys t /\
  (forall id err, head (omap inspected t) = Some (id, Err err) ->
     out = Fatal "Error inspecting container: %v" [AErr err] /\
     Forall (fun e => touches e = false) t).
Proof.
  cbv zeta.
  apply (wp_exec o (main growcap HOME f) (fun t out =>
    precedes inspect_ok destroys t /\
    (forall id err, head (omap inspected t) = Some (id, Err err) ->
       out = Fatal "Error inspecting container: %v" [AErr err] /\
       Forall (fun e => touches e = false) t))).
  repeat wp_step.
  all: split; [apply guarded_precedes; reflexivity|].
  all: intros id err H; simpl in H; try discriminate.
  all: injection H as <- <-; split; [reflexivity|untouched].
Qed.

(** The clone step on the URLs the specification has in mind, those that
    end in [.git].  For every such URL and every branch, the clone step
    takes as target directory [/tmp/] followed by the URL stripped up to
    its last [/] and of the [.git] suffix, removes the directory when it
    is already there, runs [git clone] into it and returns that path; in
    [main] the successful clone comes before every call to the Docker
    daemon, and the first mount of the development container binds that
    path to the target path. *)
Theorem clone_target_for_git_urls (growcap : nat -> nat -> nat) (HOME : string)
    (o : Oracle) (f : Flags) (p : string) :
  remote f = p +:+ ".git" ->
  let targetDir := spec_targetDir (remote f) in
  let t := (exec o (main growcap HOME f)).1 in
  (exists st rm cl,
     (exec o (cloneRemoteRepo (remote f) (branch f))).1 =
       clone_events (remote f) (branch f) targetDir st rm cl /\
     (exec o (cloneRemoteRepo (remote f) (branch f))).2 =
       match cl with
       | None => Done targetDir
       | Some err => Fatal "Failed to clone repository: %v" [AErr err]
       end) /\
  precedes clone_ok docker_call t /\
  (forall c hc nc n,
     head (omap created t) = Some (c, hc, nc, n) ->
     head (Mounts hc) = Some (mkMount TypeBind targetDir (targetPath f))).
Proof.
  intros Hremote. cbv zeta. rewrite Hremote. split.
  - apply (wp_exec o (cloneRemoteRepo (p +:+ ".git") (branch f)) (fun t out =>
      exists st rm cl,
        t = clone_events (p +:+ ".git") (branch f)
              (spec_targetDir (p +:+ ".git")) st rm cl /\
        out = match cl with
              | None => Done (spec_targetDir (p +:+ ".git"))
              | Some err => Fatal "Failed to clone repository: %v" [AErr err]
              end)).
    unfold cloneRemoteRepo. rewrite StringFacts.repoName_git, clone_args_eq.
    repeat wp_step.
    all: unfold clone_events; simpl.
    all: clone_witnesses.
  - apply (wp_exec o (main growcap HOME f) (fun t out =>
      precedes clone_ok docker_call t /\
      (forall c hc nc n,
         head (omap created t) = Some (c, hc, nc, n) ->
         head (Mounts hc) =
           Some (mkMount TypeBind (spec_targetDir (p +:+ ".git")) (targetPath f))))).
    unfold main. rewrite Hremote, git_url_nonempty. cbn [negb].
    apply wp_bind. unfold cloneRemoteRepo.
    rewrite StringFacts.repoName_git, clone_args_eq.
    repeat wp_step.
    all: split; [apply guarded_precedes; reflexivity|].
    all: intros ? ? ? ? H; simpl in H; try discriminate.
    all: injection H as <- <- <- <-; reflexivity.
Qed.

(** C9.  The claim at the URL [https://github.com/org/repo], for every
    branch and whatever the environment answers: the specification's
    directory is [/tmp/repo], but the last [.] of the URL comes before its
    last [/], the slice of [cloneRemoteRepo] is out of bounds and the step
    panics before it has tested, removed or cloned anything; [main] with
    this [-remote] panics likewise, before any other step. *)
Theorem clone_without_git_suffix_panics (growcap : nat -> nat -> nat) (HOME : string)
    (o : Oracle) (b name source target image : string) :
  spec_targetDir "https://github.com/org/repo" = "/tmp/repo" /\
  exec o (cloneRemoteRepo "https://github.com/org/repo" b) =
    ([], Panicked "slice bounds out of range") /\
  exec o (main growcap HOME
            (mkFlags name source target image "https://github.com/org/repo" b)) =
    ([], Panicked "slice bounds out of range").
Proof.
  assert (cloneRemoteRepo "https://github.com/org/repo" b =
          Panic "slice bounds out of range") as Hp by (vm_compute; reflexivity).
  split; [vm_compute; reflexivity|]. split; [by rewrite Hp|].
  unfold main. cbn [remote branch]. rewrite Hp. reflexivity.
Qed.

(** C10.  With a non-empty [-remote] and no [-name], [main] performs the
    clone step first: it tests the target directory, removes it when it
    is there, and runs [git clone]; only then does it end, with the
    missing-argument error when the clone succeeded (with the clone error
    otherwise), and without any call to the Docker daemon. *)
Theorem clone_before_name_check (growcap : nat -> nat -> nat) (HOME : string)
    (o : Oracle) (f : Flags) (repoName : string) :
  remote f <> "" ->
  containerName f = "" ->
  GoString.slice (remote f) (GoString.LastIndex (remote f) "/" + 1)%Z
    (GoString.LastIndex (remote f) ".") = Some repoName ->
  let targetDir := "/tmp" +:+ "/" +:+ repoName in
  exists st rm cl,
    (exec o (main growcap HOME f)).1 =
      clone_events (remote f) (branch f) targetDir st rm cl /\
    (exec o (main growcap HOME f)).2 =
      match cl with
      | None => Fatal "Argument for -name is required" []
      | Some err => Fatal "Failed to clone repository: %v" [AErr err]
      end.
Proof.
  intros Hremote Hname Hslice. cbv zeta.
  apply (wp_exec o (main growcap HOME f) (fun t out =>
    exists st rm cl,
      t = clone_events (remote f) (branch f) ("/tmp" +:+ "/" +:+ repoName) st rm cl /\
      out = match cl with
            | None => Fatal "Argument for -name is required" []
            | Some err => Fatal "Failed to clone repository: %v" [AErr err]
            end)).
  unfold main. apply String.eqb_neq in Hremote. rewrite Hremote, Hname.
  cbn [negb]. change (String.eqb "" "") with true. cbv iota.
  apply wp_bind. unfold cloneRemoteRepo. rewrite Hslice, clone_args_eq.
  repeat wp_step.
  all: unfold clone_events; simpl.
  all: clone_witnesses.
Qed.

(* ===================================================================== *)
(** ** The claims on the sample worlds *)
(* ===================================================================== *)



(** The sample run in which the stop request for the development
    container fails: the process ends with status 0, and the create call
    of RECREATE_ORIGINAL has been issued. *)
Lemma teardown_failures_witness :
  exists s,
    run_choices (sample_schedule (Sample.mkFaults false false false true false))
      (start (main Sample.double Sample.home Sample.flags)) = Some s /\
    exited s = Some (Exited 0) /\
    after_recv (main_log s) =
      Some (sample_post (Sample.mkFaults false false false true false)) /\
    omap stopped (sample_post (Sample.mkFaults false false false true false)) =
      [(Sample.dev_id, Some "cannot stop")] /\
    exists x, omap created (sample_post (Sample.mkFaults false false false true false)) = [x].
Proof.
  destruct (reached_some
              (run_choices (sample_schedule (Sample.mkFaults false false false true false))
                 (start (main Sample.double Sample.home Sample.flags))))
    as [s Hs]; [vm_compute; reflexivity|].
  assert (exited s = Some (Exited 0)) as Hex
    by (apply (reached_fact exited _ s _ Hs); vm_compute; reflexivity).
  assert (Forall (fun x => failed_attach x.2 = false) (log s)) as Hno
    by (apply forallb_none;
        apply (reached_fact
                 (fun s => forallb (fun x => negb (failed_attach x.2)) (log s))
                 _ s true Hs); vm_compute; reflexivity).
  assert (after_recv (main_log s) =
          Some (sample_post (Sample.mkFaults false false false true false))) as Hpost
    by (apply (reached_fact (fun s => after_recv (main_log s)) _ s _ Hs);
        vm_compute; reflexivity).
  pose proof (teardown_failures Sample.double Sample.home Sample.flags _ s _ _
                Hs Hex Hno Hpost) as Hc.
  assert (head (omap inspected (sample_post (Sample.mkFaults false false false true false)))
          = Some (Sample.dev_id, Ok Sample.reply)) as Hi by (vm_compute; reflexivity).
  assert (head (omap removed (sample_post (Sample.mkFaults false false false true false)))
          = Some (Sample.dev_id, None)) as Hr by (vm_compute; reflexivity).
  rewrite Hi, Hr in Hc.
  destruct Hc as (id & reply & _ & Hc).
  exists s. repeat (split; [assumption|]).
  split; [vm_compute; reflexivity|eexists; exact Hc].
Defined.

(** An interrupt ends RUN.  When the inspect of the development container
    fails the process exits with status 2, and when its removal fails
    with status 1: in both runs no create call follows the receive.  And
    when [docker attach] fails after the development container has been
    inspected and removed with success, the process exits with status 1
    before the create call of RECREATE_ORIGINAL. *)
Lemma teardown_failures_counterexample :
  match run_choices (interrupted_schedule (Sample.mkFaults false false true false false) 4)
          (start (main Sample.double Sample.home Sample.flags)) with
  | Some s =>
      exited s = Some (Exited 2) /\
      option_map (fun post => head (omap inspected post)) (after_recv (main_log s)) =
        Some (Some (Sample.dev_id, Err "no such container")) /\
      option_map (omap created) (after_recv (main_log s)) = Some []
  | None => False
  end /\
  match run_choices (interrupted_schedule (Sample.mkFaults false false false false true) 8)
          (start (main Sample.double Sample.home Sample.flags)) with
  | Some s =>
      exited s = Some (Exited 1) /\
      option_map (omap removed) (after_recv (main_log s)) =
        Some [(Sample.dev_id, Some "removal in progress")] /\
      option_map (omap created) (after_recv (main_log s)) = Some []
  | None => False
  end /\
  match run_choices attach_fails_in_teardown
          (start (main Sample.double Sample.home Sample.flags)) with
  | Some s =>
      exited s = Some (Exited 1) /\
      omap (fun x => ran x.2) (log s) =
        [("docker", ["attach"; Sample.dev_id], Some "exit status 1")] /\
      option_map (omap removed) (after_recv (main_log s)) =
        Some [(Sample.dev_id, None)] /\
      option_map (omap created) (after_recv (main_log s)) = Some []
  | None => False
  end.
Proof. vm_compute. repeat split. Qed.

(** The sample snapshot is well formed, is derived from, and reads after
    the derivation as it did before; and in the sample run the one
    container created after RUN is created from what the inspect of the
    original container answered, under its name and with its networks. *)
Lemma snapshot_untouched_by_derivation_witness :
  (snapshot_wf (heap_of Sample.reply) (snapshot_of Sample.reply) /\
   exists h' cfg hc nc,
     devContainerConfiguration Sample.double Sample.home (heap_of Sample.reply)
       (snapshot_of Sample.reply) "docker-dev-golang:latest" "/src" "/app" =
       Ret (h', (cfg, hc, nc)) /\
     observeJSON h' (snapshot_of Sample.reply) =
       observeJSON (heap_of Sample.reply) (snapshot_of Sample.reply)) /\
  (exists s,
     run_choices (sample_schedule Sample.no_faults)
       (start (main Sample.double Sample.home Sample.flags)) = Some s /\
     head (omap inspected (main_log s)) = Some ("c0ffee", Ok Sample.reply) /\
     after_recv (main_log s) = Some (sample_post Sample.no_faults) /\
     head (omap removed (sample_post Sample.no_faults)) = Some (Sample.dev_id, None) /\
     omap created (sample_post Sample.no_faults) =
       [(Config_ (document Sample.reply), HostConfig_ (document Sample.reply),
         mkNetworkingConfig (NetworkSettings_Networks (document Sample.reply)),
         Name (document Sample.reply))]).
Proof.
  assert (snapshot_wf (heap_of Sample.reply) (snapshot_of Sample.reply)) as Hwf
    by exact (proj1 (decode_spec [] Sample.reply)).
  split.
  - split; [exact Hwf|].
    eexists _, _, _, _. split; [vm_compute; reflexivity|].
    eapply (proj1 (proj2 (snapshot_untouched_by_derivation Sample.double Sample.home))
              (heap_of Sample.reply) (snapshot_of Sample.reply)
              "docker-dev-golang:latest" "/src" "/app" _ _ _ _ Hwf).
    vm_compute. reflexivity.
  - destruct (reached_some
                (run_choices (sample_schedule Sample.no_faults)
                   (start (main Sample.double Sample.home Sample.flags))))
      as [s Hs]; [vm_compute; reflexivity|].
    assert (exited s = Some (Exited 0)) as Hex
      by (apply (reached_fact exited _ s _ Hs); vm_compute; reflexivity).
    assert (Forall (fun x => failed_attach x.2 = false) (log s)) as Hno
      by (apply forallb_none;
          apply (reached_fact
                   (fun s => forallb (fun x => negb (failed_attach x.2)) (log s))
                   _ s true Hs); vm_compute; reflexivity).
    assert (head (omap inspected (main_log s)) = Some ("c0ffee", Ok Sample.reply)) as Hi
      by (apply (reached_fact (fun s => head (omap inspected (main_log s))) _ s _ Hs);
          vm_compute; reflexivity).
    assert (after_recv (main_log s) = Some (sample_post Sample.no_faults)) as Hpost
      by (apply (reached_fact (fun s => after_recv (main_log s)) _ s _ Hs);
          vm_compute; reflexivity).
    assert (head (omap removed (sample_post Sample.no_faults)) =
            Some (Sample.dev_id, None)) as Hr by (vm_compute; reflexivity).
    exists s. repeat (split; [assumption|]).
    destruct (snapshot_untouched_by_derivation Sample.double Sample.home)
      as (_ & _ & _ & Hmain).
    destruct (Hmain Sample.flags _ s "c0ffee" Sample.reply _ Hs Hi Hpost) as [_ Hend].
    exact (Hend _ _ Hex Hno Hr).
Defined.


(** An environment without [PATH]: two entries are added. *)
Lemma derive_without_PATH_witness :
  exists h' config hostConfig networkingConfig entry,
    devContainerConfiguration Sample.double Sample.home
      (heap_of (Sample.with_env ["MODE=prod"; "HOME=/root"]))
      (snapshot_of (Sample.with_env ["MODE=prod"; "HOME=/root"]))
      "docker-dev-golang:latest" "/src" "/app" =
      Ret (h', (config, hostConfig, networkingConfig)) /\
    GoSlice.read h' (Env config) =
      GoSlice.read (heap_of (Sample.with_env ["MODE=prod"; "HOME=/root"]))
        (Env (Config_ (snapshot_of (Sample.with_env ["MODE=prod"; "HOME=/root"])))) ++
      [entry +:+ toolchain_suffix; dev_marker] /\
    length (GoSlice.read h' (Env config)) =
      length (GoSlice.read (heap_of (Sample.with_env ["MODE=prod"; "HOME=/root"]))
        (Env (Config_ (snapshot_of (Sample.with_env ["MODE=prod"; "HOME=/root"]))))) + 2 /\
    (entry = "" \/
     entry ∈ GoSlice.read (heap_of (Sample.with_env ["MODE=prod"; "HOME=/root"]))
       (Env (Config_ (snapshot_of (Sample.with_env ["MODE=prod"; "HOME=/root"]))))).
Proof.
  apply (derive_without_PATH Sample.double Sample.home
           (heap_of (Sample.with_env ["MODE=prod"; "HOME=/root"]))
           (snapshot_of (Sample.with_env ["MODE=prod"; "HOME=/root"]))).
  - exact (proj1 (decode_spec [] (Sample.with_env ["MODE=prod"; "HOME=/root"]))).
  - vm_compute. repeat constructor; discriminate.
  - vm_compute. repeat constructor.
Defined.

(** No environment at all: the derived environment has two entries, not
    one.  A three-byte entry [A=1] and no [PATH]: the derivation panics. *)
Lemma derive_without_PATH_counterexample :
  (Forall (fun entry => env_name entry <> "PATH")
     (GoSlice.read (heap_of (Sample.with_env []))
        (Env (Config_ (snapshot_of (Sample.with_env []))))) /\
   exists h' config hostConfig networkingConfig,
     devContainerConfiguration Sample.double Sample.home
       (heap_of (Sample.with_env [])) (snapshot_of (Sample.with_env []))
       "docker-dev-golang:latest" "/src" "/app" =
       Ret (h', (config, hostConfig, networkingConfig)) /\
     length (GoSlice.read h' (Env config)) <>
       S (length (GoSlice.read (heap_of (Sample.with_env []))
                    (Env (Config_ (snapshot_of (Sample.with_env []))))))) /\
  (Forall (fun entry => env_name entry <> "PATH")
     (GoSlice.read (heap_of (Sample.with_env ["A=1"]))
        (Env (Config_ (snapshot_of (Sample.with_env ["A=1"]))))) /\
   devContainerConfiguration Sample.double Sample.home
     (heap_of (Sample.with_env ["A=1"])) (snapshot_of (Sample.with_env ["A=1"]))
     "docker-dev-golang:latest" "/src" "/app" =
     Panic "slice bounds out of range").
Proof.
  split.
  - vm_compute. split; [constructor|].
    eexists _, _, _, _. split; [reflexivity|]. simpl. lia.
  - vm_compute. split; [|reflexivity].
    constructor; [|constructor]. discriminate.
Qed.

(** The sample snapshot has one volume mount; the derived host
    configuration has the four bind mounts instead. *)
Lemma dev_mounts_replaced_witness :
  exists h' config hostConfig networkingConfig,
    devContainerConfiguration Sample.double Sample.home (heap_of Sample.reply)
      (snapshot_of Sample.reply) "docker-dev-golang:latest" "/src" "/app" =
      Ret (h', (config, hostConfig, networkingConfig)) /\
    Mounts hostConfig =
      [ mkMount TypeBind "/src" "/app";
        mkMount TypeBind "/home/dev/.ssh" "/root/.ssh";
        mkMount TypeBind "/home/dev/.gitconfig" "/root/.gitconfig";
        mkMount TypeBind "/home/dev/go/pkg" "/go/pkg" ].
Proof.
  eexists _, _, _, _. split; [vm_compute; reflexivity|].
  eapply (proj1 (dev_mounts_replaced Sample.double Sample.home (heap_of Sample.reply)
                   (snapshot_of Sample.reply) "docker-dev-golang:latest" "/src" "/app")).
  vm_compute. reflexivity.
Defined.

(** The daemon lists [db] and [api]: the lookup of [api] answers the ID of
    the second container; asked for [ghost], [main] ends with the lookup
    error and has touched no container. *)
Lemma locate_first_match_or_abort_witness :
  exec (Sample.oracle Sample.no_faults) (getContainerIDByName "api") =
    ([Ev (ContainerList true)
        (Ok [mkSummary "db01" ["/db"]; mkSummary "c0ffee" ["/api"]])],
     Done (Ok "c0ffee")) /\
  exists err,
    sample_outcome Sample.no_faults
      (mkFlags "ghost" "/src" "/app" "docker-dev-golang:latest" "" "master") =
      Fatal "Error getting Docker container's id by name: %v" [AErr err] /\
    exit_status
      (sample_outcome Sample.no_faults
         (mkFlags "ghost" "/src" "/app" "docker-dev-golang:latest" "" "master")) <> 0%Z /\
    Forall (fun e => touches e = false)
      (sample_trace Sample.no_faults
         (mkFlags "ghost" "/src" "/app" "docker-dev-golang:latest" "" "master")).
Proof.
  pose proof (locate_first_match_or_abort Sample.double Sample.home
                (Sample.oracle Sample.no_faults)
                (mkFlags "ghost" "/src" "/app" "docker-dev-golang:latest" "" "master"))
    as (Hfirst & _ & Hnone).
  split.
  - apply (Hfirst "api" _ (mkSummary "c0ffee" ["/api"])); [reflexivity|].
    exists [mkSummary "db01" ["/db"]], []. split; [reflexivity|]. split.
    + unfold matches. vm_compute. left.
    + constructor; [|constructor]. unfold matches. simpl Names.
      intros H. apply list_elem_of_singleton in H. vm_compute in H. discriminate H.
  - apply (Hnone [mkSummary "db01" ["/db"]; mkSummary "c0ffee" ["/api"]]).
    + vm_compute. reflexivity.
    + repeat constructor; unfold matches; simpl Names;
        intros H; apply list_elem_of_singleton in H; vm_compute in H; discriminate H.
Defined.

(** The inspect of [api] fails: [main] ends there, and no container has
    been stopped, removed or created. *)
Lemma snapshot_before_teardown_witness :
  sample_outcome (Sample.mkFaults true false false false false) Sample.flags =
    Fatal "Error inspecting container: %v" [AErr "connection refused"] /\
  Forall (fun e => touches e = false)
    (sample_trace (Sample.mkFaults true false false false false) Sample.flags).
Proof.
  apply (proj2 (snapshot_before_teardown Sample.double Sample.home
                  (Sample.oracle (Sample.mkFaults true false false false false))
                  Sample.flags) "c0ffee" "connection refused").
  vm_compute. reflexivity.
Defined.

(** [-remote git@host:org/repo.git -branch dev]: the clone goes to
    [/tmp/repo]. *)
Lemma clone_target_for_git_urls_witness :
  exists st rm cl,
    (exec (Sample.oracle Sample.no_faults)
       (cloneRemoteRepo "git@host:org/repo.git" "dev")).1 =
      clone_events "git@host:org/repo.git" "dev" "/tmp/repo" st rm cl /\
    (exec (Sample.oracle Sample.no_faults)
       (cloneRemoteRepo "git@host:org/repo.git" "dev")).2 =
      match cl with
      | None => Done "/tmp/repo"
      | Some err => Fatal "Failed to clone repository: %v" [AErr err]
      end.
Proof.
  apply (proj1 (clone_target_for_git_urls Sample.double Sample.home
                  (Sample.oracle Sample.no_faults)
                  (Sample.remote_flags "api" "git@host:org/repo.git")
                  "git@host:org/repo" eq_refl)).
Defined.

(** [-remote git@host:org/repo.git] without [-name]: [/tmp/repo] is
    removed and cloned again before the missing-argument error. *)
Lemma clone_before_name_check_witness :
  exists st rm cl,
    sample_trace Sample.no_faults (Sample.remote_flags "" "git@host:org/repo.git") =
      clone_events "git@host:org/repo.git" "dev" "/tmp/repo" st rm cl /\
    sample_outcome Sample.no_faults (Sample.remote_flags "" "git@host:org/repo.git") =
      match cl with
      | None => Fatal "Argument for -name is required" []
      | Some err => Fatal "Failed to clone repository: %v" [AErr err]
      end.
Proof.
  apply (clone_before_name_check Sample.double Sample.home
           (Sample.oracle Sample.no_faults)
           (Sample.remote_flags "" "git@host:org/repo.git") "repo").
  - discriminate.
  - reflexivity.
  - vm_compute. reflexivity.
Defined.

(* ===================================================================== *)
(** ** Further facts about the derivation *)
(* ===================================================================== *)

Lemma path_loop_first before entry after :
  Forall passed_over before ->
  4 <= String.length entry -> substring 0 4 entry = "PATH" ->
  path_loop (before ++ entry :: after) = Ret entry.
Proof.
  intros Hb Hlen Hp. induction Hb as [|e before [Hl Hn] _ IH]; simpl.
  - unfold GoString.slice_to, GoString.len.
    destruct (4 <=? String.length entry) eqn:Hle; [|apply Nat.leb_gt in Hle; lia].
    by rewrite Hp.
  - unfold GoString.slice_to, GoString.len.
    destruct (4 <=? String.length e) eqn:Hle; [|apply Nat.leb_gt in Hle; lia].
    apply String.eqb_neq in Hn. by rewrite Hn.
Qed.

Lemma path_loop_short before entry after :
  Forall passed_over before -> String.length entry < 4 ->
  path_loop (before ++ entry :: after) = Panic "slice bounds out of range".
Proof.
  intros Hb Hlen. induction Hb as [|e before [Hl Hn] _ IH]; simpl.
  - unfold GoString.slice_to, GoString.len.
    destruct (4 <=? String.length entry) eqn:Hle; [apply Nat.leb_le in Hle; lia|done].
  - unfold GoString.slice_to, GoString.len.
    destruct (4 <=? String.length e) eqn:Hle; [|apply Nat.leb_gt in Hle; lia].
    apply String.eqb_neq in Hn. by rewrite Hn.
Qed.

Lemma path_loop_Panic envs v :
  path_loop envs = Panic v ->
  v = "slice bounds out of range" /\
  exists before entry after,
    envs = before ++ entry :: after /\ Forall passed_over before /\
    String.length entry < 4.
Proof.
  induction envs as [|e rest IH]; simpl; [discriminate|].
  unfold GoString.slice_to, GoString.len.
  destruct (4 <=? String.length e) eqn:Hle.
  - apply Nat.leb_le in Hle.
    destruct (String.eqb (substring 0 4 e) "PATH") eqn:Hp; [discriminate|].
    apply String.eqb_neq in Hp. intros H.
    destruct (IH H) as (-> & before & entry & after & -> & Hb & Hlen).
    split; [done|]. exists (e :: before), entry, after.
    split; [done|]. split; [|done]. constructor; [by split|done].
  - apply Nat.leb_gt in Hle. intros [= <-]. split; [done|].
    exists [], e, rest. split; [done|]. split; [constructor|done].
Qed.

Section DeriveMore.
Variable growcap : nat -> nat -> nat.
Variable HOME : string.

(** The derivation leaves the snapshot well formed in the new store. *)
Lemma derive_wf h cj img src tgt h' cfg hc nc :
  snapshot_wf h cj ->
  devContainerConfiguration growcap HOME h cj img src tgt = Ret (h', (cfg, hc, nc)) ->
  snapshot_wf h' cj.
Proof.
  intros (Hcmd & Hep & Henv & Hsc & Hse).
  unfold devContainerConfiguration.
  cbn [GoSlice.alloc set_Entrypoint Env set_Cmd set_WorkingDir set_Image].
  set (h1 := h ++ [["/bin/sh"] ++ replicate 0 ""]).
  pose proof (SliceFacts.read_app_old h (["/bin/sh"] ++ replicate 0 "") _ Henv) as Rv.
  apply (SliceFacts.wf_app_old h (["/bin/sh"] ++ replicate 0 "")) in Hcmd, Hep, Henv.
  fold h1 in Hcmd, Hep, Henv, Rv.
  destruct (path_loop _) as [path| | |]; try discriminate.
  cbn [mbind Prog_bind prog_bind].
  set (x1 := path +:+ ":/go/bin:/usr/local/go/bin").
  pose proof (SliceFacts.wf_append growcap h1 _ x1 Henv) as Hw1.
  destruct (SliceFacts.append_frame growcap h1 _ _ x1 Henv Hcmd Hsc) as (_ & Wc & Sc).
  destruct (SliceFacts.append_frame growcap h1 _ _ x1 Henv Hep Hse) as (_ & We & Se).
  destruct (SliceFacts.append_frame growcap h1 _ _ x1 Henv Henv
              (SliceFacts.separate_self _)) as (_ & Wv & Sv).
  destruct (GoSlice.append growcap h1 (Env (Config_ cj)) x1) as [h2 env1].
  cbn [fst snd set_Env Env] in *.
  set (x2 := "DEV_CONTAINER=true").
  destruct (SliceFacts.append_frame growcap h2 _ _ x2 Hw1 Wc Sc) as (_ & Wc2 & _).
  destruct (SliceFacts.append_frame growcap h2 _ _ x2 Hw1 We Se) as (_ & We2 & _).
  destruct (SliceFacts.append_frame growcap h2 _ _ x2 Hw1 Wv Sv) as (_ & Wv2 & _).
  destruct (GoSlice.append growcap h2 env1 x2) as [h3 env2].
  cbn [fst snd] in *. intros [= <- _ _ _].
  exact (conj Wc2 (conj We2 (conj Wv2 (conj Hsc Hse)))).
Qed.

(** What a derivation that returns has returned. *)
Lemma derive_Ret_inv h cj img src tgt h' cfg hc nc :
  snapshot_wf h cj ->
  devContainerConfiguration growcap HOME h cj img src tgt = Ret (h', (cfg, hc, nc)) ->
  exists path,
    path_loop (GoSlice.read h (Env (Config_ cj))) = Ret path /\
    hc = set_Mounts (dev_mounts HOME src tgt) (HostConfig_ cj) /\
    nc = mkNetworkingConfig (NetworkSettings_Networks cj) /\
    observe h' cfg =
      set_terminal
        (mkConfig img tgt [] ["/bin/sh"]
           (GoSlice.read h (Env (Config_ cj)) ++
              [path +:+ toolchain_suffix; dev_marker])
           false false false false false false
           (Hostname (Config_ cj)) (User (Config_ cj)) (Labels (Config_ cj))).
Proof.
  intros Hwf Heq.
  destruct (path_loop_cases (GoSlice.read h (Env (Config_ cj)))) as [[p Hp]|[v Hv]].
  - destruct (derive_Ret growcap HOME h cj img src tgt p Hwf Hp)
      as (h2 & cfg2 & Heq2 & Hobs & _).
    rewrite Heq in Heq2. injection Heq2 as <- <- -> ->. eauto.
  - rewrite (derive_Panic growcap HOME h cj img src tgt v Hwf Hv) in Heq. discriminate.
Qed.

End DeriveMore.

(* ===================================================================== *)
(** ** Further properties of the derivation *)
(* ===================================================================== *)

(** X1.  When the environment holds an entry that begins with the four
    bytes [PATH], the derivation extends the first such entry: the
    original entries all stay, and a copy of that entry followed by the
    toolchain suffix is appended before the marker.  Only the entries
    before it must be four bytes long; those after it are never
    sliced. *)
Theorem derive_extends_first_PATH (growcap : nat -> nat -> nat) (HOME : string)
    (h : GoSlice.Heap) (cj : ContainerJSON GoSlice.Slice)
    (newImage sourcePath targetPath : string) (before : list string)
    (entry : string) (after : list string) :
  snapshot_wf h cj ->
  GoSlice.read h (Env (Config_ cj)) = before ++ entry :: after ->
  Forall passed_over before ->
  4 <= String.length entry ->
  substring 0 4 entry = "PATH" ->
  exists h' config hostConfig networkingConfig,
    devContainerConfiguration growcap HOME h cj newImage sourcePath targetPath =
      Ret (h', (config, hostConfig, networkingConfig)) /\
    GoSlice.read h' (Env config) =
      before ++ entry :: after ++ [entry +:+ toolchain_suffix; dev_marker].
Proof.
  intros Hwf Henv Hb Hlen Hp.
  pose proof (path_loop_first before entry after Hb Hlen Hp) as Hpath.
  rewrite <- Henv in Hpath.
  destruct (derive_Ret growcap HOME h cj newImage sourcePath targetPath entry Hwf Hpath)
    as (h' & cfg & Heq & Hobs & _).
  eexists h', cfg, _, _. split; [exact Heq|].
  change (GoSlice.read h' (Env cfg)) with (Env (observe h' cfg)).
  rewrite Hobs, Henv. simpl. by rewrite <- app_assoc.
Qed.

(** X2.  The derivation of a well-formed snapshot panics exactly when an
    environment entry shorter than four bytes comes before any entry that
    begins with [PATH]: such an entry makes it panic, with the
    slice-bounds panic, and it panics in no other case and with no other
    value. *)
Theorem derive_panics_on_short_entry (growcap : nat -> nat -> nat) (HOME : string)
    (h : GoSlice.Heap) (cj : ContainerJSON GoSlice.Slice)
    (newImage sourcePath targetPath : string) :
  snapshot_wf h cj ->
  ((exists before entry after,
      GoSlice.read h (Env (Config_ cj)) = before ++ entry :: after /\
      Forall passed_over before /\ String.length entry < 4) ->
   devContainerConfiguration growcap HOME h cj newImage sourcePath targetPath
     = Panic "slice bounds out of range") /\
  (forall v,
     devContainerConfiguration growcap HOME h cj newImage sourcePath targetPath
       = Panic v ->
     v = "slice bounds out of range" /\
     exists before entry after,
       GoSlice.read h (Env (Config_ cj)) = before ++ entry :: after /\
       Forall passed_over before /\ String.length entry < 4).
Proof.
  intros Hwf. split.
  - intros (before & entry & after & Henv & Hb & Hlen).
    apply (derive_Panic growcap HOME h cj newImage sourcePath targetPath _ Hwf).
    rewrite Henv. by apply path_loop_short.
  - intros v Hv.
    destruct (path_loop_cases (GoSlice.read h (Env (Config_ cj)))) as [[p Hp]|[w Hw]].
    + destruct (derive_Ret growcap HOME h cj newImage sourcePath targetPath p Hwf Hp)
        as (h' & cfg & Heq & _). congruence.
    + rewrite (derive_Panic growcap HOME h cj newImage sourcePath targetPath _ Hwf Hw)
        in Hv. injection Hv as <-. by apply path_loop_Panic.
Qed.

(** X3.  What the derivation writes and what it carries over: the image
    and the working directory are the ones supplied, the command is empty,
    the entrypoint is [/bin/sh], the six terminal flags are set; host
    name, user and labels, and bind strings, network mode and privilege of
    the host configuration are those of the snapshot; the networking
    configuration holds the snapshot's networks. *)
Theorem derived_configuration_fields (growcap : nat -> nat -> nat) (HOME : string)
    (h : GoSlice.Heap) (cj : ContainerJSON GoSlice.Slice)
    (newImage sourcePath targetPath : string) h' config hostConfig networkingConfig :
  snapshot_wf h cj ->
  devContainerConfiguration growcap HOME h cj newImage sourcePath targetPath =
    Ret (h', (config, hostConfig, networkingConfig)) ->
  Image config = newImage /\ WorkingDir config = targetPath /\
  GoSlice.read h' (Cmd config) = [] /\
  GoSlice.read h' (Entrypoint config) = ["/bin/sh"] /\
  (AttachStdin config, AttachStdout config, AttachStderr config,
   Tty config, OpenStdin config, StdinOnce config) =
    (true, true, true, true, true, true) /\
  (Hostname config, User config, Labels config) =
    (Hostname (Config_ cj), User (Config_ cj), Labels (Config_ cj)) /\
  (Binds hostConfig, NetworkMode hostConfig, Privileged hostConfig) =
    (Binds (HostConfig_ cj), NetworkMode (HostConfig_ cj), Privileged (HostConfig_ cj)) /\
  EndpointsConfig networkingConfig = NetworkSettings_Networks cj.
Proof.
  intros Hwf Heq.
  destruct (derive_Ret_inv growcap HOME h cj newImage sourcePath targetPath
              h' config hostConfig networkingConfig Hwf Heq)
    as (path & _ & -> & -> & Hobs).
  pose proof (f_equal Image Hobs) as H1.
  pose proof (f_equal WorkingDir Hobs) as H2.
  pose proof (f_equal Cmd Hobs) as H3.
  pose proof (f_equal Entrypoint Hobs) as H4.
  pose proof (f_equal AttachStdin Hobs) as H5.
  pose proof (f_equal AttachStdout Hobs) as H6.
  pose proof (f_equal AttachStderr Hobs) as H7.
  pose proof (f_equal Tty Hobs) as H8.
  pose proof (f_equal OpenStdin Hobs) as H9.
  pose proof (f_equal StdinOnce Hobs) as H10.
  pose proof (f_equal Hostname Hobs) as H11.
  pose proof (f_equal User Hobs) as H12.
  pose proof (f_equal Labels Hobs) as H13.
  cbn -[GoSlice.read] in *.
  repeat split; congruence.
Qed.

(** X4.  The derivation can be repeated: run again on the same snapshot in
    the store the first run has left (whose arrays may now hold the first
    run's entries behind the snapshot's environment), it returns, and the
    configuration it returns reads exactly as the first one did. *)
Theorem derivation_repeatable (growcap : nat -> nat -> nat) (HOME : string)
    (h : GoSlice.Heap) (cj : ContainerJSON GoSlice.Slice)
    (newImage sourcePath targetPath : string) h1 config1 hostConfig networkingConfig :
  snapshot_wf h cj ->
  devContainerConfiguration growcap HOME h cj newImage sourcePath targetPath =
    Ret (h1, (config1, hostConfig, networkingConfig)) ->
  exists h2 config2,
    devContainerConfiguration growcap HOME h1 cj newImage sourcePath targetPath =
      Ret (h2, (config2, hostConfig, networkingConfig)) /\
    observe h2 config2 = observe h1 config1.
Proof.
  intros Hwf Heq.
  pose proof (derive_wf growcap HOME _ _ _ _ _ _ _ _ _ Hwf Heq) as Hwf1.
  destruct (derive_Ret_inv growcap HOME h cj newImage sourcePath targetPath
              h1 config1 hostConfig networkingConfig Hwf Heq)
    as (path & Hpath & -> & -> & Hobs).
  destruct (derive_frame growcap HOME h cj newImage sourcePath targetPath)
    as [(h1' & c1' & Heq' & Hframe)|(v & Hv)]; [|congruence].
  rewrite Heq in Heq'. injection Heq' as <- <-.
  specialize (Hframe Hwf).
  assert (GoSlice.read h1 (Env (Config_ cj)) = GoSlice.read h (Env (Config_ cj))) as Henv.
  { change (Env (Config_ (observeJSON h1 cj)) = Env (Config_ (observeJSON h cj))).
    by rewrite Hframe. }
  rewrite <- Henv in Hpath.
  destruct (derive_Ret growcap HOME h1 cj newImage sourcePath targetPath path Hwf1 Hpath)
    as (h2 & c2 & Heq2 & Hobs2 & _).
  exists h2, c2. split; [exact Heq2|]. by rewrite Hobs2, Hobs, Henv.
Qed.

(* ===================================================================== *)
(** ** Further properties of [main] *)
(* ===================================================================== *)

(** X5.  The order of the lifecycle, in every run of [main]: a container
    is created only after a removal has succeeded (stop before create,
    never two containers under the controller at once), started only after
    a create has succeeded, and the controller receives from the
    termination channel only after a start has succeeded; a goroutine is
    started only after the channel has been made and registered with
    [signal.Notify]; the attach watcher is started before any container
    is; and the channel is registered only after the original container
    has been removed. *)
Theorem lifecycle_order (growcap : nat -> nat -> nat) (HOME : string)
    (o : Oracle) (f : Flags) :
  let t := (exec o (main growcap HOME f)).1 in
  precedes remove_ok is_create t /\
  precedes create_ok is_start t /\
  precedes start_ok is_recv t /\
  precedes is_make is_notify t /\
  precedes is_notify is_go t /\
  precedes is_go_attach is_start t /\
  precedes remove_ok is_notify t.
Proof.
  cbv zeta.
  apply (wp_exec o (main growcap HOME f) (fun t _ =>
    precedes remove_ok is_create t /\
    precedes create_ok is_start t /\
    precedes start_ok is_recv t /\
    precedes is_make is_notify t /\
    precedes is_notify is_go t /\
    precedes is_go_attach is_start t /\
    precedes remove_ok is_notify t)).
  repeat wp_step.
  all: repeat split; apply guarded_precedes; reflexivity.
Qed.

(** X6.  TEARDOWN_ORIGINAL.  The container [main] stops is the one the
    lookup answered and the inspect succeeded on.  When the stop request
    fails [main] ends with [log.Fatalf]: nothing is removed and nothing
    created.  When it succeeds the removal of the same container is
    attempted whatever the wait answers; and when the removal fails
    [main] ends with [log.Fatalf] and creates nothing, although it holds
    the snapshot. *)
Theorem original_teardown (growcap : nat -> nat -> nat) (HOME : string)
    (o : Oracle) (f : Flags) :
  let t := (exec o (main growcap HOME f)).1 in
  let out := (exec o (main growcap HOME f)).2 in
  (forall id r, head (omap stopped t) = Some (id, r) ->
     exists containers reply,
       head (omap listed t) = Some (Ok containers) /\
       containers_loop containers (containerName f) = Some id /\
       head (omap inspected t) = Some (id, Ok reply)) /\
  (forall id err, head (omap stopped t) = Some (id, Some err) ->
     out = Fatal "Error stopping container: %v" [AErr err] /\
     omap removed t = [] /\ omap created t = []) /\
  (forall id, head (omap stopped t) = Some (id, None) ->
     exists r, head (omap removed t) = Some (id, r)) /\
  (forall id err, head (omap removed t) = Some (id, Some err) ->
     out = Fatal "Error removing container: %v" [AErr err] /\
     omap created t = []).
Proof.
  cbv zeta.
  apply (wp_exec o (main growcap HOME f) (fun t out =>
    (forall id r, head (omap stopped t) = Some (id, r) ->
       exists containers reply,
         head (omap listed t) = Some (Ok containers) /\
         containers_loop containers (containerName f) = Some id /\
         head (omap inspected t) = Some (id, Ok reply)) /\
    (forall id err, head (omap stopped t) = Some (id, Some err) ->
       out = Fatal "Error stopping container: %v" [AErr err] /\
       omap removed t = [] /\ omap created t = []) /\
    (forall id, head (omap stopped t) = Some (id, None) ->
       exists r, head (omap removed t) = Some (id, r)) /\
    (forall id err, head (omap removed t) = Some (id, Some err) ->
       out = Fatal "Error removing container: %v" [AErr err] /\
       omap created t = []))).
  repeat wp_step.
  all: refine (conj _ (conj _ (conj _ _)));
    [intros ? ? H|intros ? ? H|intros ? H|intros ? ? H]; simpl in H; try discriminate.
  all: first [injection H as <- <- | injection H as <-].
  all: first [ eexists _, _; split; [reflexivity|]; split; [eassumption|reflexivity]
             | eexists; reflexivity
             | split; [reflexivity|]; first [ split; reflexivity | reflexivity ] ].
Qed.

(** X7.  A run of [main] that completes has created two containers, the
    development one under the snapshot's name followed by [-dev] and then
    the original under the snapshot's name; it has removed the located
    container and the development container, both with success, and it
    has started the two containers it created, in that order. *)
Theorem completed_run (growcap : nat -> nat -> nat) (HOME : string)
    (o : Oracle) (f : Flags) :
  let t := (exec o (main growcap HOME f)).1 in
  let out := (exec o (main growcap HOME f)).2 in
  out = Done tt ->
  exists id reply dev orig,
    head (omap inspected t) = Some (id, Ok reply) /\
    omap create_result t =
      [(Name (document reply) +:+ "-dev", Ok dev); (Name (document reply), Ok orig)] /\
    omap removed t = [(id, None); (resp_ID dev, None)] /\
    omap started t = [(resp_ID dev, None); (resp_ID orig, None)] /\
    length (filter (fun e => is_recv e = true) t) = 1.
Proof.
  cbv zeta.
  apply (wp_exec o (main growcap HOME f) (fun t out =>
    out = Done tt ->
    exists id reply dev orig,
      head (omap inspected t) = Some (id, Ok reply) /\
      omap create_result t =
        [(Name (document reply) +:+ "-dev", Ok dev); (Name (document reply), Ok orig)] /\
      omap removed t = [(id, None); (resp_ID dev, None)] /\
      omap started t = [(resp_ID dev, None); (resp_ID orig, None)] /\
      length (filter (fun e => is_recv e = true) t) = 1)).
  repeat wp_step.
  all: intros H; try discriminate H.
  all: match goal with
       | Hd : decode [] ?a = (?h, ?c) |- _ =>
           pose proof (proj2 (decode_spec [] a)) as Hdoc;
           rewrite Hd in Hdoc; cbn [fst snd] in Hdoc;
           pose proof (f_equal Name Hdoc) as Hname; cbn [observeJSON Name] in Hname
       end.
  all: eexists _, _, _, _; simpl; rewrite <- Hname.
  all: repeat split; reflexivity.
Qed.

(** X8.  START_DEV.  When the creation of the development container
    fails, [main] ends with [log.Fatalf]: no goroutine and no container is
    started and nothing else is created, so the original, already removed,
    is not brought back.  When its start fails, [main] ends with
    [log.Fatalf] too: it never receives from the channel, and the only
    removal of the run is that of the original. *)
Theorem dev_start_failures (growcap : nat -> nat -> nat) (HOME : string)
    (o : Oracle) (f : Flags) :
  let t := (exec o (main growcap HOME f)).1 in
  let out := (exec o (main growcap HOME f)).2 in
  (forall name err, head (omap create_result t) = Some (name, Err err) ->
     out = Fatal "Error creating container: %v" [AErr err] /\
     omap started t = [] /\ Forall (fun e => is_go e = false) t /\
     length (omap created t) = 1) /\
  (forall id err, head (omap started t) = Some (id, Some err) ->
     out = Fatal "Error starting container: %v" [AErr err] /\
     after_recv t = None /\
     length (omap created t) = 1 /\ length (omap removed t) = 1).
Proof.
  cbv zeta.
  apply (wp_exec o (main growcap HOME f) (fun t out =>
    (forall name err, head (omap create_result t) = Some (name, Err err) ->
       out = Fatal "Error creating container: %v" [AErr err] /\
       omap started t = [] /\ Forall (fun e => is_go e = false) t /\
       length (omap created t) = 1) /\
    (forall id err, head (omap started t) = Some (id, Some err) ->
       out = Fatal "Error starting container: %v" [AErr err] /\
       after_recv t = None /\
       length (omap created t) = 1 /\ length (omap removed t) = 1))).
  repeat wp_step.
  all: split.
  all: intros ? ? H; simpl in H; try discriminate.
  all: injection H as <- <-.
  all: repeat split; first [reflexivity | repeat constructor].
Qed.

(** X9.  RECREATE_ORIGINAL.  After RUN, when the creation of the original
    container fails [main] ends with [log.Fatalf] and starts nothing; when
    its start fails [main] ends with [log.Fatalf].  In both cases the
    development container has already been removed. *)
Theorem recreate_failures (growcap : nat -> nat -> nat) (HOME : string)
    (o : Oracle) (f : Flags) (post : list Event) :
  let t := (exec o (main growcap HOME f)).1 in
  let out := (exec o (main growcap HOME f)).2 in
  after_recv t = Some post ->
  (forall name err, head (omap create_result post) = Some (name, Err err) ->
     out = Fatal "Error creating container: %v" [AErr err] /\
     omap started post = [] /\
     exists id, omap removed post = [(id, None)]) /\
  (forall id err, head (omap started post) = Some (id, Some err) ->
     out = Fatal "Error starting container: %v" [AErr err] /\
     exists id', omap removed post = [(id', None)]).
Proof.
  cbv zeta. revert post.
  apply (wp_exec o (main growcap HOME f) (fun t out => forall post,
    after_recv t = Some post ->
    (forall name err, head (omap create_result post) = Some (name, Err err) ->
       out = Fatal "Error creating container: %v" [AErr err] /\
       omap started post = [] /\
       exists id, omap removed post = [(id, None)]) /\
    (forall id err, head (omap started post) = Some (id, Some err) ->
       out = Fatal "Error starting container: %v" [AErr err] /\
       exists id', omap removed post = [(id', None)]))).
  repeat wp_step.
  all: intros post Hp; simpl in Hp; try discriminate.
  all: injection Hp as <-.
  all: split.
  all: intros ? ? H; simpl in H; try discriminate.
  all: injection H as <- <-.
  all: repeat split; first [reflexivity | eexists; reflexivity].
Qed.

(** X10.  Without [-remote], [main] itself makes no call on the file
    system and runs no command, and the mounts of the development
    container are the development mounts for [-source] and [-target].
    With or without it, the development container is created only after
    an inspect that succeeded, under the snapshot's name followed by
    [-dev], with the networks and the bind strings of the snapshot. *)
Theorem dev_container_from_flags (growcap : nat -> nat -> nat) (HOME : string)
    (o : Oracle) (f : Flags) :
  let t := (exec o (main growcap HOME f)).1 in
  (remote f = "" ->
   Forall (fun e => fs_call e = false) t /\
   forall c hc nc n, head (omap created t) = Some (c, hc, nc, n) ->
     Mounts hc = dev_mounts HOME (sourcePath f) (targetPath f)) /\
  (forall c hc nc n id reply,
     head (omap created t) = Some (c, hc, nc, n) ->
     head (omap inspected t) = Some (id, reply) ->
     exists doc, reply = Ok doc /\
       nc = mkNetworkingConfig (NetworkSettings_Networks (document doc)) /\
       n = Name (document doc) +:+ "-dev" /\
       Binds hc = Binds (HostConfig_ (document doc))).
Proof.
  cbv zeta.
  apply (wp_exec o (main growcap HOME f) (fun t out =>
    (remote f = "" ->
     Forall (fun e => fs_call e = false) t /\
     forall c hc nc n, head (omap created t) = Some (c, hc, nc, n) ->
       Mounts hc = dev_mounts HOME (sourcePath f) (targetPath f)) /\
    (forall c hc nc n id reply,
       head (omap created t) = Some (c, hc, nc, n) ->
       head (omap inspected t) = Some (id, reply) ->
       exists doc, reply = Ok doc /\
         nc = mkNetworkingConfig (NetworkSettings_Networks (document doc)) /\
         n = Name (document doc) +:+ "-dev" /\
         Binds hc = Binds (HostConfig_ (document doc))))).
  unfold main. destruct (String.eqb (remote f) "") eqn:He; cbn [negb].
  all: repeat wp_step.
  all: split.
  all: try (intros Hr; match goal with
            | He : String.eqb (remote _) "" = false |- _ =>
                exfalso; apply String.eqb_neq in He; exact (He Hr)
            | _ => split; [repeat constructor|]
            end).
  all: try (intros ? ? ? ? H; simpl in H; try discriminate;
            injection H as <- <- <- <-; reflexivity).
  all: intros ? ? ? ? ? ? H Hi; simpl in H; try discriminate.
  all: injection H as <- <- <- <-; simpl in Hi; injection Hi as <- <-.
  all: eexists; split; [reflexivity|].
  all: match goal with
       | Hd : decode [] ?a = (?h, ?c) |- _ =>
           pose proof (proj2 (decode_spec [] a)) as Hdoc;
           rewrite Hd in Hdoc; cbn [fst snd] in Hdoc; rewrite <- Hdoc
       end.
  all: repeat split; reflexivity.
Qed.

(** X11.  Failures before LOCATE.  Without [-name], [main] ends with a
    non-zero status and has made no call to the Docker daemon.  When the
    client cannot be made, or the container list cannot be fetched, or
    the clone fails, [main] ends with [log.Fatalf] on that very error and
    no container has been stopped, removed or created. *)
Theorem startup_failures (growcap : nat -> nat -> nat) (HOME : string)
    (o : Oracle) (f : Flags) :
  let t := (exec o (main growcap HOME f)).1 in
  let out := (exec o (main growcap HOME f)).2 in
  (containerName f = "" ->
   exit_status out <> 0%Z /\ Forall (fun e => docker_call e = false) t) /\
  (forall err, head (omap client t) = Some (Some err) ->
     out = Fatal "Error creating Docker client: %v" [AErr err] /\
     Forall (fun e => touches e = false) t) /\
  (forall err, head (omap listed t) = Some (Err err) ->
     out = Fatal "Error getting Docker container's id by name: %v" [AErr err] /\
     Forall (fun e => touches e = false) t) /\
  (forall args err, head (omap ran t) = Some ("git", args, Some err) ->
     out = Fatal "Failed to clone repository: %v" [AErr err] /\
     Forall (fun e => docker_call e = false) t).
Proof.
  cbv zeta.
  apply (wp_exec o (main growcap HOME f) (fun t out =>
    (containerName f = "" ->
     exit_status out <> 0%Z /\ Forall (fun e => docker_call e = false) t) /\
    (forall err, head (omap client t) = Some (Some err) ->
       out = Fatal "Error creating Docker client: %v" [AErr err] /\
       Forall (fun e => touches e = false) t) /\
    (forall err, head (omap listed t) = Some (Err err) ->
       out = Fatal "Error getting Docker container's id by name: %v" [AErr err] /\
       Forall (fun e => touches e = false) t) /\
    (forall args err, head (omap ran t) = Some ("git", args, Some err) ->
       out = Fatal "Failed to clone repository: %v" [AErr err] /\
       Forall (fun e => docker_call e = false) t))).
  repeat wp_step.
  all: refine (conj _ (conj _ (conj _ _)));
    [intros Hn|intros ? H|intros ? H|intros ? ? H].
  all: try (simpl in H; first [discriminate H | injection H as <- <- | injection H as <-]).
  all: try (split; [reflexivity|repeat constructor]).
  all: match goal with
       | He : String.eqb (containerName _) "" = false |- _ =>
           exfalso; apply String.eqb_neq in He; exact (He Hn)
       | _ => split; [discriminate|repeat constructor]
       end.
Qed.

(** X12.  TEARDOWN_DEV follows the state the inspect reports, in every run
    of the process and under every schedule.  The container [main]
    inspects after its receive is the development container it created.
    When the inspect reports it not running, [main] issues no stop request
    and no wait after the receive; when it reports it running, at most one
    of each, for that container; and the only removal [main] attempts is
    that of the development container.  When the process has ended
    without a failed [docker attach], all of these have been issued: the
    stop request and the wait when the container was reported running,
    and the removal in both cases. *)
Theorem dev_teardown_by_state (growcap : nat -> nat -> nat) (HOME : string)
    (f : Flags) (cs : list Choice) (s : Process) (post : list Event)
    (id : string) (reply : InspectReply) :
  run_choices cs (start (main growcap HOME f)) = Some s ->
  after_recv (main_log s) = Some post ->
  head (omap inspected post) = Some (id, Ok reply) ->
  (exists name dev,
     head (omap create_result (main_log s)) = Some (name, Ok dev) /\
     id = resp_ID dev) /\
  fst <$> omap stopped post `prefix_of`
    (if State_Running (document reply) then [id] else []) /\
  omap waited post `prefix_of`
    (if State_Running (document reply) then [id] else []) /\
  fst <$> omap removed post `prefix_of` [id] /\
  (forall st,
     exited s = Some st ->
     Forall (fun x => failed_attach x.2 = false) (log s) ->
     fst <$> omap stopped post =
       (if State_Running (document reply) then [id] else []) /\
     omap waited post =
       (if State_Running (document reply) then [id] else []) /\
     fst <$> omap removed post = [id]).
Proof.
  intros Hrun Hpost Hi.
  destruct (Led_prefix _ _ (main_Led _ _ _ _ _ Hrun)) as (t & out & [k ->] & Hq).
  destruct (controller_teardown _ _ _ _ _ _ Hq Hpost Hi)
    as (name & dev & rest & Hc & Hid & Hp & Hs & Hw & e & He).
  split; [eauto|].
  assert (omap stopped post = omap stopped rest) as Es by (by rewrite Hp).
  assert (omap waited post = omap waited rest) as Ew by (by rewrite Hp).
  assert (omap removed post = omap removed rest) as Er by (by rewrite Hp).
  rewrite Es, Ew, Er.
  rewrite omap_app, fmap_app in Hs. rewrite omap_app in Hw.
  split; [rewrite <- Hs; by apply prefix_app_r|].
  split; [rewrite <- Hw; by apply prefix_app_r|].
  split.
  { replace [id] with (fst <$> omap removed (rest ++ k)) by (by rewrite He).
    rewrite omap_app, fmap_app. by apply prefix_app_r. }
  intros st Hex Hno.
  destruct (ended_controller_run _ _ _ _ _ _ _ Hrun Hex Hno Hpost) as (out' & Hq' & _).
  rewrite <- (app_nil_r (main_log s)) in Hq'.
  destruct (controller_teardown _ _ _ _ _ _ Hq' Hpost Hi)
    as (name' & dev' & rest' & _ & _ & Hp' & Hs' & Hw' & e' & He').
  rewrite Hp in Hp'. injection Hp' as <-.
  rewrite app_nil_r in Hs', Hw', He'. rewrite He'. done.
Qed.

(* ===================================================================== *)
(** ** Further properties of the process *)
(* ===================================================================== *)

Lemma step_external s i answer {R : Type} (op : Op R) (k : R -> Prog unit) :
  exited s = None -> threads s !! i = Some (Bind op k) -> kind op = KExternal ->
  step_by (Run i answer) s =
    Some (advance s i (k (answer R op)) (Ev op (answer R op))).
Proof.
  intros Hex Hth Hk. unfold step_by. rewrite Hex, Hth.
  cbn [step_thread]. by rewrite Hk.
Qed.

Lemma lookup_advance s i p e :
  i < length (threads s) -> threads (advance s i p e) !! i = Some p.
Proof. intros Hlt. cbn [advance threads]. by apply list_lookup_insert_eq. Qed.

(** The last two messages of the exit watcher. *)
Lemma exit_watcher_messages s i a2 a3 format args :
  exited s = None ->
  threads s !! i =
    Some (call (Print Stdout format args);;
          call (Print Stderr "Container has exited" []);;
          call (ChanSend Interrupt)) ->
  exists s3,
    run_choices [Run i a2; Run i a3] s = Some s3 /\
    exited s3 = None /\ chan_buf s3 = chan_buf s /\ chan_cap s3 = chan_cap s /\
    threads s3 = <[i := call (ChanSend Interrupt)]> (threads s) /\
    log s3 = log s ++ [(i, Ev (Print Stdout format args) tt);
                       (i, Ev (Print Stderr "Container has exited" []) tt)].
Proof.
  intros Hex Hth. pose proof (lookup_lt_Some _ _ _ Hth) as Hlt.
  cbn [run_choices].
  rewrite (step_external s i a2 (Print Stdout format args) _ Hex Hth eq_refl).
  destruct (a2 unit (Print Stdout format args)).
  match goal with
  | |- context [step_by (Run i a3) ?s1] =>
      rewrite (step_external s1 i a3 (Print Stderr "Container has exited" [])
                 (fun _ => call (ChanSend Interrupt)) Hex
                 (lookup_advance s i _ _ Hlt) eq_refl)
  end.
  destruct (a3 unit (Print Stderr "Container has exited" [])).
  eexists. split; [reflexivity|].
  cbn [advance exited chan_buf chan_cap threads log].
  rewrite list_insert_insert_eq, <- app_assoc. auto.
Qed.

(** X13.  The exit watcher, whatever [ContainerWait] delivers: it prints
    one line about the wait on standard output, prints that the container
    has exited, and sends its interrupt; a failed wait is reported like an
    exit and never ends the process.  With room in the channel the send
    leaves the interrupt in the buffer and the watcher returned; with the
    channel full the send is not enabled and the watcher stays blocked. *)
Theorem exit_watcher_always_interrupts (s : Process) (i : nat) (id : string)
    (a1 a2 a3 a4 : forall R : Type, Op R -> R) :
  exited s = None ->
  threads s !! i = Some (goroutine (ExitWatcher id)) ->
  exists s3 format args,
    run_choices [Run i a1; Run i a2; Run i a3] s = Some s3 /\
    exited s3 = None /\
    chan_buf s3 = chan_buf s /\
    log s3 = log s ++ [(i, Ev (ContainerWait id) (a1 _ (ContainerWait id)));
                       (i, Ev (Print Stdout format args) tt);
                       (i, Ev (Print Stderr "Container has exited" []) tt)] /\
    (format, args) =
      match a1 _ (ContainerWait id) with
      | WaitBody 0 => ("Container stopped", [])
      | WaitBody code => ("Container stopped with status code: %d", [AInt code])
      | WaitErr err => ("Error waiting for container to stop: %v", [AErr err])
      end /\
    (length (chan_buf s) < chan_cap s ->
     exists s4,
       step_by (Run i a4) s3 = Some s4 /\
       exited s4 = None /\
       chan_buf s4 = chan_buf s ++ [Interrupt] /\
       threads s4 = <[i := Ret tt]> (threads s) /\
       log s4 = log s3 ++ [(i, Ev (ChanSend Interrupt) tt)]) /\
    (chan_cap s <= length (chan_buf s) -> step_by (Run i a4) s3 = None).
Proof.
  intros Hex Hth. pose proof (lookup_lt_Some _ _ _ Hth) as Hlt.
  assert (forall s3 : Process,
    exited s3 = None -> chan_buf s3 = chan_buf s -> chan_cap s3 = chan_cap s ->
    threads s3 = <[i := call (ChanSend Interrupt)]> (threads s) ->
    (length (chan_buf s) < chan_cap s ->
     exists s4,
       step_by (Run i a4) s3 = Some s4 /\
       exited s4 = None /\
       chan_buf s4 = chan_buf s ++ [Interrupt] /\
       threads s4 = <[i := Ret tt]> (threads s) /\
       log s4 = log s3 ++ [(i, Ev (ChanSend Interrupt) tt)]) /\
    (chan_cap s <= length (chan_buf s) -> step_by (Run i a4) s3 = None))
    as Hlast.
  { intros s3 Hex3 Hbuf3 Hcap3 Hth3. unfold step_by. rewrite Hex3, Hth3.
    rewrite list_lookup_insert_eq by done.
    unfold call. cbn [step_thread kind]. rewrite Hbuf3, Hcap3. split.
    - intros Hroom. apply Nat.ltb_lt in Hroom. rewrite Hroom.
      eexists. split; [reflexivity|].
      cbn [with_chan advance exited threads chan_buf chan_cap log].
      rewrite Hth3, list_insert_insert_eq. auto.
    - intros Hfull. apply Nat.ltb_ge in Hfull. by rewrite Hfull. }
  assert (forall format args,
    threads (advance s i
               (call (Print Stdout format args);;
                call (Print Stderr "Container has exited" []);;
                call (ChanSend Interrupt))
               (Ev (ContainerWait id) (a1 _ (ContainerWait id)))) !! i =
      Some (call (Print Stdout format args);;
            call (Print Stderr "Container has exited" []);;
            call (ChanSend Interrupt)) ->
    run_choices [Run i a1] s =
      Some (advance s i
              (call (Print Stdout format args);;
               call (Print Stderr "Container has exited" []);;
               call (ChanSend Interrupt))
              (Ev (ContainerWait id) (a1 _ (ContainerWait id)))) ->
    exists s3,
      run_choices [Run i a1; Run i a2; Run i a3] s = Some s3 /\
      exited s3 = None /\
      chan_buf s3 = chan_buf s /\
      log s3 = log s ++ [(i, Ev (ContainerWait id) (a1 _ (ContainerWait id)));
                         (i, Ev (Print Stdout format args) tt);
                         (i, Ev (Print Stderr "Container has exited" []) tt)] /\
      (length (chan_buf s) < chan_cap s ->
       exists s4,
         step_by (Run i a4) s3 = Some s4 /\
         exited s4 = None /\
         chan_buf s4 = chan_buf s ++ [Interrupt] /\
         threads s4 = <[i := Ret tt]> (threads s) /\
         log s4 = log s3 ++ [(i, Ev (ChanSend Interrupt) tt)]) /\
      (chan_cap s <= length (chan_buf s) -> step_by (Run i a4) s3 = None))
    as Hmid.
  { intros format args Hth1 Hfirst.
    destruct (exit_watcher_messages (advance s i _ _) i a2 a3 format args Hex Hth1)
      as (s3 & Hrun & Hex3 & Hbuf3 & Hcap3 & Hth3 & Hlog3).
    cbn [advance exited chan_buf chan_cap threads log] in Hbuf3, Hcap3, Hth3, Hlog3.
    rewrite list_insert_insert_eq in Hth3. rewrite <- app_assoc in Hlog3.
    exists s3. cbn [run_choices] in Hfirst, Hrun |- *.
    destruct (step_by (Run i a1) s) as [s1|]; [|discriminate].
    injection Hfirst as ->.
    split; [exact Hrun|]. split; [exact Hex3|]. split; [exact Hbuf3|].
    split; [exact Hlog3|]. by apply Hlast. }
  assert (step_by (Run i a1) s =
          Some (advance s i
                  ((match a1 _ (ContainerWait id) with
                    | WaitBody StatusCode =>
                        if (StatusCode =? 0)%Z
                        then call (Print Stdout "Container stopped" [])
                        else call (Print Stdout
                                     "Container stopped with status code: %d"
                                     [AInt StatusCode])
                    | WaitErr err =>
                        call (Print Stdout
                                "Error waiting for container to stop: %v" [AErr err])
                    end);;
                   call (Print Stderr "Container has exited" []);;
                   call (ChanSend Interrupt))
                  (Ev (ContainerWait id) (a1 _ (ContainerWait id))))) as Hfirst.
  { exact (step_external s i a1 (ContainerWait id) _ Hex Hth eq_refl). }
  destruct (a1 WaitResult (ContainerWait id)) as [code|err].
  - destruct (code =? 0)%Z eqn:Hc.
    + apply Z.eqb_eq in Hc as ->.
      destruct (Hmid "Container stopped" []) as (s3 & H3);
        [by apply lookup_advance|cbn [run_choices]; by rewrite Hfirst|].
      exists s3, "Container stopped", []. tauto.
    + destruct (Hmid "Container stopped with status code: %d" [AInt code])
        as (s3 & H3);
        [by apply lookup_advance|cbn [run_choices]; by rewrite Hfirst|].
      exists s3, "Container stopped with status code: %d", [AInt code].
      assert (("Container stopped with status code: %d", [AInt code]) =
              match code with
              | 0%Z => ("Container stopped", [])
              | _ => ("Container stopped with status code: %d", [AInt code])
              end) by (by destruct code).
      tauto.
  - destruct (Hmid "Error waiting for container to stop: %v" [AErr err])
      as (s3 & H3);
      [by apply lookup_advance|cbn [run_choices]; by rewrite Hfirst|].
    exists s3, "Error waiting for container to stop: %v", [AErr err]. tauto.
Qed.

(** X14.  An interrupt before and after [signal.Notify].  In every state
    the process can reach, the channel is registered exactly when the
    statement is in the log.  Until then [main] is the only goroutine and
    no create call has been made, and an interrupt ends the process on the
    spot, by the signal: no step follows, so nothing is created or
    restored.  Once the statement is in the log an interrupt never ends
    the process: it is put into the channel, or dropped when the channel is
    full. *)
Theorem interrupt_before_and_after_notify (growcap : nat -> nat -> nat)
    (HOME : string) (f : Flags) (cs : list Choice) (s : Process) :
  run_choices cs (start (main growcap HOME f)) = Some s ->
  exited s = None ->
  (Forall (fun x => is_notify x.2 = false) (log s) ->
   length (threads s) = 1 /\
   Forall (fun x => created x.2 = None) (log s) /\
   exists s',
     step_by (Deliver Interrupt) s = Some s' /\
     exited s' = Some (Signaled Interrupt) /\
     log s' = log s /\
     forall c, step_by c s' = None) /\
  (Exists (fun x => is_notify x.2 = true) (log s) ->
   exists s',
     step_by (Deliver Interrupt) s = Some s' /\
     exited s' = None /\ log s' = log s /\ threads s' = threads s /\
     chan_buf s' =
       if (length (chan_buf s) <? chan_cap s)%nat
       then chan_buf s ++ [Interrupt] else chan_buf s).
Proof.
  intros Hrun Hex.
  pose proof (run_Registration cs _ s
                (Registration_start _ (main_unarmed growcap HOME f)) Hrun)
    as [Hlog Hpre].
  split.
  - intros Hno.
    assert (notified s = false) as Hn.
    { destruct (notified s); [|done].
      destruct Hlog as [Hlog _]. specialize (Hlog eq_refl).
      apply Exists_exists in Hlog as (x & Hx & Hnx).
      rewrite Forall_forall in Hno. specialize (Hno x Hx). congruence. }
    destruct (Hpre Hn) as [(p & Hth & _) Hc].
    split; [by rewrite Hth|]. split; [exact Hc|].
    unfold step_by. rewrite Hex, Hn. eexists. split; [reflexivity|].
    simpl. auto.
  - intros Hyes. apply Hlog in Hyes.
    unfold step_by. rewrite Hex, Hyes.
    destruct (length (chan_buf s) <? chan_cap s); eexists; (split; [reflexivity|]);
      simpl; auto.
Qed.

(* ===================================================================== *)
(** ** Further properties of the clone step *)
(* ===================================================================== *)

Lemma repoName_slice url :
  GoString.slice url (GoString.LastIndex url "/" + 1)%Z (GoString.LastIndex url ".") =
  match last_pos "." url with
  | Some d =>
      if name_start url <=? d
      then Some (substring (name_start url) (d - name_start url) url)
      else None
  | None => None
  end.
Proof.
  rewrite !StringFacts.LastIndex_char. unfold GoString.slice, name_start, GoString.len.
  destruct (last_pos "." url) as [d|] eqn:Hd.
  - pose proof (StringFacts.last_pos_lt _ _ _ Hd) as Hlt.
    destruct (last_pos "/" url) as [k|].
    + destruct (Nat.leb_spec (S k) d) as [Hle|Hgt].
      * replace (0 <=? Z.of_nat k + 1)%Z with true by (symmetry; apply Z.leb_le; lia).
        replace (Z.of_nat k + 1 <=? Z.of_nat d)%Z with true
          by (symmetry; apply Z.leb_le; lia).
        replace (Z.of_nat d <=? Z.of_nat (String.length url))%Z with true
          by (symmetry; apply Z.leb_le; lia).
        cbn [andb]. do 2 f_equal; lia.
      * replace (Z.of_nat k + 1 <=? Z.of_nat d)%Z with false
          by (symmetry; apply Z.leb_gt; lia).
        by rewrite andb_false_r.
    + replace (Z.of_nat d <=? Z.of_nat (String.length url))%Z with true
        by (symmetry; apply Z.leb_le; lia).
      replace (-1 + 1 <=? Z.of_nat d)%Z with true by (symmetry; apply Z.leb_le; lia).
      cbn. do 2 f_equal; lia.
  - destruct (last_pos "/" url) as [k|].
    + replace (Z.of_nat k + 1 <=? -1)%Z with false by (symmetry; apply Z.leb_gt; lia).
      by rewrite andb_false_r.
    + reflexivity.
Qed.

(** X15.  The repository name of the clone step, for every URL.  When the
    URL has no [.] at or after the byte that follows its last [/] (no [.]
    at all, or the last one is in the host or in a directory), the clone
    step panics before it has touched anything, and so does [main] when
    [-remote] is given.  Otherwise the target directory is [/tmp/]
    followed by the bytes of the URL from after its last [/] up to its
    last [.]: the clone step tests it, removes it when it is there, runs
    [git clone] into it, and returns it when [git] succeeds. *)
Theorem clone_name_between_slash_and_dot (growcap : nat -> nat -> nat)
    (HOME : string) (o : Oracle) (f : Flags) :
  let url := remote f in
  let a := name_start url in
  ((forall d, last_pos "." url = Some d -> d < a) ->
   exec o (cloneRemoteRepo url (branch f)) =
     ([], Panicked "slice bounds out of range") /\
   (url <> "" ->
    exec o (main growcap HOME f) = ([], Panicked "slice bounds out of range"))) /\
  (forall d, last_pos "." url = Some d -> a <= d ->
   let targetDir := "/tmp/" +:+ substring a (d - a) url in
   exists st rm cl,
     (exec o (cloneRemoteRepo url (branch f))).1 =
       clone_events url (branch f) targetDir st rm cl /\
     (exec o (cloneRemoteRepo url (branch f))).2 =
       match cl with
       | None => Done targetDir
       | Some err => Fatal "Failed to clone repository: %v" [AErr err]
       end).
Proof.
  cbv zeta. split.
  - intros Hdot.
    assert (cloneRemoteRepo (remote f) (branch f) = Panic "slice bounds out of range")
      as Hpanic.
    { unfold cloneRemoteRepo. rewrite repoName_slice.
      destruct (last_pos "." (remote f)) as [d|]; [|done].
      specialize (Hdot d eq_refl).
      destruct (Nat.leb_spec (name_start (remote f)) d); [lia|done]. }
    split; [by rewrite Hpanic|].
    intros Hurl. apply String.eqb_neq in Hurl.
    unfold main. rewrite Hurl, Hpanic. reflexivity.
  - intros d Hd Hle.
    apply (wp_exec o (cloneRemoteRepo (remote f) (branch f)) (fun t out =>
      exists st rm cl,
        t = clone_events (remote f) (branch f)
              ("/tmp/" +:+ substring (name_start (remote f))
                             (d - name_start (remote f)) (remote f)) st rm cl /\
        out = match cl with
              | None =>
                  Done ("/tmp/" +:+ substring (name_start (remote f))
                                      (d - name_start (remote f)) (remote f))
              | Some err => Fatal "Failed to clone repository: %v" [AErr err]
              end)).
    unfold cloneRemoteRepo. rewrite repoName_slice, Hd.
    apply Nat.leb_le in Hle. rewrite Hle, clone_args_eq.
    repeat wp_step.
    all: unfold clone_events; simpl.
    all: clone_witnesses.
Qed.

(* ===================================================================== *)
(** ** The further properties on the sample worlds *)
(* ===================================================================== *)

(** An environment whose second entry begins with [PATH] and whose third
    is three bytes long: the second entry is extended. *)
Lemma derive_extends_first_PATH_witness :
  exists h' config hostConfig networkingConfig,
    devContainerConfiguration Sample.double Sample.home
      (heap_of (Sample.with_env ["MODE=prod"; "PATH=/usr/bin"; "A=1"]))
      (snapshot_of (Sample.with_env ["MODE=prod"; "PATH=/usr/bin"; "A=1"]))
      "docker-dev-golang:latest" "/src" "/app" =
      Ret (h', (config, hostConfig, networkingConfig)) /\
    GoSlice.read h' (Env config) =
      ["MODE=prod"] ++ "PATH=/usr/bin" :: ["A=1"] ++
      ["PATH=/usr/bin" +:+ toolchain_suffix; dev_marker].
Proof.
  apply (derive_extends_first_PATH Sample.double Sample.home
           (heap_of (Sample.with_env ["MODE=prod"; "PATH=/usr/bin"; "A=1"]))
           (snapshot_of (Sample.with_env ["MODE=prod"; "PATH=/usr/bin"; "A=1"]))
           "docker-dev-golang:latest" "/src" "/app"
           ["MODE=prod"] "PATH=/usr/bin" ["A=1"]).
  - exact (proj1 (decode_spec [] (Sample.with_env ["MODE=prod"; "PATH=/usr/bin"; "A=1"]))).
  - vm_compute. reflexivity.
  - constructor; [|constructor]. split; [vm_compute; lia|vm_compute; discriminate].
  - vm_compute. lia.
  - vm_compute. reflexivity.
Defined.

(** A three-byte entry before the [PATH] entry: the derivation panics. *)
Lemma derive_panics_on_short_entry_witness :
  devContainerConfiguration Sample.double Sample.home
    (heap_of (Sample.with_env ["MODE=prod"; "A=1"; "PATH=/bin"]))
    (snapshot_of (Sample.with_env ["MODE=prod"; "A=1"; "PATH=/bin"]))
    "docker-dev-golang:latest" "/src" "/app" = Panic "slice bounds out of range".
Proof.
  apply (proj1 (derive_panics_on_short_entry Sample.double Sample.home
           (heap_of (Sample.with_env ["MODE=prod"; "A=1"; "PATH=/bin"]))
           (snapshot_of (Sample.with_env ["MODE=prod"; "A=1"; "PATH=/bin"]))
           "docker-dev-golang:latest" "/src" "/app"
           (proj1 (decode_spec [] (Sample.with_env ["MODE=prod"; "A=1"; "PATH=/bin"]))))).
  exists ["MODE=prod"], "A=1", ["PATH=/bin"].
  split; [vm_compute; reflexivity|]. split.
  - constructor; [|constructor]. split; [vm_compute; lia|vm_compute; discriminate].
  - vm_compute. lia.
Defined.

(** The configuration derived from the sample snapshot. *)
Lemma derived_configuration_fields_witness :
  exists h' config hostConfig networkingConfig,
    devContainerConfiguration Sample.double Sample.home (heap_of Sample.reply)
      (snapshot_of Sample.reply) "docker-dev-golang:latest" "/src" "/app" =
      Ret (h', (config, hostConfig, networkingConfig)) /\
    Image config = "docker-dev-golang:latest" /\ WorkingDir config = "/app" /\
    GoSlice.read h' (Cmd config) = [] /\
    GoSlice.read h' (Entrypoint config) = ["/bin/sh"] /\
    (AttachStdin config, AttachStdout config, AttachStderr config,
     Tty config, OpenStdin config, StdinOnce config) =
      (true, true, true, true, true, true) /\
    (Hostname config, User config, Labels config) =
      (Hostname (Config_ (snapshot_of Sample.reply)),
       User (Config_ (snapshot_of Sample.reply)),
       Labels (Config_ (snapshot_of Sample.reply))) /\
    (Binds hostConfig, NetworkMode hostConfig, Privileged hostConfig) =
      (Binds (HostConfig_ (snapshot_of Sample.reply)),
       NetworkMode (HostConfig_ (snapshot_of Sample.reply)),
       Privileged (HostConfig_ (snapshot_of Sample.reply))) /\
    EndpointsConfig networkingConfig =
      NetworkSettings_Networks (snapshot_of Sample.reply).
Proof.
  eexists _, _, _, _. split; [vm_compute; reflexivity|].
  eapply (derived_configuration_fields Sample.double Sample.home
            (heap_of Sample.reply) (snapshot_of Sample.reply)
            "docker-dev-golang:latest" "/src" "/app" _ _ _ _
            (proj1 (decode_spec [] Sample.reply))).
  vm_compute. reflexivity.
Defined.

(** The sample snapshot is derived from twice: the second configuration
    reads as the first. *)
Lemma derivation_repeatable_witness :
  exists h1 config1 hostConfig networkingConfig,
    devContainerConfiguration Sample.double Sample.home (heap_of Sample.reply)
      (snapshot_of Sample.reply) "docker-dev-golang:latest" "/src" "/app" =
      Ret (h1, (config1, hostConfig, networkingConfig)) /\
    exists h2 config2,
      devContainerConfiguration Sample.double Sample.home h1
        (snapshot_of Sample.reply) "docker-dev-golang:latest" "/src" "/app" =
        Ret (h2, (config2, hostConfig, networkingConfig)) /\
      observe h2 config2 = observe h1 config1.
Proof.
  eexists _, _, _, _. split; [vm_compute; reflexivity|].
  eapply (derivation_repeatable Sample.double Sample.home
            (heap_of Sample.reply) (snapshot_of Sample.reply)
            "docker-dev-golang:latest" "/src" "/app" _ _ _ _
            (proj1 (decode_spec [] Sample.reply))).
  vm_compute. reflexivity.
Defined.

(** In the sample run the located container is stopped and then removed.
    When its stop request fails nothing is removed or created; when its
    removal fails nothing is created. *)
Lemma original_teardown_witness :
  (head (omap stopped (sample_trace Sample.no_faults Sample.flags)) =
     Some ("c0ffee", None) /\
   exists r, head (omap removed (sample_trace Sample.no_faults Sample.flags)) =
               Some ("c0ffee", r)) /\
  (refused_outcome "stop c0ffee" "timeout" Sample.flags =
     Fatal "Error stopping container: %v" [AErr "timeout"] /\
   omap removed (refused_trace "stop c0ffee" "timeout" Sample.flags) = [] /\
   omap created (refused_trace "stop c0ffee" "timeout" Sample.flags) = []) /\
  (refused_outcome "remove c0ffee" "busy" Sample.flags =
     Fatal "Error removing container: %v" [AErr "busy"] /\
   omap created (refused_trace "remove c0ffee" "busy" Sample.flags) = []).
Proof.
  split; [|split].
  - split; [vm_compute; reflexivity|].
    pose proof (original_teardown Sample.double Sample.home
                  (Sample.oracle Sample.no_faults) Sample.flags) as Hc.
    vm_compute in Hc. destruct Hc as (_ & _ & Hc & _).
    vm_compute. exact (Hc _ eq_refl).
  - pose proof (original_teardown Sample.double Sample.home
                  (refusal "stop c0ffee" "timeout") Sample.flags) as Hc.
    vm_compute in Hc. destruct Hc as (_ & Hc & _).
    vm_compute. exact (Hc _ _ eq_refl).
  - pose proof (original_teardown Sample.double Sample.home
                  (refusal "remove c0ffee" "busy") Sample.flags) as Hc.
    vm_compute in Hc. destruct Hc as (_ & _ & _ & Hc).
    vm_compute. exact (Hc _ _ eq_refl).
Defined.

(** The sample run completes: [/api-dev] and then [/api] are created. *)
Lemma completed_run_witness :
  sample_outcome Sample.no_faults Sample.flags = Done tt /\
  exists id reply dev orig,
    head (omap inspected (sample_trace Sample.no_faults Sample.flags)) =
      Some (id, Ok reply) /\
    omap create_result (sample_trace Sample.no_faults Sample.flags) =
      [(Name (document reply) +:+ "-dev", Ok dev); (Name (document reply), Ok orig)] /\
    omap removed (sample_trace Sample.no_faults Sample.flags) =
      [(id, None); (resp_ID dev, None)] /\
    omap started (sample_trace Sample.no_faults Sample.flags) =
      [(resp_ID dev, None); (resp_ID orig, None)] /\
    length (filter (fun e => is_recv e = true)
              (sample_trace Sample.no_faults Sample.flags)) = 1.
Proof.
  split; [vm_compute; reflexivity|].
  pose proof (completed_run Sample.double Sample.home
                (Sample.oracle Sample.no_faults) Sample.flags) as Hc.
  vm_compute in Hc. specialize (Hc eq_refl). vm_compute. exact Hc.
Defined.

(** The creation of [/api-dev] fails, and its start fails. *)
Lemma dev_start_failures_witness :
  (refused_outcome "create /api-dev" "name in use" Sample.flags =
     Fatal "Error creating container: %v" [AErr "name in use"] /\
   omap started (refused_trace "create /api-dev" "name in use" Sample.flags) = [] /\
   Forall (fun e => is_go e = false)
     (refused_trace "create /api-dev" "name in use" Sample.flags) /\
   length (omap created (refused_trace "create /api-dev" "name in use" Sample.flags))
     = 1) /\
  (refused_outcome "start d3v" "port taken" Sample.flags =
     Fatal "Error starting container: %v" [AErr "port taken"] /\
   after_recv (refused_trace "start d3v" "port taken" Sample.flags) = None /\
   length (omap created (refused_trace "start d3v" "port taken" Sample.flags)) = 1 /\
   length (omap removed (refused_trace "start d3v" "port taken" Sample.flags)) = 1).
Proof.
  split.
  - pose proof (dev_start_failures Sample.double Sample.home
                  (refusal "create /api-dev" "name in use") Sample.flags) as Hc.
    vm_compute in Hc. destruct Hc as [Hc _].
    vm_compute. exact (Hc _ _ eq_refl).
  - pose proof (dev_start_failures Sample.double Sample.home
                  (refusal "start d3v" "port taken") Sample.flags) as Hc.
    vm_compute in Hc. destruct Hc as [_ Hc].
    vm_compute. exact (Hc _ _ eq_refl).
Defined.

(** After RUN the creation of [/api] fails, and its start fails: the
    development container is gone in both runs. *)
Lemma recreate_failures_witness :
  (after_recv (refused_trace "create /api" "conflict" Sample.flags) =
     Some (default [] (after_recv (refused_trace "create /api" "conflict" Sample.flags))) /\
   refused_outcome "create /api" "conflict" Sample.flags =
     Fatal "Error creating container: %v" [AErr "conflict"] /\
   omap started
     (default [] (after_recv (refused_trace "create /api" "conflict" Sample.flags))) = [] /\
   exists id,
     omap removed
       (default [] (after_recv (refused_trace "create /api" "conflict" Sample.flags))) =
       [(id, None)]) /\
  (refused_outcome "start 0r1g" "port taken" Sample.flags =
     Fatal "Error starting container: %v" [AErr "port taken"] /\
   exists id,
     omap removed
       (default [] (after_recv (refused_trace "start 0r1g" "port taken" Sample.flags))) =
       [(id, None)]).
Proof.
  split.
  - split; [vm_compute; reflexivity|].
    pose proof (recreate_failures Sample.double Sample.home
                  (refusal "create /api" "conflict") Sample.flags
                  (default [] (after_recv
                     (refused_trace "create /api" "conflict" Sample.flags)))) as Hc.
    vm_compute in Hc. specialize (Hc eq_refl). destruct Hc as [Hc _].
    vm_compute. exact (Hc _ _ eq_refl).
  - pose proof (recreate_failures Sample.double Sample.home
                  (refusal "start 0r1g" "port taken") Sample.flags
                  (default [] (after_recv
                     (refused_trace "start 0r1g" "port taken" Sample.flags)))) as Hc.
    vm_compute in Hc. specialize (Hc eq_refl). destruct Hc as [_ Hc].
    vm_compute. exact (Hc _ _ eq_refl).
Defined.

(** The sample run has no [-remote]: no call on the file system, and the
    development container mounts [/src] on [/app]. *)
Lemma dev_container_from_flags_witness :
  remote Sample.flags = "" /\
  Forall (fun e => fs_call e = false) (sample_trace Sample.no_faults Sample.flags) /\
  exists c hc nc n,
    head (omap created (sample_trace Sample.no_faults Sample.flags)) =
      Some (c, hc, nc, n) /\
    Mounts hc = dev_mounts Sample.home (sourcePath Sample.flags)
                  (targetPath Sample.flags).
Proof.
  split; [reflexivity|].
  pose proof (dev_container_from_flags Sample.double Sample.home
                (Sample.oracle Sample.no_faults) Sample.flags) as Hc.
  vm_compute in Hc. destruct Hc as [Hc _]. specialize (Hc eq_refl).
  destruct Hc as [Hfs Hm]. vm_compute. split; [exact Hfs|].
  eexists _, _, _, _. split; [reflexivity|]. exact (Hm _ _ _ _ eq_refl).
Defined.

(** No [-name]; no client; no list; no clone. *)
Lemma startup_failures_witness :
  (containerName (Sample.remote_flags "" "") = "" /\
   exit_status (sample_outcome Sample.no_faults (Sample.remote_flags "" "")) <> 0%Z /\
   Forall (fun e => docker_call e = false)
     (sample_trace Sample.no_faults (Sample.remote_flags "" ""))) /\
  (refused_outcome "client" "no socket" Sample.flags =
     Fatal "Error creating Docker client: %v" [AErr "no socket"] /\
   Forall (fun e => touches e = false)
     (refused_trace "client" "no socket" Sample.flags)) /\
  (refused_outcome "list" "connection refused" Sample.flags =
     Fatal "Error getting Docker container's id by name: %v"
       [AErr "connection refused"] /\
   Forall (fun e => touches e = false)
     (refused_trace "list" "connection refused" Sample.flags)) /\
  (refused_outcome "git" "exit status 128"
     (Sample.remote_flags "api" "https://host/repo.git") =
     Fatal "Failed to clone repository: %v" [AErr "exit status 128"] /\
   Forall (fun e => docker_call e = false)
     (refused_trace "git" "exit status 128"
        (Sample.remote_flags "api" "https://host/repo.git"))).
Proof.
  split; [|split; [|split]].
  - split; [reflexivity|].
    pose proof (startup_failures Sample.double Sample.home
                  (Sample.oracle Sample.no_faults) (Sample.remote_flags "" "")) as Hc.
    vm_compute in Hc. destruct Hc as (Hc & _).
    vm_compute. exact (Hc eq_refl).
  - pose proof (startup_failures Sample.double Sample.home
                  (refusal "client" "no socket") Sample.flags) as Hc.
    vm_compute in Hc. destruct Hc as (_ & Hc & _).
    vm_compute. exact (Hc _ eq_refl).
  - pose proof (startup_failures Sample.double Sample.home
                  (refusal "list" "connection refused") Sample.flags) as Hc.
    vm_compute in Hc. destruct Hc as (_ & _ & Hc & _).
    vm_compute. exact (Hc _ eq_refl).
  - pose proof (startup_failures Sample.double Sample.home
                  (refusal "git" "exit status 128")
                  (Sample.remote_flags "api" "https://host/repo.git")) as Hc.
    vm_compute in Hc. destruct Hc as (_ & _ & _ & Hc).
    vm_compute. exact (Hc _ _ eq_refl).
Defined.

(** In the sample run the development container is reported running: one
    stop request and one wait, then its removal. *)
Lemma dev_teardown_by_state_witness :
  exists s,
    run_choices (sample_schedule Sample.no_faults)
      (start (main Sample.double Sample.home Sample.flags)) = Some s /\
    after_recv (main_log s) = Some (sample_post Sample.no_faults) /\
    head (omap inspected (sample_post Sample.no_faults)) =
      Some (Sample.dev_id, Ok Sample.reply) /\
    fst <$> omap stopped (sample_post Sample.no_faults) = [Sample.dev_id] /\
    omap waited (sample_post Sample.no_faults) = [Sample.dev_id] /\
    fst <$> omap removed (sample_post Sample.no_faults) = [Sample.dev_id].
Proof.
  destruct (reached_some
              (run_choices (sample_schedule Sample.no_faults)
                 (start (main Sample.double Sample.home Sample.flags))))
    as [s Hs]; [vm_compute; reflexivity|].
  assert (exited s = Some (Exited 0)) as Hex
    by (apply (reached_fact exited _ s _ Hs); vm_compute; reflexivity).
  assert (Forall (fun x => failed_attach x.2 = false) (log s)) as Hno
    by (apply forallb_none;
        apply (reached_fact
                 (fun s => forallb (fun x => negb (failed_attach x.2)) (log s))
                 _ s true Hs); vm_compute; reflexivity).
  assert (after_recv (main_log s) = Some (sample_post Sample.no_faults)) as Hpost
    by (apply (reached_fact (fun s => after_recv (main_log s)) _ s _ Hs);
        vm_compute; reflexivity).
  assert (head (omap inspected (sample_post Sample.no_faults)) =
          Some (Sample.dev_id, Ok Sample.reply)) as Hi by (vm_compute; reflexivity).
  destruct (dev_teardown_by_state Sample.double Sample.home Sample.flags _ s _ _ _
              Hs Hpost Hi) as (_ & _ & _ & _ & Hend).
  exists s. repeat (split; [assumption|]). exact (Hend _ Hex Hno).
Defined.

(** The wait for the development container fails while [main] waits on
    the empty channel: the exit watcher reports the error and sends its
    interrupt all the same. *)
Lemma exit_watcher_always_interrupts_witness :
  exists s3 format args,
    run_choices [Run 1 (refusing "wait d3v" "connection lost");
                 Run 1 (refusing "wait d3v" "connection lost");
                 Run 1 (refusing "wait d3v" "connection lost")] watching = Some s3 /\
    (format, args) =
      ("Error waiting for container to stop: %v", [AErr "connection lost"]) /\
    exists s4,
      step_by (Run 1 (refusing "wait d3v" "connection lost")) s3 = Some s4 /\
      exited s4 = None /\
      chan_buf s4 = [Interrupt] /\
      threads s4 = [call ChanRecv;; mret tt; Ret tt].
Proof.
  destruct (exit_watcher_always_interrupts watching 1 Sample.dev_id
              (refusing "wait d3v" "connection lost")
              (refusing "wait d3v" "connection lost")
              (refusing "wait d3v" "connection lost")
              (refusing "wait d3v" "connection lost") eq_refl eq_refl)
    as (s3 & format & args & Hrun & _ & _ & _ & Hfmt & Hroom & _).
  exists s3, format, args. split; [exact Hrun|]. split; [exact Hfmt|].
  assert (length (chan_buf watching) < chan_cap watching) as Hlt
    by (vm_compute; lia).
  destruct (Hroom Hlt) as (s4 & Hstep & Hex & Hbuf & Hth & _).
  exists s4. split; [exact Hstep|]. split; [exact Hex|].
  split; [exact Hbuf|exact Hth].
Defined.

(** The sample run after nine steps of [main]: the original container is
    removed, the channel is not registered yet, and an interrupt ends the
    process.  After ten steps the interrupt goes into the channel. *)
Lemma interrupt_before_and_after_notify_witness :
  (exists s s',
     run_choices (replicate 9 (Run 0 (Sample.answers Sample.no_faults)))
       (start (main Sample.double Sample.home Sample.flags)) = Some s /\
     omap (fun x => removed x.2) (log s) = [("c0ffee", None)] /\
     step_by (Deliver Interrupt) s = Some s' /\
     exited s' = Some (Signaled Interrupt) /\
     forall c, step_by c s' = None) /\
  (exists s s',
     run_choices (replicate 10 (Run 0 (Sample.answers Sample.no_faults)))
       (start (main Sample.double Sample.home Sample.flags)) = Some s /\
     step_by (Deliver Interrupt) s = Some s' /\
     exited s' = None /\ chan_buf s' = [Interrupt]).
Proof.
  split.
  - assert (match run_choices (replicate 9 (Run 0 (Sample.answers Sample.no_faults)))
       (start (main Sample.double Sample.home Sample.flags))
            with Some _ => true | None => false end = true)
      as Hsome by (vm_compute; reflexivity).
    destruct (run_choices (replicate 9 (Run 0 (Sample.answers Sample.no_faults)))
       (start (main Sample.double Sample.home Sample.flags)))
      as [s|] eqn:Hs; [clear Hsome|discriminate Hsome].
    assert (exited s = None) as Hex
      by (apply (reached_fact exited _ s None Hs); vm_compute; reflexivity).
    assert (forallb (fun x => negb (is_notify x.2)) (log s) = true) as Hno
      by (apply (reached_fact
                   (fun s => forallb (fun x => negb (is_notify x.2)) (log s))
                   _ s true Hs); vm_compute; reflexivity).
    assert (omap (fun x => removed x.2) (log s) = [("c0ffee", None)]) as Hrm
      by (apply (reached_fact (fun s => omap (fun x => removed x.2) (log s))
                   _ s _ Hs); vm_compute; reflexivity).
    destruct (interrupt_before_and_after_notify Sample.double Sample.home
                Sample.flags _ s Hs Hex) as [Hbefore _].
    destruct (Hbefore (forallb_none _ _ Hno)) as (_ & _ & s' & Hstep & Hex' & _ & Hfin).
    exists s, s'. auto.
  - assert (match run_choices (replicate 10 (Run 0 (Sample.answers Sample.no_faults)))
       (start (main Sample.double Sample.home Sample.flags))
            with Some _ => true | None => false end = true)
      as Hsome by (vm_compute; reflexivity).
    destruct (run_choices (replicate 10 (Run 0 (Sample.answers Sample.no_faults)))
       (start (main Sample.double Sample.home Sample.flags)))
      as [s|] eqn:Hs; [clear Hsome|discriminate Hsome].
    assert (exited s = None) as Hex
      by (apply (reached_fact exited _ s None Hs); vm_compute; reflexivity).
    assert (existsb (fun x => is_notify x.2) (log s) = true) as Hyes
      by (apply (reached_fact (fun s => existsb (fun x => is_notify x.2) (log s))
                   _ s true Hs); vm_compute; reflexivity).
    assert ((if length (chan_buf s) <? chan_cap s
             then chan_buf s ++ [Interrupt] else chan_buf s) = [Interrupt]) as Hroom
      by (apply (reached_fact
                   (fun s => if length (chan_buf s) <? chan_cap s
                             then chan_buf s ++ [Interrupt] else chan_buf s)
                   _ s _ Hs); vm_compute; reflexivity).
    destruct (interrupt_before_and_after_notify Sample.double Sample.home
                Sample.flags _ s Hs Hex) as [_ Hafter].
    destruct (Hafter (existsb_some _ _ Hyes)) as (s' & Hstep & Hex' & _ & _ & Hbuf).
    exists s, s'. rewrite Hroom in Hbuf. auto.
Defined.

(** A URL whose last [.] is in the host name: [main] panics at once.  A
    URL with a [.] in the repository name: the name runs up to the last
    one. *)
Lemma clone_name_between_slash_and_dot_witness :
  exec (Sample.oracle Sample.no_faults)
    (main Sample.double Sample.home
       (Sample.remote_flags "api" "https://github.com/user/repo")) =
    ([], Panicked "slice bounds out of range") /\
  exists st rm cl,
    (exec (Sample.oracle Sample.no_faults)
       (cloneRemoteRepo (remote (Sample.remote_flags "api" "git@host:dev/tool.v2.git"))
          (branch (Sample.remote_flags "api" "git@host:dev/tool.v2.git")))).1 =
      clone_events "git@host:dev/tool.v2.git" "dev" "/tmp/tool.v2" st rm cl /\
    (exec (Sample.oracle Sample.no_faults)
       (cloneRemoteRepo (remote (Sample.remote_flags "api" "git@host:dev/tool.v2.git"))
          (branch (Sample.remote_flags "api" "git@host:dev/tool.v2.git")))).2 =
      match cl with
      | None => Done "/tmp/tool.v2"
      | Some err => Fatal "Failed to clone repository: %v" [AErr err]
      end.
Proof.
  split.
  - pose proof (clone_name_between_slash_and_dot Sample.double Sample.home
                  (Sample.oracle Sample.no_faults)
                  (Sample.remote_flags "api" "https://github.com/user/repo")) as Hc.
    cbv zeta in Hc. destruct Hc as [Hc _].
    destruct Hc as [_ Hm].
    + intros d Hd. vm_compute in Hd. injection Hd as <-. vm_compute. lia.
    + apply Hm. vm_compute. discriminate.
  - pose proof (clone_name_between_slash_and_dot Sample.double Sample.home
                  (Sample.oracle Sample.no_faults)
                  (Sample.remote_flags "api" "git@host:dev/tool.v2.git")) as Hc.
    cbv zeta in Hc. destruct Hc as [_ Hc].
    apply (Hc 20); [vm_compute; reflexivity|vm_compute; lia].
Defined.
